(** * jeriDB hybrid retrieval engine

    A shallow embedding of the backend of jeriDB (an Express service in front
    of a LanceDB vector table and a Neo4j graph) and the properties of its
    specification that were checked against it.

    Source files embedded here:
    - [backend/src/routes/hybrid.js]  : the two schema validators, the
      ingestion router ([cleanData], [decideRoute]), [graphSearch], the score
      fusion ([mergeResults]) and the twelve handlers;
    - [backend/src/utils/similarity.js] : [cosineSimilarity],
      [batchSimilarity], [distanceToSimilarity];
    - [backend/src/utils/embedding.js]  : [generateMockEmbedding], the real
      model and the fallback to the mock ([generateEmbedding]);
    - [backend/src/databases/vectordb.js] : [VectorDB.search] and, in the
      module [VectorDB], the methods of the class on its LanceDB table;
    - [backend/src/databases/neo4jdb.js] : the module [Neo4jDB];
    - [backend/src/routes/vector.js] : the routes under /vector, in the module
      [VectorRoutes].

    Conventions of the embedding.
    - A JavaScript number is an IEEE double in the program.  Rounding is not
      modelled: arithmetic that only uses [+ - * <] is carried out over the
      rationals [Q] (every JSON number literal is a rational), arithmetic that
      calls [Math.sqrt] or [Math.sin] over the reals [R]; the 32-bit integer
      operators [<<] and [&] are exact on [Z] with the wrap-around written out.
      The one place where rounding decides a result is the order that
      [mergeResults] returns: there the product and the sum are parameters,
      and the handlers are stated with the exact ones.
    - A JavaScript string is a [string], a character is one code unit (below
      256); the hash of embedding.js takes any sequence of code units.
    - A JSON object is a finite map from property names to values and stands
      for the object's own properties.  A request body is only read at fixed
      names that [Object.prototype] does not have.  The table of graph boosts
      is read and written at document ids, so its lookups fall back to
      [Object.prototype] and an assignment to [__proto__] stores nothing.
    - [@lancedb/lancedb] exports no function [where]; the call
      [lancedb.where] in [deleteDocument] throws a TypeError.
    - An [await]ed call to a store is an event of a small program monad; a run
      of a program against an environment yields the trace of the calls that
      were made together with the outcome.
    - The two client classes are embedded one level below: a method is a
      function of the fields of its object that calls into the library, and a
      run against a world, which answers a call given the calls made before
      it, yields the calls, the outcome and the fields as the method leaves
      them. *)

From Stdlib Require Import ZArith QArith Reals Lqa Lra Lia List String Ascii.
From Stdlib Require Import Permutation Sorted.
From stdpp Require Import gmap strings.

#[local] Set Warnings "-register-all".
#[local] Open Scope string_scope.
#[local] Open Scope nat_scope.

(** ** JavaScript values *)

Inductive JsVal : Type :=
| JUndefined
| JNull
| JBool (b : bool)
| JNum (q : Q)
| JStr (s : string)
| JArr (items : list JsVal)
| JObj (fields : gmap string JsVal).

(** ToBoolean. *)
Definition truthy (v : JsVal) : bool :=
  match v with
  | JUndefined | JNull => false
  | JBool b => b
  | JNum q => negb (Qeq_bool q 0)
  | JStr s => negb (String.eqb s "")
  | JArr _ | JObj _ => true
  end.

(** [a || b] and [!a] on values. *)
Definition js_or (a b : JsVal) : JsVal := if truthy a then a else b.
Definition js_not (a : JsVal) : bool := negb (truthy a).

Infix "|||" := js_or (at level 50, left associativity).

Definition JNat (n : nat) : JsVal := JNum (inject_Z (Z.of_nat n)).

(** [data.k] on an object: the own property, [undefined] when there is none. *)
Definition field (data : gmap string JsVal) (k : string) : JsVal :=
  default JUndefined (data !! k).

Notation "d .[ k ]" := (field d k) (at level 1, left associativity, format "d .[ k ]").

(** [v?.length]: [undefined] on a nullish value, the number of elements of an
    array, the number of code units of a string, the own property of an
    object; numbers and booleans have no such property. *)
Definition opt_length (v : JsVal) : JsVal :=
  match v with
  | JUndefined | JNull => JUndefined
  | JArr items => JNat (List.length items)
  | JStr s => JNat (String.length s)
  | JObj fields => field fields "length"
  | JNum _ | JBool _ => JUndefined
  end.

(** Thrown values. *)
Inductive Exn : Type :=
| MissingFields (names : list string)
| InvalidEdgeType (ty : JsVal)
| WeightOutOfRange
| InvalidNodeType (ty : JsVal)
| DimensionMismatch
| TypeError (what : string)
| StoreFailure (message : string).

Inductive result (A : Type) : Type :=
| Ok (a : A)
| Throw (e : Exn).
Arguments Ok {A} a.
Arguments Throw {A} e.

Definition rbind {A B} (r : result A) (f : A -> result B) : result B :=
  match r with
  | Ok a => f a
  | Throw e => Throw e
  end.

(** ** Strings: the two regular expressions of [cleanData] and [trim] *)

(** [\s] and the characters removed by [trim], among the code units below 256. *)
Definition is_space (c : ascii) : bool :=
  let n := nat_of_ascii c in
  ((9 <=? n) && (n <=? 13)) || (n =? 32) || (n =? 160).

(** [\w] is [[A-Za-z0-9_]]. *)
Definition is_word (c : ascii) : bool :=
  let n := nat_of_ascii c in
  ((48 <=? n) && (n <=? 57)) || ((65 <=? n) && (n <=? 90))
  || ((97 <=? n) && (n <=? 122)) || (n =? 95).

(** [s.replace(/\s+/g, ' ')]; [in_run] tells that the previous character was
    part of the run being replaced. *)
Fixpoint collapse_spaces (in_run : bool) (s : string) : string :=
  match s with
  | EmptyString => EmptyString
  | String c rest =>
      if is_space c
      then if in_run then collapse_spaces true rest
           else String " " (collapse_spaces true rest)
      else String c (collapse_spaces false rest)
  end.

(** [[^\w\s.,!?]] *)
Definition is_noise (c : ascii) : bool :=
  negb (is_word c || is_space c
        || Ascii.eqb c "." || Ascii.eqb c "," || Ascii.eqb c "!" || Ascii.eqb c "?").

(** [s.replace(/[^\w\s.,!?]/g, '')] *)
Fixpoint strip_noise (s : string) : string :=
  match s with
  | EmptyString => EmptyString
  | String c rest =>
      if is_noise c then strip_noise rest else String c (strip_noise rest)
  end.

Fixpoint trim_start (s : string) : string :=
  match s with
  | EmptyString => EmptyString
  | String c rest => if is_space c then trim_start rest else s
  end.

Fixpoint trim_end (s : string) : string :=
  match s with
  | EmptyString => EmptyString
  | String c rest =>
      match trim_end rest with
      | EmptyString => if is_space c then EmptyString else String c EmptyString
      | kept => String c kept
      end
  end.

Definition trim (s : string) : string := trim_end (trim_start s).

(** [v?.trim()]: only strings have the method. *)
Definition opt_trim (v : JsVal) : result JsVal :=
  match v with
  | JUndefined | JNull => Ok JUndefined
  | JStr s => Ok (JStr (trim s))
  | _ => Throw (TypeError "trim is not a function")
  end.

(** ** hybrid.js: schema validation *)

Definition edge_required : list string := ["source"; "target"; "type"].
Definition edge_validTypes : list string :=
  ["USES"; "MENTIONS"; "CREATED"; "RELATED"; "DEPLOYED"].

(** [validTypes.includes(v)] compares with SameValueZero: only a string can be
    found in a list of strings. *)
Definition includes (validTypes : list string) (v : JsVal) : bool :=
  match v with
  | JStr s => existsb (String.eqb s) validTypes
  | _ => false
  end.

Section Validation.
(** ToNumber on the values whose conversion goes through the grammar of
    numeric string literals (strings, and arrays and objects by way of their
    string form); [None] is NaN.  It is left abstract. *)
Variable StringToNumber : JsVal -> option Q.

Definition ToNumber (v : JsVal) : option Q :=
  match v with
  | JUndefined => None
  | JNull => Some 0%Q
  | JBool b => Some (if b then 1%Q else 0%Q)
  | JNum q => Some q
  | JStr _ | JArr _ | JObj _ => StringToNumber v
  end.

(** [v < c] and [v > c] for a numeric constant [c]; false on NaN. *)
Definition js_lt_const (v : JsVal) (c : Q) : bool :=
  match ToNumber v with
  | Some q => match Qlt_le_dec q c with left _ => true | right _ => false end
  | None => false
  end.

Definition js_gt_const (v : JsVal) (c : Q) : bool :=
  match ToNumber v with
  | Some q => match Qlt_le_dec c q with left _ => true | right _ => false end
  | None => false
  end.

Definition validateEdgeSchema (data : gmap string JsVal) : result bool :=
  let missing := List.filter (fun f => js_not data.[f]) edge_required in
  if (0 <? List.length missing)%nat then Throw (MissingFields missing)
  else if negb (includes edge_validTypes data.["type"])
  then Throw (InvalidEdgeType data.["type"])
  else if truthy data.["weight"]
          && (js_lt_const data.["weight"] 0 || js_gt_const data.["weight"] 1)
  then Throw WeightOutOfRange
  else Ok true.
End Validation.

(** [v.k] for a property name that is neither [length] nor an index: reading
    a property of [null] or [undefined] throws, a value that is not an object
    has no such property. *)
Definition member (v : JsVal) (k : string) : result JsVal :=
  match v with
  | JUndefined | JNull => Throw (TypeError "cannot read properties of a nullish value")
  | JObj fields => Ok fields.[k]
  | _ => Ok JUndefined
  end.

(** [v?.k] *)
Definition opt_member (v : JsVal) (k : string) : JsVal :=
  match v with
  | JObj fields => fields.[k]
  | _ => JUndefined
  end.

Definition node_required : list string := ["id"; "text"].
Definition node_validTypes : list string :=
  ["person"; "org"; "document"; "concept"; "healthcare_ai"; "medical_ml"; "test"].

Definition validateNodeSchema (data : gmap string JsVal) : result bool :=
  let missing := List.filter (fun f => js_not data.[f]) node_required in
  if (0 <? List.length missing)%nat then Throw (MissingFields missing)
  else if truthy (opt_member data.["metadata"] "type")
          && negb (includes node_validTypes (opt_member data.["metadata"] "type"))
  then Throw (InvalidNodeType (opt_member data.["metadata"] "type"))
  else Ok true.

(** ** hybrid.js: the ingestion router *)

Inductive RouteDecision : Type := BOTH | VECTOR_ONLY | GRAPH_ONLY | METADATA_ONLY.

(** [cleanData] returns the payload itself, [null] ([None]) or a copy with the
    cleaned text; [.trim()] and [.replace()] throw on a value that has no such
    method.  The three [.trim()] calls are evaluated left to right and stop at
    the first operand of [&&] that is false. *)
Definition cleanData (data : gmap string JsVal) : result (option (gmap string JsVal)) :=
  if truthy (opt_length data.["nodes"] ||| opt_length data.["edges"])
  then Ok (Some data)
  else
    let clean :=
      match data.["text"] ||| data.["content"] ||| data.["title"]
            ||| data.["description"] ||| JStr "" with
      | JStr raw =>
          let cleanText := trim (strip_noise (collapse_spaces false raw)) in
          if (String.length cleanText <? 10)%nat then Ok None
          else Ok (Some (<["text" := JStr cleanText]> data))
      | _ => Throw (TypeError "replace is not a function")
      end in
    rbind (opt_trim data.["text"]) (fun t =>
    if truthy t then clean else
    rbind (opt_trim data.["content"]) (fun c =>
    if truthy c then clean else
    rbind (opt_trim data.["title"]) (fun ti =>
    if truthy ti then clean else Ok None))).

Definition decideRoute (data : gmap string JsVal) : RouteDecision :=
  let hasText :=
    data.["text"] ||| data.["content"] ||| data.["title"] ||| data.["description"] in
  let hasRelationships :=
    opt_length data.["nodes"] ||| opt_length data.["edges"]
    ||| data.["relationships"] ||| data.["parent_id"] ||| data.["children"] in
  if truthy hasText && truthy hasRelationships then BOTH
  else if truthy hasText then VECTOR_ONLY
  else if truthy hasRelationships then GRAPH_ONLY
  else METADATA_ONLY.

(** The classification as the specification words it: a text-like field is
    truthy, a relationship field is present. *)
Definition present (data : gmap string JsVal) (k : string) : bool :=
  bool_decide (is_Some (data !! k)).

Definition spec_hasText (data : gmap string JsVal) : bool :=
  truthy data.["text"] || truthy data.["content"]
  || truthy data.["title"] || truthy data.["description"].

Definition spec_hasRelationships (data : gmap string JsVal) : bool :=
  present data "nodes" || present data "edges" || present data "relationships"
  || present data "parent_id" || present data "children".

Definition decision_table (hasText hasRelationships : bool) : RouteDecision :=
  match hasText, hasRelationships with
  | true, true => BOTH
  | true, false => VECTOR_ONLY
  | false, true => GRAPH_ONLY
  | false, false => METADATA_ONLY
  end.

(** The relationship flag as [decideRoute] computes it. *)
Definition code_hasRelationships (data : gmap string JsVal) : bool :=
  truthy (opt_length data.["nodes"]) || truthy (opt_length data.["edges"])
  || truthy data.["relationships"] || truthy data.["parent_id"]
  || truthy data.["children"].


(** ** Arrays *)

Section Sort.
Context {A : Type}.
(** [comparefn a b] is the number returned by the comparator. *)
Variable comparefn : A -> A -> Q.

(** [a] goes after [b] exactly when [comparefn a b > 0]. *)
Definition goes_after (a b : A) : bool := negb (Qle_bool (comparefn a b) 0).

Fixpoint sort_insert (a : A) (sorted : list A) : list A :=
  match sorted with
  | [] => [a]
  | b :: rest =>
      if goes_after a b then b :: sort_insert a rest else a :: b :: rest
  end.

(** [Array.prototype.sort(comparefn)].  ECMAScript requires the sort to be
    stable, and for a comparator that is a consistent ordering every stable
    sort returns the same array; it is embedded as the insertion of each
    element, from the last to the first, in front of the first element it
    does not have to follow. *)
Definition sort (l : list A) : list A := fold_right sort_insert [] l.
End Sort.

(** The clamping of an index argument of [slice] against the length. *)
Definition relative_index (len i : Z) : Z :=
  if (i <? 0)%Z then Z.max (len + i) 0 else Z.min i len.

(** [l.slice(start, stop)] *)
Definition slice {A : Type} (l : list A) (start stop : Z) : list A :=
  let len := Z.of_nat (List.length l) in
  let k := relative_index len start in
  let final := relative_index len stop in
  firstn (Z.to_nat (final - k)) (skipn (Z.to_nat k) l).

(** [Math.ceil(a / b)] on integers; the quotient by zero is not a finite
    number (it is serialised as [null]). *)
Definition ceil_div (a b : Z) : option Z :=
  if (b =? 0)%Z then None else Some (- ((- a) / b))%Z.

(** [l.map((x, index) => f x index)] *)
Fixpoint map_index {A B : Type} (f : A -> nat -> B) (index : nat) (l : list A) : list B :=
  match l with
  | [] => []
  | x :: rest => f x index :: map_index f (S index) rest
  end.

(** [x || d] for a number or [undefined] [x]. *)
Definition num_or (x : option Q) (d : Q) : Q :=
  match x with
  | Some q => if Qeq_bool q 0 then d else q
  | None => d
  end.

(** [s.split(',')] for a one-character separator. *)
Fixpoint split_on (sep : ascii) (s : string) : list string :=
  match s with
  | EmptyString => [EmptyString]
  | String c rest =>
      if Ascii.eqb c sep then EmptyString :: split_on sep rest
      else match split_on sep rest with
           | [] => [String c EmptyString]
           | piece :: pieces => String c piece :: pieces
           end
  end.

(** ** hybrid.js: score fusion *)

(** A formatted row of [VectorDB.search]. *)
Record VectorHit : Type := {
  rank : Z;
  docId : string;
  text : string;
  distance : Q;
  similarity : Q;
  metadata : JsVal
}.

(** The properties that an object written [{}] inherits from
    [Object.prototype].  Each of them is truthy and is no number: eleven are
    functions, and [__proto__] reads as the prototype itself. *)
Definition Object_prototype : list string :=
  ["constructor"; "__defineGetter__"; "__defineSetter__"; "hasOwnProperty";
   "__lookupGetter__"; "__lookupSetter__"; "isPrototypeOf";
   "propertyIsEnumerable"; "toString"; "valueOf"; "__proto__"; "toLocaleString"].

Definition inherited (key : string) : bool :=
  existsb (String.eqb key) Object_prototype.

(** [graphBoost[key]] on a plain object whose own properties hold numbers: the
    own property, else the inherited member of that name, else [undefined]. *)
Inductive Property : Type :=
| OwnNumber (q : Q)
| InheritedMember (name : string)
| NoProperty.

Definition get_property (graphBoost : gmap string Q) (key : string) : Property :=
  match graphBoost !! key with
  | Some q => OwnNumber q
  | None => if inherited key then InheritedMember key else NoProperty
  end.

(** A value of [hybrid_score]: a number, or the string that [+] makes of a
    number and an inherited member (the text of the number followed by the
    text of the member). *)
Inductive Score : Type :=
| Num (q : Q)
| NumThenMember (q : Q) (name : string).

(** [{ ...r, hybrid_score }] *)
Record ScoredHit : Type := {
  hit : VectorHit;
  hybrid_score : Score
}.

(** [b.hybrid_score - a.hybrid_score]: the difference of two numbers, whose
    sign is that of the exact difference also when it is rounded; with a
    string that is no numeric literal the difference is NaN, which a sort
    takes for [+0]. *)
Definition compare_scores (a b : ScoredHit) : Q :=
  match hybrid_score b, hybrid_score a with
  | Num y, Num x => (y - x)%Q
  | _, _ => 0%Q
  end.

Section Fusion.
(** The order [mergeResults] returns depends on how the products and sums are
    rounded, so they are not idealised here: [mul] and [add] are the product
    and the sum of two numbers as the machine computes them (a finite double
    is a rational; overflow is left out). *)
Variables mul add : Q -> Q -> Q.

(** [(r.similarity * vectorWeight) + (graphBoost[r.docId] || 0)] *)
Definition totalScore (graphBoost : gmap string Q) (vectorWeight : Q)
    (r : VectorHit) : Score :=
  match get_property graphBoost (docId r) with
  | OwnNumber q =>
      Num (add (mul (similarity r) vectorWeight) (if Qeq_bool q 0 then 0%Q else q))
  | InheritedMember name => NumThenMember (mul (similarity r) vectorWeight) name
  | NoProperty => Num (add (mul (similarity r) vectorWeight) 0%Q)
  end.

(** When a score is a string the comparator is no consistent ordering and
    ECMAScript leaves the order of the result to the engine; [sort] then
    stands for one engine, and nothing below relies on the order it gives in
    that case. *)
Definition mergeResults (vectorResults : list VectorHit)
    (graphBoost : gmap string Q) (vectorWeight : Q) : list ScoredHit :=
  let scored :=
    map (fun r => {| hit := r; hybrid_score := totalScore graphBoost vectorWeight r |})
        vectorResults in
  sort compare_scores scored.
End Fusion.

(** ** Calls to the two stores *)

(** A row of the LanceDB table as [toArray()] returns it ([metadata] stands
    for the stored JSON text once parsed). *)
Record RawRow : Type := {
  row_id : string;
  row_text : string;
  row_distance : option Q;
  row_metadata : JsVal
}.

(** A record of the keyword query: [n.id as docId, 0.9 as score]. *)
Record KeywordRecord : Type := {
  rec_docId : string;
  rec_score : Q
}.

(** A record of the multi-hop query. *)
Record PathRecord : Type := {
  rec_start_node : JsVal;
  rec_related_node : JsVal;
  rec_relationships : list (string * JsVal);
  rec_hop_count : Z
}.

(** The calls that leave the process, indexed by the type of what they resolve
    to.  The methods of the two client objects [vectorDB] and [graphDB] are the
    store contract of the specification; [VectorDB.search] is embedded below
    down to [table.search(e).limit(n).toArray()] of LanceDB, and the three
    Cypher queries that hybrid.js sends itself through the Neo4j session are
    calls of their own. *)
Inductive storeE : Type -> Type :=
| TableSearch (queryText : string) (limit : Z) : storeE (list RawRow)
| VectorAddDocument (id text metadata : JsVal) : storeE unit
| VectorUpdateDocument (id : string) (text metadata : JsVal) : storeE unit
| VectorDeleteDocument (id : string) : storeE unit
| VectorGetStats : storeE JsVal
| GraphAddNode (id nodeData : JsVal) : storeE unit
| GraphAddEdge (source target type weight : JsVal) : storeE unit
| GraphGetNode (id : string) : storeE JsVal
| GraphTraverse (startId : string) (depth : Z) : storeE (list JsVal)
| GraphGetStats : storeE JsVal
| GraphEdgeById (id : string) : storeE (list JsVal)
| GraphDeleteNode (id : string) : storeE unit
| GraphKeywordSearch (query : string) : storeE (list KeywordRecord)
| GraphMultiHop (startId : string) (types : list string) (hops : nat)
    : storeE (list PathRecord).

(** An async function body: it returns, throws, or awaits a store call and
    goes on with the value the promise resolved to or the error it rejected
    with. *)
Inductive Prog (R : Type) : Type :=
| Ret (r : R)
| Raise (e : Exn)
| Vis {A : Type} (call : storeE A) (k : result A -> Prog R).
Arguments Ret {R} r.
Arguments Raise {R} e.
Arguments Vis {R A} call k.

Fixpoint bind {R S : Type} (p : Prog R) (f : R -> Prog S) : Prog S :=
  match p with
  | Ret r => f r
  | Raise e => Raise e
  | Vis call k => Vis call (fun reply => bind (k reply) f)
  end.

(** [try { p } catch (error) { handler error }] *)
Fixpoint try_catch {R : Type} (p : Prog R) (handler : Exn -> Prog R) : Prog R :=
  match p with
  | Ret r => Ret r
  | Raise e => handler e
  | Vis call k => Vis call (fun reply => try_catch (k reply) handler)
  end.

(** [await call]: a rejected promise is thrown at the [await]. *)
Definition await {A : Type} (call : storeE A) : Prog A :=
  Vis call (fun reply => match reply with Ok a => Ret a | Throw e => Raise e end).

Definition lift {A : Type} (r : result A) : Prog A :=
  match r with Ok a => Ret a | Throw e => Raise e end.

Notation "x <- p ;; q" := (bind p (fun x => q))
  (at level 100, p at next level, right associativity).
Notation "p ;;; q" := (bind p (fun _ => q))
  (at level 100, right associativity).

(** [for (const x of l) await body x] *)
Fixpoint for_of {A : Type} (l : list A) (body : A -> Prog unit) : Prog unit :=
  match l with
  | [] => Ret tt
  | x :: rest => body x ;;; for_of rest body
  end.

(** The stores as seen from the process: what each call resolves to or is
    rejected with. *)
Definition Env : Type := forall A : Type, storeE A -> result A.

Inductive Call : Type :=
| CallOf {A : Type} (call : storeE A).

(** A run: the calls made, in order, and the outcome. *)
Fixpoint run {R : Type} (env : Env) (p : Prog R) : list Call * result R :=
  match p with
  | Ret r => ([], Ok r)
  | Raise e => ([], Throw e)
  | Vis call k =>
      let (trace, outcome) := run env (k (env _ call)) in
      (CallOf call :: trace, outcome)
  end.

Definition calls {R : Type} (env : Env) (p : Prog R) : list Call := fst (run env p).
Definition outcome {R : Type} (env : Env) (p : Prog R) : result R := snd (run env p).

(** ** vectordb.js: [VectorDB.search] *)

Record SearchResults : Type := {
  results : list VectorHit;
  totalResults : nat
}.

Definition format_row (result : RawRow) (index : nat) : VectorHit :=
  {| rank := Z.of_nat index + 1;
     docId := row_id result;
     text := row_text result;
     distance := num_or (row_distance result) 0;
     similarity := (1 - num_or (row_distance result) 0)%Q;
     metadata := row_metadata result |}.

Definition VectorDB_search (queryText : string) (topK : Z) : Prog SearchResults :=
  try_catch
    (rows <- await (TableSearch queryText topK) ;;
     let formattedResults :=
       List.filter (fun r => negb (String.eqb (docId r) "init"))
                   (map_index format_row 0 rows) in
     Ret {| results := formattedResults;
            totalResults := List.length formattedResults |})
    (fun error => Raise error).

(** ** hybrid.js: keyword search on the graph *)

Record GraphMatch : Type := {
  match_docId : string;
  match_score : Q
}.

Definition graphSearch (query : string) : Prog (list GraphMatch) :=
  try_catch
    (records <- await (GraphKeywordSearch query) ;;
     let matches :=
       map (fun record => {| match_docId := rec_docId record;
                             match_score := rec_score record |}) records in
     Ret matches)
    (fun error => Ret []).

(** ** hybrid.js: the handlers *)

(** What a handler sends: [res.json(body)], [res.status(400).json(...)] or
    [res.status(404).json(...)] from a guard, or
    [res.status(500).json({ error: error.message })] from the [catch] of the
    handler. *)
Inductive Response (Body : Type) : Type :=
| Json (body : Body)
| Status400 (error : string)
| Status404 (error : string)
| Status500 (error : Exn).
Arguments Json {Body} body.
Arguments Status400 {Body} error.
Arguments Status404 {Body} error.
Arguments Status500 {Body} error.

Definition handler {Body : Type} (body : Prog (Response Body)) : Prog (Response Body) :=
  try_catch body (fun error => Ret (Status500 error)).

(** POST /edges *)
Record EdgeCreated : Type := {
  edge_source : JsVal;
  edge_target : JsVal;
  edge_type : JsVal;
  edge_weight : JsVal
}.

Definition with_default (v d : JsVal) : JsVal :=
  match v with JUndefined => d | _ => v end.

Definition post_edges (StringToNumber : JsVal -> option Q)
    (body : gmap string JsVal) : Prog (Response EdgeCreated) :=
  handler
    (lift (validateEdgeSchema StringToNumber body) ;;;
     let source := body.["source"] in
     let target := body.["target"] in
     let type := body.["type"] in
     let weight := with_default body.["weight"] (JNum 1) in
     if js_not source || js_not target || js_not type
     then Ret (Status400 "source, target, type required")
     else
       await (GraphAddEdge source target type weight) ;;;
       Ret (Json {| edge_source := source; edge_target := target;
                    edge_type := type; edge_weight := weight |})).

(** POST /ingest *)

(** The values a [for ... of] goes through. *)
Definition iterate (v : JsVal) : result (list JsVal) :=
  match v with
  | JArr items => Ok items
  | JStr s => Ok (map (fun c => JStr (String c EmptyString)) (list_ascii_of_string s))
  | _ => Throw (TypeError "value is not iterable")
  end.

Record Ingested : Type := {
  routed_to : RouteDecision;
  cleaned_text_length : JsVal
}.

Definition is_route (r expected : RouteDecision) : bool :=
  match r, expected with
  | BOTH, BOTH | VECTOR_ONLY, VECTOR_ONLY
  | GRAPH_ONLY, GRAPH_ONLY | METADATA_ONLY, METADATA_ONLY => true
  | _, _ => false
  end.

Definition when (b : bool) (p : Prog unit) : Prog unit := if b then p else Ret tt.

(** The label of the log line, [cleaned.id || cleaned.text?.substring(0, 50)]:
    it is only printed, but [substring] is a method of strings alone. *)
Definition log_label (cleaned : gmap string JsVal) : result unit :=
  if truthy cleaned.["id"] then Ok tt
  else match cleaned.["text"] with
       | JUndefined | JNull | JStr _ => Ok tt
       | _ => Throw (TypeError "substring is not a function")
       end.

Definition post_ingest (data : gmap string JsVal) : Prog (Response Ingested) :=
  handler
    (cleaned <- lift (cleanData data) ;;
     match cleaned with
     | None => Ret (Status400 "Data too noisy or short (<10 chars)")
     | Some cleaned =>
         let routeDecision := decideRoute cleaned in
         lift (log_label cleaned) ;;;
         when (is_route routeDecision VECTOR_ONLY || is_route routeDecision BOTH)
           (await (VectorAddDocument cleaned.["id"] cleaned.["text"]
                            (cleaned.["metadata"] ||| JObj ∅))) ;;;
         when (is_route routeDecision GRAPH_ONLY || is_route routeDecision BOTH)
           (when (truthy cleaned.["nodes"])
              (nodes <- lift (iterate cleaned.["nodes"]) ;;
               for_of nodes (fun node =>
                 id <- lift (member node "id") ;;
                 await (GraphAddNode id node))) ;;;
            when (truthy cleaned.["edges"])
              (edges <- lift (iterate cleaned.["edges"]) ;;
               for_of edges (fun edge =>
                 from <- lift (member edge "from") ;;
                 to <- lift (member edge "to") ;;
                 type <- lift (member edge "type") ;;
                 weight <- lift (member edge "weight") ;;
                 await (GraphAddEdge from to type weight)))) ;;;
         Ret (Json {| routed_to := routeDecision;
                      cleaned_text_length :=
                        opt_length cleaned.["text"] ||| JNat 0 |})
     end).

(** POST /search *)
Record SearchRequest : Type := {
  req_query : string;
  req_type : option string;
  req_vector_weight : option Q;
  req_graph_weight : option Q;
  req_top_k : option Z;
  req_page : option Z
}.

Record SearchBody : Type := {
  res_query : string;
  res_type : string;
  res_vector_weight : Q;
  res_graph_weight : Q;
  res_page : Z;
  res_top_k : Z;
  total_pages : option Z;
  res_results : list ScoredHit;
  vector_hits : nat;
  graph_boosts : nat
}.

(** [graphScoreBoost[key] = value] for a number [value] on a plain object: it
    creates or overwrites the own property, except for the key [__proto__],
    where it runs the inherited setter, which ignores a value that is no
    object and creates nothing. *)
Definition assign (graphScoreBoost : gmap string Q) (key : string) (value : Q)
    : gmap string Q :=
  if String.eqb key "__proto__" then graphScoreBoost
  else <[key := value]> graphScoreBoost.

(** [graphMatches.forEach(match => { graphScoreBoost[match.docId] = match.score * graph_weight })] *)
Definition boosts_of (graphMatches : list GraphMatch) (graph_weight : Q) : gmap string Q :=
  fold_left (fun graphScoreBoost m =>
               assign graphScoreBoost (match_docId m)
                      (match_score m * graph_weight)%Q)
            graphMatches ∅.

Definition post_search (req : SearchRequest) : Prog (Response SearchBody) :=
  handler
    (let query := req_query req in
     let type := default "hybrid" (req_type req) in
     let vector_weight := default 0.7%Q (req_vector_weight req) in
     let graph_weight := default 0.3%Q (req_graph_weight req) in
     let top_k := default 5%Z (req_top_k req) in
     let page := default 1%Z (req_page req) in
     let offset := ((page - 1) * top_k)%Z in
     vectorResults <- VectorDB_search query top_k ;;
     graphScoreBoost <-
       (if String.eqb type "hybrid" || String.eqb type "graph"
        then graphMatches <- graphSearch query ;;
             Ret (boosts_of graphMatches graph_weight)
        else Ret ∅) ;;
     let hybridResults :=
       mergeResults Qmult Qplus (results vectorResults) graphScoreBoost vector_weight in
     let paginatedResults := slice hybridResults offset (offset + top_k) in
     Ret (Json {| res_query := query;
                  res_type := type;
                  res_vector_weight := vector_weight;
                  res_graph_weight := graph_weight;
                  res_page := page;
                  res_top_k := top_k;
                  total_pages := ceil_div (Z.of_nat (List.length hybridResults)) top_k;
                  res_results := paginatedResults;
                  vector_hits := totalResults vectorResults;
                  graph_boosts := size graphScoreBoost |})).

(** GET /search/multi-hop.  [hops] is spliced into the Cypher text as the upper
    bound of the variable-length pattern; it is taken here as the number its
    decimal text denotes. *)
Record MultiHopRequest : Type := {
  req_start_id : option string;
  req_hops : option nat;
  req_relationship_types : string
}.

Record PathRow : Type := {
  path_start : JsVal;
  path_related : JsVal;
  hop_count : Z;
  relationships : list (string * JsVal);
  path_length : Z
}.

Record MultiHopBody : Type := {
  res_start_id : string;
  res_hops : nat;
  paths : list PathRow;
  total_paths : nat
}.

Definition default_relationship_types : list string := ["USES"; "MENTIONS"; "RELATED"].

Definition get_multi_hop (req : MultiHopRequest) : Prog (Response MultiHopBody) :=
  handler
    (let start_id := req_start_id req in
     let hops := default 2 (req_hops req) in
     let relationship_types := req_relationship_types req in
     match start_id with
     | None | Some EmptyString => Ret (Status400 "start_id required")
     | Some start_id =>
       let types :=
         if String.eqb relationship_types "" then default_relationship_types
         else split_on "," relationship_types in
       records <- await (GraphMultiHop start_id types hops) ;;
       let paths :=
         map (fun record =>
                {| path_start := rec_start_node record;
                   path_related := rec_related_node record;
                   hop_count := rec_hop_count record;
                   relationships := rec_relationships record;
                   path_length := (rec_hop_count record + 1)%Z |}) records in
       Ret (Json {| res_start_id := start_id;
                    res_hops := hops;
                    paths := paths;
                    total_paths := List.length paths |})
     end).

(** The other handlers of hybrid.js.  Their bodies are JSON objects. *)

Definition obj (fields : list (string * JsVal)) : JsVal := JObj (list_to_map fields).

(** The own properties copied by [{ ...v }]; the index keys of a spread array
    or string are left out. *)
Definition spread (v : JsVal) : gmap string JsVal :=
  match v with
  | JObj fields => fields
  | _ => ∅
  end.

(** [{ name: metadata.name || id, type: metadata.type, tags: metadata.tags || [],
      ...metadata }] *)
Definition node_data (id metadata : JsVal) : result JsVal :=
  rbind (member metadata "name") (fun name =>
  rbind (member metadata "type") (fun type =>
  rbind (member metadata "tags") (fun tags =>
  Ok (JObj (spread metadata
            ∪ list_to_map [("name", name ||| id); ("type", type);
                           ("tags", tags ||| JArr [])]))))).

(** POST /nodes *)
Definition post_nodes (body : gmap string JsVal) : Prog (Response JsVal) :=
  handler
    (lift (validateNodeSchema body) ;;;
     let id := body.["id"] in
     let text := body.["text"] in
     let metadata := with_default body.["metadata"] (JObj ∅) in
     if js_not id || js_not text then Ret (Status400 "id and text required")
     else
       await (VectorAddDocument id text metadata) ;;;
       nodeData <- lift (node_data id metadata) ;;
       await (GraphAddNode id nodeData) ;;;
       Ret (Json (obj [("success", JBool true); ("node_id", id);
                       ("text_length", opt_length text);
                       ("driver", JStr "Neo4j+LanceDB")]))).

(** GET /nodes/:id *)
Definition get_node (id : string) : Prog (Response JsVal) :=
  handler
    (node <- await (GraphGetNode id) ;;
     if js_not node then Ret (Status404 "Node not found")
     else Ret (Json (obj [("success", JBool true); ("node", node)]))).

(** GET /search/graph; [depth] is the integer [parseInt] reads. *)
Definition get_search_graph (start_id : option string) (depth : option Z)
    : Prog (Response JsVal) :=
  handler
    (match start_id with
     | None | Some EmptyString => Ret (Status400 "start_id required")
     | Some start_id =>
         reachable <- await (GraphTraverse start_id (default 1%Z depth)) ;;
         Ret (Json (obj [("success", JBool true); ("start_id", JStr start_id);
                         ("nodes", JArr reachable); ("driver", JStr "Neo4j")]))
     end).

(** POST /search/vector *)
Definition post_search_vector (query : string) (top_k : option Z)
    : Prog (Response (list VectorHit * nat)) :=
  handler
    (let top_k := default 5%Z top_k in
     found <- VectorDB_search query top_k ;;
     Ret (Json (slice (results found) 0 top_k, totalResults found))).

(** GET /edges/:id *)
Definition get_edge (id : string) : Prog (Response JsVal) :=
  handler
    (records <- await (GraphEdgeById id) ;;
     Ret (Json (obj [("success", JBool true);
                     ("edge", default JUndefined (head records))]))).

(** PUT /nodes/:id *)
Definition put_node (id : string) (body : gmap string JsVal) : Prog (Response JsVal) :=
  handler
    (let text := body.["text"] in
     let metadata := body.["metadata"] in
     await (VectorUpdateDocument id text metadata) ;;;
     await (GraphAddNode (JStr id) (JObj (spread metadata))) ;;;
     Ret (Json (obj [("success", JBool true); ("id", JStr id)]))).

(** DELETE /nodes/:id *)
Definition delete_node (id : string) : Prog (Response JsVal) :=
  handler
    (await (VectorDeleteDocument id) ;;;
     await (GraphDeleteNode id) ;;;
     Ret (Json (obj [("success", JBool true); ("deleted", JStr id)]))).

(** GET /stats *)
Definition get_stats : Prog (Response JsVal) :=
  handler
    (vectorStats <- await VectorGetStats ;;
     graphStats <- await GraphGetStats ;;
     total_nodes <- lift (member graphStats "totalNodes") ;;
     total_edges <- lift (member graphStats "totalEdges") ;;
     total_documents <- lift (member vectorStats "totalDocuments") ;;
     Ret (Json (obj [("success", JBool true); ("vector", vectorStats);
                     ("graph", graphStats); ("total_nodes", total_nodes);
                     ("total_edges", total_edges);
                     ("total_documents", total_documents)]))).

(** ** similarity.js *)

(** One turn of the loop: the three accumulators after [a = vectorA[i]] and
    [b = vectorB[i]]. *)
Definition cosine_step (acc : R * R * R) (ab : R * R) : R * R * R :=
  let '(dotProduct, magnitudeA, magnitudeB) := acc in
  let (a, b) := ab in
  (dotProduct + a * b, magnitudeA + a * a, magnitudeB + b * b)%R.

Definition cosineSimilarity (vectorA vectorB : list R) : result R :=
  if negb (List.length vectorA =? List.length vectorB)
  then Throw DimensionMismatch
  else
    let '(dotProduct, magnitudeA, magnitudeB) :=
      fold_left cosine_step (combine vectorA vectorB) (0, 0, 0)%R in
    let magnitudeA := sqrt magnitudeA in
    let magnitudeB := sqrt magnitudeB in
    if Req_EM_T magnitudeA 0 then Ok 0%R
    else if Req_EM_T magnitudeB 0 then Ok 0%R
    else Ok (dotProduct / (magnitudeA * magnitudeB))%R.

(** The dot product and the magnitude of the definition of cosine similarity. *)
Fixpoint dot (a b : list R) : R :=
  match a, b with
  | x :: a', y :: b' => (x * y + dot a' b')%R
  | _, _ => 0%R
  end.

Definition magnitude (a : list R) : R := sqrt (dot a a).

(** ** embedding.js *)

(** ToInt32: the value modulo 2^32 in the range of a signed 32-bit integer. *)
Definition ToInt32 (z : Z) : Z := ((z + 2 ^ 31) mod 2 ^ 32 - 2 ^ 31)%Z.

(** [x << n] and [x & y] *)
Definition shl32 (x n : Z) : Z := ToInt32 (Z.shiftl (ToInt32 x) (n mod 32)).
Definition and32 (x y : Z) : Z := ToInt32 (Z.land (ToInt32 x) (ToInt32 y)).

(** [text] is given by its code units, [text.charCodeAt(0)], ...,
    [text.charCodeAt(text.length - 1)], so that every string is covered;
    [code_units] gives them for a [string]. *)
Definition code_units (s : string) : list Z :=
  map (fun c => Z.of_nat (nat_of_ascii c)) (list_ascii_of_string s).

(** The body of the first loop. *)
Definition hash_step (hash char : Z) : Z :=
  let hash := (shl32 hash 5 - hash + char)%Z in
  and32 hash hash.

Definition text_hash (text : list Z) : Z := fold_left hash_step text 0%Z.

(** [Math.trunc] and the remainder [x % y], which has the sign of [x]. *)
Definition trunc (x : R) : Z :=
  if Rle_dec 0 x then Int_part x else (- Int_part (- x))%Z.

Definition js_rem (x y : R) : R := (x - y * IZR (trunc (x / y)))%R.

Definition generateMockEmbedding (text : list Z) (dimensions : nat) : list R :=
  let hash := text_hash text in
  map (fun i =>
         let angle := js_rem (IZR hash + INR i * 12345) (2 * PI) in
         (sin angle * 0.5 + 0.5)%R)
      (seq 0 dimensions).

(** The polynomial hash without wrap-around: the code units are the
    coefficients of a polynomial evaluated at 31, leading coefficient first,
    [c0 * 31^(n-1) + c1 * 31^(n-2) + ... + c(n-1)]. *)
Fixpoint polynomial (codes : list Z) : Z :=
  match codes with
  | [] => 0%Z
  | c :: rest => (c * 31 ^ Z.of_nat (List.length rest) + polynomial rest)%Z
  end.

(** The same by Horner's rule, one code unit at a time. *)
Definition poly_hash (codes : list Z) : Z :=
  fold_left (fun h c => (h * 31 + c)%Z) codes 0%Z.

(** ** The graph store's answer to the multi-hop query *)

Record GraphNode : Type := {
  node_labels : list string;
  node_id : string;
  node_props : gmap string JsVal
}.

Record GraphRel : Type := {
  rel_source : nat;
  rel_target : nat;
  rel_type : string;
  rel_weight : JsVal
}.

(** A property graph: a node is known by its position in [graph_nodes], a
    relationship by its position in [graph_rels]. *)
Record Graph : Type := {
  graph_nodes : list GraphNode;
  graph_rels : list GraphRel
}.

Fixpoint indexed {A : Type} (from : nat) (l : list A) : list (nat * A) :=
  match l with
  | [] => []
  | x :: rest => (from, x) :: indexed (S from) rest
  end.

(** The node at the other end of a relationship walked in either direction. *)
Definition other_end (r : GraphRel) (at_node : nat) : option nat :=
  if rel_source r =? at_node then Some (rel_target r)
  else if rel_target r =? at_node then Some (rel_source r)
  else None.

Definition has_label (g : Graph) (label : string) (n : nat) : bool :=
  match nth_error (graph_nodes g) n with
  | Some node => existsb (String.eqb label) (node_labels node)
  | None => false
  end.

(** Modelled from the spec: the matches of the pattern
    [(start)-[r:T1|..|Tn*1..hops]-(related)], which Neo4j computes (the query
    executor is not part of src/).  They are the paths of 1 to [hops]
    relationships of the allowed types from the start node, walked in either
    direction, no relationship used twice in one path; each comes with the
    node it ends in. *)
Fixpoint trails (g : Graph) (types : list string) (hops : nat)
    (at_node : nat) (used : list nat) : list (list GraphRel * nat) :=
  match hops with
  | 0 => []
  | S hops' =>
      flat_map
        (fun ir : nat * GraphRel =>
           let (i, r) := ir in
           if existsb (String.eqb (rel_type r)) types && negb (existsb (Nat.eqb i) used)
           then match other_end r at_node with
                | Some next =>
                    ([r], next)
                    :: map (fun pe : list GraphRel * nat => (r :: fst pe, snd pe))
                           (trails g types hops' next (i :: used))
                | None => []
                end
           else [])
        (indexed 0 (graph_rels g))
  end.

(** [ORDER BY hop_count ASC]: rows in ascending order of the key, rows with
    the same key in the order they were produced. *)
Fixpoint insert_by_hops (row : PathRecord) (sorted : list PathRecord) : list PathRecord :=
  match sorted with
  | [] => [row]
  | other :: rest =>
      if (rec_hop_count row <=? rec_hop_count other)%Z then row :: other :: rest
      else other :: insert_by_hops row rest
  end.

Definition order_by_hops (rows : list PathRecord) : list PathRecord :=
  fold_right insert_by_hops [] rows.

Definition result_cap : nat := 20.

Definition node_json (node : option GraphNode) : JsVal :=
  match node with
  | Some n => JObj (<["id" := JStr (node_id n)]> (node_props n))
  | None => JNull
  end.

(** Modelled from the spec: the rows Neo4j returns for the query text that
    [get_multi_hop] builds: one row per matched path whose two ends carry the
    label [Node] and whose start has the requested id, with
    [length(path) as hop_count], [ORDER BY hop_count ASC], [LIMIT 20]. *)
Definition run_multi_hop (g : Graph) (startId : string) (types : list string)
    (hops : nat) : list PathRecord :=
  let starts :=
    List.filter (fun inode : nat * GraphNode =>
                   has_label g "Node" (fst inode)
                   && String.eqb (node_id (snd inode)) startId)
                (indexed 0 (graph_nodes g)) in
  let matched :=
    flat_map (fun inode : nat * GraphNode =>
                map (fun pe : list GraphRel * nat =>
                       {| rec_start_node := node_json (Some (snd inode));
                          rec_related_node := node_json (nth_error (graph_nodes g) (snd pe));
                          rec_relationships :=
                            map (fun r => (rel_type r, rel_weight r)) (fst pe);
                          rec_hop_count := Z.of_nat (List.length (fst pe)) |})
                    (List.filter (fun pe : list GraphRel * nat => has_label g "Node" (snd pe))
                                 (trails g types hops (fst inode) [])))
             starts in
  firstn result_cap (order_by_hops matched).

(** The environment in which the graph store holds [g] and answers the
    multi-hop query; the other calls are not answered. *)
Definition graph_env (g : Graph) : Env :=
  fun A call =>
    match call in storeE T return result T with
    | GraphMultiHop startId types hops => Ok (run_multi_hop g startId types hops)
    | _ => Throw (StoreFailure "not connected")
    end.


(** ** The statements of the specification *)

(** The fused score as the specification writes it:
    [similarity * vectorWeight + (graphBoost[docId] ?? 0)]. *)
Definition fused_score (graphBoost : gmap string Q) (vectorWeight : Q)
    (r : VectorHit) : Q :=
  (similarity r * vectorWeight + default 0%Q (graphBoost !! docId r))%Q.

(** The same with the machine's product and sum, and the boost as the code
    reads it when it is a number or absent ([graphBoost[docId] || 0]). *)
Definition machine_score (mul add : Q -> Q -> Q) (graphBoost : gmap string Q)
    (vectorWeight : Q) (r : VectorHit) : Q :=
  add (mul (similarity r) vectorWeight) (num_or (graphBoost !! docId r) 0).

(** The hit has a boost of its own, or its docId names nothing that a plain
    object inherits. *)
Definition reads_no_member (graphBoost : gmap string Q) (r : VectorHit) : Prop :=
  graphBoost !! docId r = None -> inherited (docId r) = false.

(** The score is the number [q]. *)
Definition score_is (s : Score) (q : Q) : Prop :=
  match s with
  | Num x => (x == q)%Q
  | NumThenMember _ _ => False
  end.

(** The weight condition of the claim: absent, or a number in [0, 1]. *)
Definition weight_in_range (data : gmap string JsVal) : Prop :=
  data.["weight"] = JUndefined
  \/ exists q : Q, data.["weight"] = JNum q /\ (0 <= q <= 1)%Q.

(** The weight of a request that follows the data model: absent or a number. *)
Definition numeric_weight (data : gmap string JsVal) : Prop :=
  data.["weight"] = JUndefined \/ exists q : Q, data.["weight"] = JNum q.

(** A text-like field of a payload that follows the data model: absent or a
    string. *)
Definition text_like (v : JsVal) : Prop := v = JUndefined \/ exists s : string, v = JStr s.

(** The page of a list as the handler cuts it:
    [l.slice(offset, offset + topK)] with [offset = (page - 1) * topK]. *)
Definition page_slice {A : Type} (l : list A) (page topK : Z) : list A :=
  slice l ((page - 1) * topK)%Z ((page - 1) * topK + topK)%Z.

(** Ascending order of hop count. *)
Definition hops_le (a b : PathRecord) : Prop := (rec_hop_count a <= rec_hop_count b)%Z.

(** ** What POST /search computes from the replies of the two stores *)

Definition search_top_k (req : SearchRequest) : Z := default 5%Z (req_top_k req).
Definition search_page (req : SearchRequest) : Z := default 1%Z (req_page req).
Definition search_offset (req : SearchRequest) : Z :=
  ((search_page req - 1) * search_top_k req)%Z.

Definition uses_graph (req : SearchRequest) : bool :=
  String.eqb (default "hybrid" (req_type req)) "hybrid"
  || String.eqb (default "hybrid" (req_type req)) "graph".

(** The formatted rows of [VectorDB.search], placeholder row removed. *)
Definition formatted_hits (rows : list RawRow) : list VectorHit :=
  List.filter (fun r => negb (String.eqb (docId r) "init")) (map_index format_row 0 rows).

(** The matches [graphSearch] hands back: none when the query failed. *)
Definition graph_matches (env : Env) (query : string) : list GraphMatch :=
  match env _ (GraphKeywordSearch query) with
  | Ok records =>
      map (fun record => {| match_docId := rec_docId record;
                            match_score := rec_score record |}) records
  | Throw _ => []
  end.

Definition search_boosts (env : Env) (req : SearchRequest) : gmap string Q :=
  if uses_graph req
  then boosts_of (graph_matches env (req_query req)) (default 0.3%Q (req_graph_weight req))
  else ∅.

(** The fused list of a request, given the rows of the vector table. *)
Definition fused_hits (env : Env) (req : SearchRequest) (rows : list RawRow)
    : list ScoredHit :=
  mergeResults Qmult Qplus (formatted_hits rows) (search_boosts env req)
               (default 0.7%Q (req_vector_weight req)).

Definition search_body (env : Env) (req : SearchRequest) (rows : list RawRow)
    : SearchBody :=
  {| res_query := req_query req;
     res_type := default "hybrid" (req_type req);
     res_vector_weight := default 0.7%Q (req_vector_weight req);
     res_graph_weight := default 0.3%Q (req_graph_weight req);
     res_page := search_page req;
     res_top_k := search_top_k req;
     total_pages :=
       ceil_div (Z.of_nat (List.length (fused_hits env req rows))) (search_top_k req);
     res_results :=
       slice (fused_hits env req rows) (search_offset req)
             (search_offset req + search_top_k req);
     vector_hits := List.length (formatted_hits rows);
     graph_boosts := size (search_boosts env req) |}.

(** ** Store failures *)

(** The error a call of the trace was rejected with, if it was. *)
Definition rejection (env : Env) (c : Call) : option Exn :=
  match c with
  | CallOf call =>
      match env _ call with
      | Throw e => Some e
      | Ok _ => None
      end
  end.

(** A handler surfaces store errors when, in every run, a rejected call is the
    last call made and the response is the 500 that carries its error. *)
Definition surfaces_store_errors {Body : Type} (p : Prog (Response Body)) : Prop :=
  forall (env : Env) (before after : list Call) (c : Call) (e : Exn),
    calls env p = (before ++ c :: after)%list ->
    rejection env c = Some e ->
    after = [] /\ outcome env p = Ok (Status500 e).

(** Programs that never go on after a rejected call: at each call the
    continuation raises the error it is given. *)
Inductive fail_fast {R : Type} : Prog R -> Prop :=
| fail_fast_Ret (r : R) : fail_fast (Ret r)
| fail_fast_Raise (e : Exn) : fail_fast (Raise e)
| fail_fast_Vis (A : Type) (call : storeE A) (k : result A -> Prog R) :
    (forall e : Exn, k (Throw e) = Raise e) ->
    (forall a : A, fail_fast (k (Ok a))) ->
    fail_fast (Vis call k).

(** ** Inputs used in the examples *)

Definition empty_nodes_payload : gmap string JsVal :=
  <["text" := JStr "a valid longer description"]> (<["nodes" := JArr []]> ∅).

Definition description_only_payload : gmap string JsVal :=
  <["description" := JStr "a sufficiently long description text"]> ∅.

Definition content_only_payload : gmap string JsVal :=
  <["content" := JStr "a sufficiently long description text"]> ∅.

Definition friend_edge : gmap string JsVal :=
  <["source" := JStr "a"]> (<["target" := JStr "b"]> (<["type" := JStr "FRIEND"]> ∅)).

Definition uses_edge : gmap string JsVal :=
  <["source" := JStr "a"]>
    (<["target" := JStr "b"]> (<["type" := JStr "USES"]> (<["weight" := JNum 0.9]> ∅))).

(** An edge whose weight is a text that is no number. *)
Definition heavy_edge : gmap string JsVal :=
  <["source" := JStr "a"]>
    (<["target" := JStr "b"]>
       (<["type" := JStr "USES"]> (<["weight" := JStr "heavy"]> ∅))).

(** The payloads of the testable properties of the specification. *)
Definition title_and_node_payload : gmap string JsVal :=
  <["title" := JStr "a valid longer description"]>
    (<["nodes" := JArr [obj [("id", JStr "n1")]]]> ∅).

Definition short_content_payload : gmap string JsVal :=
  <["content" := JStr "short"]> ∅.

Definition hit_x : VectorHit :=
  {| rank := 1; docId := "x"; text := "first document"; distance := 0.2;
     similarity := 0.8; metadata := JObj ∅ |}.

Definition hit_y : VectorHit :=
  {| rank := 2; docId := "y"; text := "second document"; distance := 0.4;
     similarity := 0.6; metadata := JObj ∅ |}.

Definition boost_y : gmap string Q := <["y" := 0.3%Q]> ∅.

(** A hit for a document stored under the id "toString", and a vector table
    that holds this document alone. *)
Definition hit_toString : VectorHit :=
  {| rank := 1; docId := "toString"; text := "a document of its own";
     distance := 0.5; similarity := 0.5; metadata := JObj ∅ |}.

Definition toString_env : Env :=
  fun A call =>
    match call in storeE T return result T with
    | TableSearch _ _ =>
        Ok [{| row_id := "toString"; row_text := "a document of its own";
               row_distance := Some 0.5%Q; row_metadata := JObj ∅ |}]
    | GraphKeywordSearch _ => Ok []
    | _ => Throw (StoreFailure "unexpected call")
    end.

Definition row_alpha : RawRow :=
  {| row_id := "alpha"; row_text := "Alpha document text";
     row_distance := Some 0.2%Q; row_metadata := JObj ∅ |}.

Definition row_beta : RawRow :=
  {| row_id := "beta"; row_text := "Beta document text";
     row_distance := Some 0.4%Q; row_metadata := JObj ∅ |}.

(** The vector table answers with two rows; Neo4j is down. *)
Definition graph_down_env : Env :=
  fun A call =>
    match call in storeE T return result T with
    | TableSearch _ _ => Ok [row_alpha; row_beta]
    | _ => Throw (StoreFailure "ServiceUnavailable")
    end.

Definition hybrid_request (page : Z) : SearchRequest :=
  {| req_query := "alpha"; req_type := None; req_vector_weight := None;
     req_graph_weight := None; req_top_k := None; req_page := Some page |}.

(** Both stores up: the keyword search matches the document beta. *)
Definition both_up_env : Env :=
  fun A call =>
    match call in storeE T return result T with
    | TableSearch _ _ => Ok [row_alpha; row_beta]
    | GraphKeywordSearch _ => Ok [{| rec_docId := "beta"; rec_score := 0.9%Q |}]
    | _ => Throw (StoreFailure "unexpected call")
    end.

(** Six nodes, a relationship USES between every two of them. *)
Definition dense_graph : Graph :=
  {| graph_nodes :=
       map (fun id => {| node_labels := ["Node"]; node_id := id; node_props := ∅ |})
           ["n0"; "n1"; "n2"; "n3"; "n4"; "n5"];
     graph_rels :=
       flat_map (fun i =>
                   map (fun j => {| rel_source := i; rel_target := j;
                                    rel_type := "USES"; rel_weight := JNum 1 |})
                       (seq (S i) (5 - i)))
                (seq 0 6) |}.

Definition dense_request : MultiHopRequest :=
  {| req_start_id := Some "n0"; req_hops := Some 2; req_relationship_types := "" |}.

(** ** similarity.js: the other functions *)

(** An element of the result of [batchSimilarity]: [{ index, similarity }]. *)
Record IndexedSimilarity : Type := {
  bs_index : nat;
  bs_similarity : R
}.

(** [vectorList.map((vec, idx) => ...)] from position [idx] on; the callback
    throws at the first vector whose dimension differs, which ends the map. *)
Fixpoint batch_from (queryVector : list R) (idx : nat) (vectorList : list (list R))
    : result (list IndexedSimilarity) :=
  match vectorList with
  | [] => Ok []
  | vec :: rest =>
      rbind (cosineSimilarity queryVector vec) (fun s =>
      rbind (batch_from queryVector (S idx) rest) (fun tail =>
      Ok ({| bs_index := idx; bs_similarity := s |} :: tail)))
  end.

Definition batchSimilarity (queryVector : list R) (vectorList : list (list R))
    : result (list IndexedSimilarity) :=
  batch_from queryVector 0 vectorList.

(** [distanceToSimilarity(distance, maxDistance = 1)]; the second parameter is
    not read. *)
Definition distanceToSimilarity (distance maxDistance : R) : R :=
  Rmax 0 (1 - distance).

(** ** embedding.js: the real model and its fallback *)

(** The loaded pipeline as [generateRealEmbedding] uses it: called on a text,
    it resolves to a result whose [data] is a sequence of numbers, or the call
    fails ([Throw] stands for every failure inside the [try]). *)
Definition EmbeddingModel : Type := list Z -> result (list R).

(** [initializeRealEmbeddings]: the module variable [embeddingModel] after the
    call, from what importing and loading the pipeline resolved to; [None] is
    [null]. *)
Definition initializeRealEmbeddings (loaded : result EmbeddingModel)
    : option EmbeddingModel :=
  match loaded with
  | Ok pipeline => Some pipeline
  | Throw error => None
  end.

Definition getEmbeddingDimensions : nat := 384.

Definition generateRealEmbedding (embeddingModel : option EmbeddingModel)
    (text : list Z) : list R :=
  match embeddingModel with
  | None => generateMockEmbedding text 384
  | Some model =>
      match model text with
      | Ok data => data
      | Throw error => generateMockEmbedding text 384
      end
  end.

Definition generateEmbedding (embeddingModel : option EmbeddingModel)
    (text : list Z) (useReal : bool) : list R :=
  if useReal && bool_decide (is_Some embeddingModel)
  then generateRealEmbedding embeddingModel text
  else generateMockEmbedding text 384.

(** ** Predicates on texts and programs used in the further properties *)

(** Every character of [s] satisfies [p]. *)
Fixpoint all_chars (p : ascii -> bool) (s : string) : bool :=
  match s with
  | EmptyString => true
  | String c rest => p c && all_chars p rest
  end.

(** The characters a cleaned text is made of: [\w], the plain space and the
    four punctuation marks. *)
Definition clean_char (c : ascii) : bool :=
  is_word c || Ascii.eqb c " " || Ascii.eqb c "." || Ascii.eqb c ","
  || Ascii.eqb c "!" || Ascii.eqb c "?".


(** Every value the program can return, whatever the stores answer,
    satisfies [P]. *)
Inductive returns_only {R : Type} (P : R -> Prop) : Prog R -> Prop :=
| returns_only_Ret (r : R) : P r -> returns_only P (Ret r)
| returns_only_Raise (e : Exn) : returns_only P (Raise e)
| returns_only_Vis (A : Type) (call : storeE A) (k : result A -> Prog R) :
    (forall reply : result A, returns_only P (k reply)) ->
    returns_only P (Vis call k).


(** The match whose boost is in force for a document: the last one of the
    list that names it. *)
Fixpoint last_match (d : string) (graphMatches : list GraphMatch) : option GraphMatch :=
  match graphMatches with
  | [] => None
  | m :: rest =>
      match last_match d rest with
      | Some later => Some later
      | None => if String.eqb (match_docId m) d then Some m else None
      end
  end.


(** A body of POST /nodes with a name in its metadata, and the stores of a
    run in which the vector store accepts and the graph store is down. *)
Definition named_node_body : gmap string JsVal :=
  <["id" := JStr "n1"]>
    (<["text" := JStr "a node text"]>
       (<["metadata" := obj [("name", JStr "")]]> ∅)).

Definition vector_up_env : Env :=
  fun A call =>
    match call in storeE T return result T with
    | VectorAddDocument _ _ _ => Ok tt
    | _ => Throw (StoreFailure "ServiceUnavailable")
    end.


(** ** The client classes: calls into the LanceDB and Neo4j libraries *)

(** A row as [addDocument] writes it; [doc_metadata] stands for the JSON text
    [JSON.stringify(metadata)]. *)
Record Document : Type := {
  doc_id : string;
  doc_text : string;
  doc_embedding : list R;
  doc_metadata : JsVal
}.

(** The Cypher texts of neo4jdb.js, with the values spliced into them. *)
Inductive Cypher : Type :=
| ReturnOne
| MergeNode
| MergeEdge (type : JsVal)
| Traverse (depth : JsVal)
| CountNodes
| CountEdges
| MatchNode.

(** A record of a Cypher result: what [record.get(key)] returns or throws. *)
Definition CypherRecord : Type := string -> result JsVal.

(** The calls of the two classes into their libraries, indexed by the type of
    what they resolve to: [lancedb.connect], [db.openTable], [db.createTable],
    [table.add], [table.search(e).limit(n).toArray()], [table.delete] with
    the filter built by [lancedb.where], [session.run], [session.close] and
    [driver.close]. *)
Inductive libE : Type -> Type :=
| Connect (dbPath : string) : libE unit
| OpenTable (tableName : string) : libE unit
| CreateTable (tableName : string) (rows : list Document) : libE unit
| TableAdd (documents : list Document) : libE unit
| TableQuery (queryEmbedding : list R) (limit : Z) : libE (list RawRow)
| TableDelete (filter : string) : libE Z
| SessionRun (query : Cypher) (params : list (string * JsVal))
    : libE (list CypherRecord)
| SessionClose : libE unit
| DriverClose : libE unit.

(** What a piece of code does between two library calls. *)
Inductive Tree (X : Type) : Type :=
| Done (x : X)
| Invoke {A : Type} (call : libE A) (k : result A -> Tree X).
Arguments Done {X} x.
Arguments Invoke {X A} call k.

Fixpoint tree_bind {X Y : Type} (t : Tree X) (f : X -> Tree Y) : Tree Y :=
  match t with
  | Done x => f x
  | Invoke call k => Invoke call (fun reply => tree_bind (k reply) f)
  end.

(** An async method of an object whose fields are [S]: from the fields at the
    call it returns or throws, together with the fields as it leaves them. *)
Definition Method (S T : Type) : Type := S -> Tree (result T * S).

Definition m_ret {S T : Type} (x : T) : Method S T := fun this => Done (Ok x, this).
Definition m_throw {S T : Type} (e : Exn) : Method S T := fun this => Done (Throw e, this).

Definition m_bind {S T U : Type} (m : Method S T) (f : T -> Method S U) : Method S U :=
  fun this =>
    tree_bind (m this) (fun out =>
      match out with
      | (Ok x, this') => f x this'
      | (Throw e, this') => Done (Throw e, this')
      end).

(** [try { m } catch (error) { handler error }] *)
Definition m_try {S T : Type} (m : Method S T) (handler : Exn -> Method S T) : Method S T :=
  fun this =>
    tree_bind (m this) (fun out =>
      match out with
      | (Ok x, this') => Done (Ok x, this')
      | (Throw e, this') => handler e this'
      end).

(** [await call]: a rejected promise is thrown at the [await]. *)
Definition m_call {S A : Type} (call : libE A) : Method S A :=
  fun this => Invoke call (fun reply => Done (reply, this)).

Definition m_lift {S T : Type} (r : result T) : Method S T := fun this => Done (r, this).
Definition m_get {S : Type} : Method S S := fun this => Done (Ok this, this).
Definition m_put {S : Type} (this' : S) : Method S unit := fun _ => Done (Ok tt, this').

Declare Scope method_scope.
Delimit Scope method_scope with method.
Notation "x <- p ;; q" := (m_bind p (fun x => q))
  (at level 100, p at next level, right associativity) : method_scope.
Notation "p ;;; q" := (m_bind p (fun _ => q))
  (at level 100, right associativity) : method_scope.

(** The libraries as seen from the process: what a call resolves to or is
    rejected with, given the calls made before it. *)
Inductive LibCall : Type :=
| LibCallOf {A : Type} (call : libE A).

Definition World : Type := list LibCall -> forall A : Type, libE A -> result A.

(** A run after the calls [history]: the calls made up to the end of the run,
    and what the code ended with. *)
Fixpoint exec {X : Type} (world : World) (history : list LibCall) (t : Tree X)
    : list LibCall * X :=
  match t with
  | Done x => (history, x)
  | Invoke call k =>
      exec world (history ++ [LibCallOf call])%list (k (world history _ call))
  end.


(** [new Error(`Document not found: ${id}`)] *)
Definition DocumentNotFound (id : string) : Exn :=
  StoreFailure ("Document not found: " ++ id).

(** [lancedb.where(predicate)]: the package [@lancedb/lancedb] exports no
    [where], so the call is a call of [undefined] and throws a type error. *)
Definition lancedb_where (predicate : string) : result string :=
  Throw (TypeError "lancedb.where is not a function").

(** The character that delimits the id inside the filter of a delete. *)
Definition double_quote : string := String (ascii_of_nat 34) EmptyString.

(** A document as [getAllDocuments] and [getDocument] return it. *)
Record StoredDocument : Type := {
  stored_id : string;
  stored_text : string;
  stored_metadata : JsVal
}.

(** ** vectordb.js: the class [VectorDB], for ids and texts that are strings *)

Module VectorDB.

(** The fields of the object; [db] and [table] tell whether the field holds a
    handle or is still [null]. *)
Record state : Type := {
  dbPath : string;
  db : bool;
  table : bool;
  documentCount : nat
}.

Definition constructor (dbPath : string) : state :=
  {| dbPath := dbPath; db := false; table := false; documentCount := 0 |}.

(** [this.db.f(...)] and [this.table.f(...)]: a type error while the field is
    [null]. *)
Definition on_db {A : Type} (call : libE A) : Method state A :=
  (this <- m_get ;;
   if db this then m_call call
   else m_throw (TypeError "cannot read properties of null"))%method.

Definition on_table {A : Type} (call : libE A) : Method state A :=
  (this <- m_get ;;
   if table this then m_call call
   else m_throw (TypeError "cannot read properties of null"))%method.

Definition initialize : Method state bool :=
  m_try
    (this <- m_get ;;
     m_call (Connect (dbPath this)) ;;;
     this <- m_get ;;
     m_put {| dbPath := dbPath this; db := true; table := table this;
              documentCount := documentCount this |} ;;;
     m_ret true)%method
    (fun error => m_throw error).

Definition dummyData : list Document :=
  [{| doc_id := "init"; doc_text := "init";
      doc_embedding := repeat 0.001%R 384; doc_metadata := JObj ∅ |}].

Definition set_table : Method state unit :=
  (this <- m_get ;;
   m_put {| dbPath := dbPath this; db := db this; table := true;
            documentCount := documentCount this |})%method.

Definition ensureTable (tableName : string) : Method state unit :=
  m_try
    (m_try
       (on_db (OpenTable tableName) ;;; set_table)%method
       (fun _ => on_db (CreateTable tableName dummyData) ;;; set_table)%method)
    (fun error => m_throw error).

Section WithModel.
(** The module variable [embeddingModel] of embedding.js. *)
Variable embeddingModel : option EmbeddingModel.

Definition addDocument (id text : string) (metadata : JsVal) : Method state Document :=
  m_try
    (let embedding := generateEmbedding embeddingModel (code_units text) true in
     let document :=
       {| doc_id := id; doc_text := text; doc_embedding := embedding;
          doc_metadata := with_default metadata (JObj ∅) |} in
     on_table (TableAdd [document]) ;;;
     this <- m_get ;;
     m_put {| dbPath := dbPath this; db := db this; table := table this;
              documentCount := S (documentCount this) |} ;;;
     m_ret document)%method
    (fun error => m_throw error).

Definition search (queryText : string) (topK : Z) : Method state SearchResults :=
  m_try
    (let queryEmbedding := generateEmbedding embeddingModel (code_units queryText) true in
     rows <- on_table (TableQuery queryEmbedding topK) ;;
     let formattedResults :=
       List.filter (fun r => negb (String.eqb (docId r) "init"))
                   (map_index format_row 0 rows) in
     m_ret {| results := formattedResults;
              totalResults := List.length formattedResults |})%method
    (fun error => m_throw error).

Definition to_stored (doc : RawRow) : StoredDocument :=
  {| stored_id := row_id doc; stored_text := row_text doc;
     stored_metadata := row_metadata doc |}.

(** [new Array(384).fill(0)] *)
Definition zero_vector : list R := repeat 0%R 384.

Definition getAllDocuments (limit : Z) : Method state (list StoredDocument) :=
  m_try
    (rows <- on_table (TableQuery zero_vector limit) ;;
     m_ret (List.filter (fun doc => negb (String.eqb (stored_id doc) "init"))
                        (map to_stored rows)))%method
    (fun error => m_ret []).

Definition getDocument (id : string) : Method state StoredDocument :=
  m_try
    (rows <- on_table (TableQuery zero_vector 1000) ;;
     match List.find (fun d => String.eqb (row_id d) id) rows with
     | None => m_throw (DocumentNotFound id)
     | Some doc => m_ret (to_stored doc)
     end)%method
    (fun error => m_throw error).

Record Stats : Type := {
  totalDocuments : nat;
  embeddingDimension : nat;
  stats_dbPath : string;
  status : string
}.

Definition getStats : Method state Stats :=
  (this <- m_get ;;
   m_ret {| totalDocuments := documentCount this; embeddingDimension := 384;
            stats_dbPath := dbPath this; status := "healthy" |})%method.

Definition deleteDocument (id : string) : Method state unit :=
  (this <- m_get ;;
   if negb (table this) then m_ret tt
   else
     m_try
       (filter <- m_lift (lancedb_where ("id == " ++ double_quote ++ id ++ double_quote)) ;;
        m_call (TableDelete filter) ;;;
        m_ret tt)
       (fun error => m_ret tt))%method.

Definition updateDocument (id text : string) (metadata : JsVal) : Method state unit :=
  m_try
    (deleteDocument id ;;;
     addDocument id text metadata ;;;
     m_ret tt)%method
    (fun error => addDocument id text metadata ;;; m_ret tt)%method.
End WithModel.

End VectorDB.


(** ** vector.js: the routes under /vector *)

(** What a route sends: [res.json(body)], [res.status(201).json(body)], or an
    error status with a message or with [error.message] of the error caught. *)
Inductive Answer (Body : Type) : Type :=
| Answer200 (body : Body)
| Answer201 (body : Body)
| Answer400 (error : string)
| Answer404 (error : Exn)
| Answer500 (error : Exn).
Arguments Answer200 {Body} body.
Arguments Answer201 {Body} body.
Arguments Answer400 {Body} error.
Arguments Answer404 {Body} error.
Arguments Answer500 {Body} error.

Module VectorRoutes.

(** [!v] for a field that is absent or a string. *)
Definition blank (v : option string) : bool :=
  match v with
  | None | Some EmptyString => true
  | Some _ => false
  end.

Section WithModel.
Variable embeddingModel : option EmbeddingModel.

(** POST /vector/nodes *)
Definition post_vector_nodes (id text : option string) (metadata : JsVal)
    : Method VectorDB.state (Answer (string * Document)) :=
  m_try
    (match id, text with
     | Some id', Some text' =>
         if blank id || blank text
         then m_ret (Answer400 "Missing required fields: id, text")
         else
           document <- VectorDB.addDocument embeddingModel id' text' metadata ;;
           m_ret (Answer201 (id', document))
     | _, _ => m_ret (Answer400 "Missing required fields: id, text")
     end)%method
    (fun error => m_ret (Answer500 error)).

(** GET /vector/nodes/:id *)
Definition get_vector_node (id : string) : Method VectorDB.state (Answer StoredDocument) :=
  m_try
    (document <- VectorDB.getDocument id ;;
     m_ret (Answer200 document))%method
    (fun error => m_ret (Answer404 error)).

(** PUT /vector/nodes/:id, for a body whose [text] is a string *)
Definition put_vector_node (id text : string) (metadata : JsVal)
    : Method VectorDB.state (Answer unit) :=
  m_try
    (updated <- VectorDB.updateDocument embeddingModel id text metadata ;;
     m_ret (Answer200 updated))%method
    (fun error => m_ret (Answer500 error)).

(** DELETE /vector/nodes/:id *)
Definition delete_vector_node (id : string) : Method VectorDB.state (Answer string) :=
  m_try
    (VectorDB.deleteDocument id ;;;
     m_ret (Answer200 ("Document deleted: " ++ id)))%method
    (fun error => m_ret (Answer500 error)).

(** POST /vector/search *)
Definition post_vector_search (query_text : option string) (top_k : option Z)
    : Method VectorDB.state (Answer SearchResults) :=
  m_try
    (let top_k := default 5%Z top_k in
     match query_text with
     | None | Some EmptyString =>
         m_ret (Answer400 "Missing required field: query_text")
     | Some query_text =>
         found <- VectorDB.search embeddingModel query_text top_k ;;
         m_ret (Answer200 found)
     end)%method
    (fun error => m_ret (Answer500 error)).

(** GET /vector/all: [{ totalDocuments: documents.length, documents }] *)
Definition get_vector_all : Method VectorDB.state (Answer (nat * list StoredDocument)) :=
  m_try
    (documents <- VectorDB.getAllDocuments 1000 ;;
     m_ret (Answer200 (List.length documents, documents)))%method
    (fun error => m_ret (Answer500 error)).

(** GET /vector/stats *)
Definition get_vector_stats : Method VectorDB.state (Answer VectorDB.Stats) :=
  m_try
    (stats <- VectorDB.getStats ;;
     m_ret (Answer200 stats))%method
    (fun error => m_ret (Answer500 error)).
End WithModel.

(** A request to one of the routes. *)
Inductive Request : Type :=
| PostNodes (id text : option string) (metadata : JsVal)
| GetNode (id : string)
| PutNode (id text : string) (metadata : JsVal)
| DeleteNode (id : string)
| PostSearch (query_text : option string) (top_k : option Z)
| GetAll
| GetStats.

(** The fields of the store and the calls made, after serving a request. *)
Definition serve (embeddingModel : option EmbeddingModel) (world : World)
    (request : Request) (served : list LibCall * VectorDB.state)
    : list LibCall * VectorDB.state :=
  let (history, this) := served in
  match request with
  | PostNodes id text metadata =>
      let (history', out) :=
        exec world history (post_vector_nodes embeddingModel id text metadata this) in
      (history', snd out)
  | GetNode id =>
      let (history', out) := exec world history (get_vector_node id this) in
      (history', snd out)
  | PutNode id text metadata =>
      let (history', out) :=
        exec world history (put_vector_node embeddingModel id text metadata this) in
      (history', snd out)
  | DeleteNode id =>
      let (history', out) := exec world history (delete_vector_node id this) in
      (history', snd out)
  | PostSearch query_text top_k =>
      let (history', out) :=
        exec world history (post_vector_search embeddingModel query_text top_k this) in
      (history', snd out)
  | GetAll =>
      let (history', out) := exec world history (get_vector_all this) in
      (history', snd out)
  | GetStats =>
      let (history', out) := exec world history (get_vector_stats this) in
      (history', snd out)
  end.

(** Serving the requests of a list one after the other. *)
Definition serve_all (embeddingModel : option EmbeddingModel) (world : World)
    (requests : list Request) (served : list LibCall * VectorDB.state)
    : list LibCall * VectorDB.state :=
  fold_left (fun served request => serve embeddingModel world request served)
            requests served.

End VectorRoutes.

(** The calls of a history that added documents and were accepted. *)
Fixpoint accepted_adds (world : World) (before calls : list LibCall) : nat :=
  match calls with
  | [] => 0
  | LibCallOf call :: rest =>
      (match call with
       | TableAdd documents =>
           match world before _ (TableAdd documents) with
           | Ok _ => 1
           | Throw _ => 0
           end
       | _ => 0
       end)
      + accepted_adds world (before ++ [LibCallOf call])%list rest
  end.


(** ** neo4jdb.js: the class [Neo4jDB] *)

Module Neo4jDB.

(** The field [session]: a session or still [null]. *)
Record state : Type := {
  session : bool
}.

Definition constructor : state := {| session := false |}.

(** [this.session.run(query, params)] *)
Definition session_run (query : Cypher) (params : list (string * JsVal))
    : Method state (list CypherRecord) :=
  m_call (SessionRun query params).

(** Reading [this.session.run] while the session is [null]. *)
Definition no_session : Exn := TypeError "cannot read properties of null".

Definition initialize : Method state unit :=
  m_try
    (m_put {| session := true |} ;;;
     session_run ReturnOne [] ;;;
     m_ret tt)%method
    (fun error => m_throw error).

(** [records[0]?.get(key)] *)
Definition first_get (records : list CypherRecord) (key : string) : result JsVal :=
  match records with
  | [] => Ok JUndefined
  | record :: _ => record key
  end.

Definition addNode (id nodeData : JsVal) : Method state JsVal :=
  (this <- m_get ;;
   if negb (session this) then m_throw no_session
   else
     name <- m_lift (member nodeData "name") ;;
     type <- m_lift (member nodeData "type") ;;
     tags <- m_lift (member nodeData "tags") ;;
     result <- session_run MergeNode
                 [("id", id); ("name", name ||| id);
                  ("type", type ||| JStr "unknown");
                  ("tags", tags ||| JArr []); ("props", nodeData)] ;;
     m_lift (first_get result "n.id"))%method.

Definition addEdge (source target type weight : JsVal) : Method state JsVal :=
  (this <- m_get ;;
   if negb (session this) then m_throw no_session
   else
     result <- session_run (MergeEdge type)
                 [("source", source); ("target", target);
                  ("weight", with_default weight (JNum 1))] ;;
     m_lift (first_get result "relationshipType"))%method.

(** [result.records.map(record => ({ id: ..., name: ..., types: ... }))]; a
    [get] that throws ends the map. *)
Fixpoint related_nodes (records : list CypherRecord) : result (list JsVal) :=
  match records with
  | [] => Ok []
  | record :: rest =>
      rbind (record "id") (fun id =>
      rbind (record "name") (fun name =>
      rbind (record "types") (fun types =>
      rbind (related_nodes rest) (fun nodes =>
      Ok (obj [("id", id); ("name", name); ("types", types)] :: nodes)))))
  end.

Definition traverse (startId depth : JsVal) : Method state (list JsVal) :=
  (this <- m_get ;;
   if negb (session this) then m_throw no_session
   else
     result <- session_run (Traverse (with_default depth (JNum 1)))
                 [("startId", startId)] ;;
     m_lift (related_nodes result))%method.

(** [records[0]?.get(key)?.low || 0] *)
Definition count_of (records : list CypherRecord) (key : string) : result JsVal :=
  rbind (first_get records key) (fun count =>
  Ok (opt_member count "low" ||| JNum 0)).

(** The object [getStats] returns; a field the object does not have is
    [None]. *)
Record Stats : Type := {
  totalNodes : JsVal;
  totalEdges : JsVal;
  nodeTypes : option (list JsVal);
  driver : string;
  error : option Exn
}.

Definition getStats : Method state Stats :=
  m_try
    (this <- m_get ;;
     if negb (session this) then m_throw no_session
     else
       nodesResult <- session_run CountNodes [] ;;
       edgesResult <- session_run CountEdges [] ;;
       totalNodes <- m_lift (count_of nodesResult "totalNodes") ;;
       totalEdges <- m_lift (count_of edgesResult "totalEdges") ;;
       m_ret {| totalNodes := totalNodes; totalEdges := totalEdges;
                nodeTypes := Some []; driver := "Neo4j"; error := None |})%method
    (fun error =>
       m_ret {| totalNodes := JNum 0; totalEdges := JNum 0; nodeTypes := None;
                driver := "Neo4j (error)"; error := Some error |}).

(** [records[0]?.get('n')?.properties || null] *)
Definition getNode (id : JsVal) : Method state JsVal :=
  (this <- m_get ;;
   if negb (session this) then m_throw no_session
   else
     result <- session_run MatchNode [("id", id)] ;;
     node <- m_lift (first_get result "n") ;;
     m_ret (opt_member node "properties" ||| JNull))%method.

Definition close : Method state unit :=
  (this <- m_get ;;
   (if session this then m_call SessionClose else m_ret tt) ;;;
   m_call DriverClose)%method.

End Neo4jDB.


(** A method of [VectorDB] keeps count when, in every run, it leaves the
    handles of the object as they are and raises the document count by the
    number of adds the table accepted during the run. *)
Definition keeps_count {T : Type} (m : Method VectorDB.state T) : Prop :=
  forall (world : World) (history : list LibCall) (this : VectorDB.state),
    exists calls : list LibCall,
      fst (exec world history (m this)) = (history ++ calls)%list
      /\ VectorDB.documentCount (snd (snd (exec world history (m this))))
         = VectorDB.documentCount this + accepted_adds world history calls
      /\ VectorDB.table (snd (snd (exec world history (m this)))) = VectorDB.table this
      /\ VectorDB.db (snd (snd (exec world history (m this)))) = VectorDB.db this
      /\ VectorDB.dbPath (snd (snd (exec world history (m this)))) = VectorDB.dbPath this.

(** Libraries that accept every call, and libraries whose table rejects the
    first add it is asked for. *)
Definition accepting (A : Type) (call : libE A) : result A :=
  match call in libE T return result T with
  | Connect _ => Ok tt
  | OpenTable _ => Ok tt
  | CreateTable _ _ => Ok tt
  | TableAdd _ => Ok tt
  | TableQuery _ _ => Ok []
  | TableDelete _ => Ok 0%Z
  | SessionRun _ _ => Ok []
  | SessionClose => Ok tt
  | DriverClose => Ok tt
  end.

Definition is_add (c : LibCall) : bool :=
  match c with
  | LibCallOf (TableAdd _) => true
  | _ => false
  end.

Definition flaky_world : World :=
  fun history A call =>
    match call in libE T return result T with
    | TableAdd documents =>
        if existsb is_add history then Ok tt
        else Throw (StoreFailure "commit conflict")
    | other => accepting _ other
    end.

Definition opened_db : VectorDB.state :=
  {| VectorDB.dbPath := "/tmp/hackathon.lancedb"; VectorDB.db := true;
     VectorDB.table := true; VectorDB.documentCount := 0 |}.


(** An ingest payload with one edge that POST /edges would refuse, and stores
    that accept every write. *)
Definition unchecked_edge : gmap string JsVal :=
  <["from" := JStr "a"]>
    (<["to" := JStr "b"]> (<["type" := JStr "FRIEND"]> (<["weight" := JNum 5]> ∅))).

Definition edges_payload : gmap string JsVal :=
  <["edges" := JArr [JObj unchecked_edge]]> ∅.

Definition writes_accepted_env : Env :=
  fun A call =>
    match call in storeE T return result T with
    | VectorAddDocument _ _ _ => Ok tt
    | GraphAddNode _ _ => Ok tt
    | GraphAddEdge _ _ _ _ => Ok tt
    | _ => Throw (StoreFailure "unexpected call")
    end.


(** A session that is open, and an edge body whose weight is [null]. *)
Definition open_session : Neo4jDB.state := {| Neo4jDB.session := true |}.

Definition null_weight_edge : gmap string JsVal :=
  <["source" := JStr "a"]>
    (<["target" := JStr "b"]> (<["type" := JStr "USES"]> (<["weight" := JNull]> ∅))).

Definition accepting_world : World := fun history A call => accepting A call.

(** * Properties *)

(** Linear arithmetic over the rationals and over the reals. *)
Ltac lraQ := Lqa.lra.
Ltac lraR := Lra.lra.

(** ** Values and the monad *)

Lemma truthy_js_or (a b : JsVal) : truthy (a ||| b) = truthy a || truthy b.
Proof.
  unfold js_or. destruct (truthy a) eqn:Ha; simpl; [exact Ha | reflexivity].
Qed.

Lemma run_bind {R S : Type} (env : Env) (p : Prog R) (f : R -> Prog S) :
  run env (bind p f) =
  match run env p with
  | (trace, Ok r) => let (trace', out) := run env (f r) in ((trace ++ trace')%list, out)
  | (trace, Throw e) => (trace, Throw e)
  end.
Proof.
  induction p as [r | e | A call k IH]; simpl.
  - destruct (run env (f r)); reflexivity.
  - reflexivity.
  - rewrite IH. destruct (run env (k (env A call))) as [trace [r | e]].
    + destruct (run env (f r)); reflexivity.
    + reflexivity.
Qed.

Lemma run_try_catch {R : Type} (env : Env) (p : Prog R) (h : Exn -> Prog R) :
  run env (try_catch p h) =
  match run env p with
  | (trace, Ok r) => (trace, Ok r)
  | (trace, Throw e) => let (trace', out) := run env (h e) in ((trace ++ trace')%list, out)
  end.
Proof.
  induction p as [r | e | A call k IH]; simpl.
  - reflexivity.
  - destruct (run env (h e)); reflexivity.
  - rewrite IH. destruct (run env (k (env A call))) as [trace [r | e]].
    + reflexivity.
    + destruct (run env (h e)); reflexivity.
Qed.

Lemma run_await {A : Type} (env : Env) (call : storeE A) :
  run env (await call) = ([CallOf call], env A call).
Proof.
  unfold await. simpl. destruct (env A call); reflexivity.
Qed.

Lemma run_lift {A : Type} (env : Env) (r : result A) : run env (lift r) = ([], r).
Proof. destruct r; reflexivity. Qed.

(** A handler always answers: its outcome is a response, never an exception. *)
Lemma run_handler {Body : Type} (env : Env) (p : Prog (Response Body)) :
  run env (handler p) =
  match run env p with
  | (trace, Ok r) => (trace, Ok r)
  | (trace, Throw e) => (trace, Ok (Status500 e))
  end.
Proof.
  unfold handler. rewrite run_try_catch.
  destruct (run env p) as [trace [r | e]]; simpl; [reflexivity |].
  rewrite app_nil_r. reflexivity.
Qed.

(** ** The route decision (C2) *)

(** C2, as stated, fails: the payload [{text: "a valid longer description",
    nodes: []}] has a truthy text field and a [nodes] list that is present, so
    the table of the claim gives BOTH, and [decideRoute] returns VECTOR_ONLY. *)
Lemma decideRoute_empty_nodes_not_both :
  spec_hasText empty_nodes_payload = true
  /\ spec_hasRelationships empty_nodes_payload = true
  /\ decision_table (spec_hasText empty_nodes_payload)
                    (spec_hasRelationships empty_nodes_payload) = BOTH
  /\ decideRoute empty_nodes_payload = VECTOR_ONLY
  /\ decideRoute empty_nodes_payload
     <> decision_table (spec_hasText empty_nodes_payload)
                       (spec_hasRelationships empty_nodes_payload).
Proof.
  repeat split; try (vm_compute; reflexivity).
  vm_compute. discriminate.
Qed.

(** C2, amended: [decideRoute] is the decision table applied to two flags,
    hasText (one of text, content, title, description is truthy) and
    hasRelationships (nodes or edges has a truthy length, or one of
    relationships, parent_id, children is truthy); a [nodes] or [edges] list
    that is present but empty does not count as a relationship. *)
Theorem decideRoute_decision_table (data : gmap string JsVal) :
  decideRoute data = decision_table (spec_hasText data) (code_hasRelationships data)
  /\ (forall items : list JsVal,
        truthy (opt_length (JArr items)) = negb (List.length items =? 0)).
Proof.
  split.
  - unfold decideRoute, spec_hasText, code_hasRelationships.
    rewrite !truthy_js_or.
    destruct (truthy data.["text"] || truthy data.["content"]
              || truthy data.["title"] || truthy data.["description"]);
      destruct (truthy (opt_length data.["nodes"]) || truthy (opt_length data.["edges"])
                || truthy data.["relationships"] || truthy data.["parent_id"]
                || truthy data.["children"]);
      reflexivity.
  - intros [| item items]; reflexivity.
Qed.

(** ** Cleaning and noise rejection (C3) *)

Lemma post_ingest_rejected (env : Env) (data : gmap string JsVal) :
  cleanData data = Ok None ->
  run env (post_ingest data) = ([], Ok (Status400 "Data too noisy or short (<10 chars)")).
Proof.
  intros Hclean. unfold post_ingest. rewrite run_handler, run_bind, run_lift, Hclean.
  reflexivity.
Qed.

Lemma cleanData_ignores_description (data : gmap string JsVal) :
  data.["text"] = JUndefined ->
  data.["content"] = JUndefined ->
  data.["title"] = JUndefined ->
  data.["nodes"] = JUndefined ->
  data.["edges"] = JUndefined ->
  cleanData data = Ok None.
Proof.
  intros Htext Hcontent Htitle Hnodes Hedges.
  unfold cleanData. rewrite Htext, Hcontent, Htitle, Hnodes, Hedges. reflexivity.
Qed.

Lemma field_insert_ne (data : gmap string JsVal) (k k' : string) (v : JsVal) :
  k <> k' -> (<[k := v]> data).[k'] = data.[k'].
Proof. intros Hne. unfold field. rewrite lookup_insert_ne by exact Hne. reflexivity. Qed.

Lemma field_insert_eq (data : gmap string JsVal) (k : string) (v : JsVal) :
  (<[k := v]> data).[k] = v.
Proof. unfold field. rewrite lookup_insert_eq. reflexivity. Qed.

Lemma trim_truthy (s : string) :
  truthy (JStr (trim s)) = true -> truthy (JStr s) = true.
Proof. destruct s; [intros H; exact H | reflexivity]. Qed.

Lemma js_or_truthy (a b : JsVal) : truthy a = true -> a ||| b = a.
Proof. intros Ha. unfold js_or. rewrite Ha. reflexivity. Qed.

Lemma clean_chain_description (data : gmap string JsVal) (t c ti d desc : JsVal) :
  truthy t || truthy c || truthy ti = true ->
  match t ||| c ||| ti ||| d ||| JStr "" with
  | JStr raw =>
      if String.length (trim (strip_noise (collapse_spaces false raw))) <? 10
      then Ok None
      else Ok (Some (<["text" := JStr (trim (strip_noise (collapse_spaces false raw)))]>
                       (<["description" := d]> data)))
  | _ => Throw (TypeError "replace is not a function")
  end
  = match
      match t ||| c ||| ti ||| desc ||| JStr "" with
      | JStr raw =>
          if String.length (trim (strip_noise (collapse_spaces false raw))) <? 10
          then Ok None
          else Ok (Some (<["text" := JStr (trim (strip_noise (collapse_spaces false raw)))]>
                           data))
      | _ => Throw (TypeError "replace is not a function")
      end
    with
    | Ok (Some cleaned) => Ok (Some (<["description" := d]> cleaned))
    | other => other
    end.
Proof.
  intros Hsome. rewrite <- !truthy_js_or in Hsome.
  rewrite (js_or_truthy _ d), (js_or_truthy _ desc) by exact Hsome.
  rewrite (js_or_truthy _ (JStr "")) by exact Hsome.
  destruct (t ||| c ||| ti); try reflexivity.
  destruct (String.length (trim (strip_noise (collapse_spaces false s))) <? 10);
    [reflexivity |].
  rewrite insert_insert_ne by discriminate. reflexivity.
Qed.

(** For a payload whose text, content and title are strings or absent, the
    description changes nothing in what [cleanData] returns: the fallback on it
    in the [||] chain is never reached. *)
Lemma cleanData_description_unused (data : gmap string JsVal) (d : JsVal) :
  text_like data.["text"] -> text_like data.["content"] -> text_like data.["title"] ->
  cleanData (<["description" := d]> data)
  = match cleanData data with
    | Ok (Some cleaned) => Ok (Some (<["description" := d]> cleaned))
    | other => other
    end.
Proof.
  intros Htext Hcontent Htitle. unfold cleanData.
  rewrite !field_insert_ne by discriminate. rewrite field_insert_eq.
  destruct (truthy (opt_length data.["nodes"] ||| opt_length data.["edges"]));
    [reflexivity |].
  generalize dependent (data.["text"]). intros t Htext.
  generalize dependent (data.["content"]). intros c Hcontent.
  generalize dependent (data.["title"]). intros ti Htitle.
  destruct Htext as [-> | [t' ->]]; destruct Hcontent as [-> | [c' ->]];
    destruct Htitle as [-> | [ti' ->]]; cbn [opt_trim rbind];
    repeat (change (truthy JUndefined) with false; cbv iota);
    repeat match goal with
      | |- context [truthy (JStr (trim ?s))] =>
          let H := fresh "Htrim" in
          destruct (truthy (JStr (trim s))) eqn:H;
          [apply trim_truthy in H; apply clean_chain_description; rewrite H;
           rewrite ?Bool.orb_true_r; reflexivity |]
      end;
    reflexivity.
Qed.

(** C3 at the payload [{description: "a sufficiently long description text"}]:
    the description cleans to itself, 36 characters, and it counts as text for
    the route decision, but the guard of [cleanData] only looks at text,
    content and title, so [cleanData] returns null and the handler answers 400
    without a store call; so it is for every payload that has a description
    and none of text, content, title, nodes, edges.  The same text under
    [content] is stored. *)
Theorem ingest_description_only_is_rejected :
  trim (strip_noise (collapse_spaces false "a sufficiently long description text"))
  = "a sufficiently long description text"
  /\ String.length "a sufficiently long description text" = 36
  /\ spec_hasText description_only_payload = true
  /\ cleanData description_only_payload = Ok None
  /\ (forall env : Env,
        run env (post_ingest description_only_payload)
        = ([], Ok (Status400 "Data too noisy or short (<10 chars)")))
  /\ (forall (description : JsVal) (env : Env),
        run env (post_ingest (<["description" := description]> ∅))
        = ([], Ok (Status400 "Data too noisy or short (<10 chars)")))
  /\ cleanData content_only_payload
     = Ok (Some (<["text" := JStr "a sufficiently long description text"]>
                   content_only_payload))
  /\ (forall env : Env,
        calls env (post_ingest content_only_payload)
        = [CallOf (VectorAddDocument JUndefined (JStr "a sufficiently long description text")
                            (JObj ∅))]).
Proof.
  split; [vm_compute; reflexivity |].
  split; [reflexivity |].
  split; [vm_compute; reflexivity |].
  split; [vm_compute; reflexivity |].
  split; [intros env; apply post_ingest_rejected; vm_compute; reflexivity |].
  split.
  { intros description env. apply post_ingest_rejected.
    apply cleanData_ignores_description; reflexivity. }
  split; [vm_compute; reflexivity |].
  intros env. unfold calls, post_ingest.
  rewrite run_handler, run_bind, run_lift.
  replace (cleanData content_only_payload)
    with (Ok (Some (<["text" := JStr "a sufficiently long description text"]>
                      content_only_payload)))
    by (vm_compute; reflexivity).
  cbv beta iota.
  set (cleaned := <["text" := JStr "a sufficiently long description text"]>
                    content_only_payload).
  replace (decideRoute cleaned) with VECTOR_ONLY by (vm_compute; reflexivity).
  replace (log_label cleaned) with (Ok tt : result unit) by (vm_compute; reflexivity).
  cbn [lift bind is_route orb when].
  rewrite run_bind, run_await.
  replace cleaned.["id"] with JUndefined by (vm_compute; reflexivity).
  replace cleaned.["text"] with (JStr "a sufficiently long description text")
    by (vm_compute; reflexivity).
  replace cleaned.["metadata"] with JUndefined by (vm_compute; reflexivity).
  cbn [js_or truthy].
  destruct (env unit _) as [[] | e]; reflexivity.
Qed.

(** ** Edge validation (C7) *)

Lemma validateEdgeSchema_total (S2N : JsVal -> option Q) (data : gmap string JsVal) :
  validateEdgeSchema S2N data = Ok true
  \/ exists e : Exn, validateEdgeSchema S2N data = Throw e.
Proof.
  unfold validateEdgeSchema.
  repeat match goal with
         | |- context [if ?c then _ else _] => destruct c
         end; eauto.
Qed.

Lemma post_edges_invalid (S2N : JsVal -> option Q) (env : Env)
    (data : gmap string JsVal) (e : Exn) :
  validateEdgeSchema S2N data = Throw e ->
  run env (post_edges S2N data) = ([], Ok (Status500 e)).
Proof.
  intros Hinvalid. unfold post_edges.
  rewrite run_handler, run_bind, run_lift, Hinvalid. reflexivity.
Qed.

Lemma weight_check_passes (S2N : JsVal -> option Q) (weight : JsVal) :
  truthy weight && (js_lt_const S2N weight 0 || js_gt_const S2N weight 1) = false
  <-> truthy weight = false
      \/ match ToNumber S2N weight with
         | Some q => (0 <= q <= 1)%Q
         | None => True
         end.
Proof.
  unfold js_lt_const, js_gt_const.
  destruct (truthy weight); cbn [andb]; [| split; auto].
  destruct (ToNumber S2N weight) as [q |]; cbn [orb].
  - destruct (Qlt_le_dec q 0) as [Hneg | Hnonneg];
      destruct (Qlt_le_dec 1 q) as [Hbig | Hsmall]; cbn [orb]; split;
      try discriminate; try (intros _; right; lraQ);
      intros [H | H]; try discriminate H; try reflexivity; lraQ.
  - split; auto.
Qed.

Lemma validateEdgeSchema_accepts (S2N : JsVal -> option Q)
    (data : gmap string JsVal) :
  validateEdgeSchema S2N data = Ok true
  <-> truthy data.["source"] = true
      /\ truthy data.["target"] = true
      /\ truthy data.["type"] = true
      /\ includes edge_validTypes data.["type"] = true
      /\ (truthy data.["weight"] = false
          \/ match ToNumber S2N data.["weight"] with
             | Some q => (0 <= q <= 1)%Q
             | None => True
             end).
Proof.
  unfold validateEdgeSchema, edge_required. cbn [List.filter]. unfold js_not.
  destruct (truthy data.["source"]), (truthy data.["target"]),
    (truthy data.["type"]); cbn [negb List.length Nat.ltb Nat.leb];
    try (split; [discriminate | intros (? & ? & ? & _); discriminate]).
  destruct (includes edge_validTypes data.["type"]); cbn [negb];
    [| split; [discriminate | intros (_ & _ & _ & ? & _); discriminate]].
  pose proof (weight_check_passes S2N data.["weight"]) as Hcheck.
  destruct (truthy data.["weight"]
            && (js_lt_const S2N data.["weight"] 0
                || js_gt_const S2N data.["weight"] 1)).
  - split; [discriminate |].
    intros (_ & _ & _ & _ & Hpasses). apply Hcheck in Hpasses.
    discriminate Hpasses.
  - split; [| reflexivity].
    intros _. repeat split. apply Hcheck. reflexivity.
Qed.

(** C7: [validateEdgeSchema] accepts exactly when source, target and type
    are truthy, type is one of USES, MENTIONS, CREATED, RELATED, DEPLOYED, and
    the weight is falsy, or converts to no number, or converts to a number in
    [0, 1].  For a request whose weight is absent or a number this is the
    condition of the specification: the weight, when present, lies in
    [0, 1].  The validator otherwise throws, and then POST /edges answers with
    the error without a call to either store.  [{source: "a", target: "b",
    type: "FRIEND"}] is rejected, [{source: "a", target: "b", type: "USES",
    weight: 0.9}] is accepted. *)
Theorem validateEdgeSchema_accepts_iff (S2N : JsVal -> option Q)
    (data : gmap string JsVal) :
  (validateEdgeSchema S2N data = Ok true
   <-> truthy data.["source"] = true
       /\ truthy data.["target"] = true
       /\ truthy data.["type"] = true
       /\ includes edge_validTypes data.["type"] = true
       /\ (truthy data.["weight"] = false
           \/ match ToNumber S2N data.["weight"] with
              | Some q => (0 <= q <= 1)%Q
              | None => True
              end))
  /\ (numeric_weight data ->
      (validateEdgeSchema S2N data = Ok true
       <-> truthy data.["source"] = true
           /\ truthy data.["target"] = true
           /\ truthy data.["type"] = true
           /\ includes edge_validTypes data.["type"] = true
           /\ weight_in_range data))
  /\ (validateEdgeSchema S2N data = Ok true
      \/ exists e : Exn, validateEdgeSchema S2N data = Throw e)
  /\ (forall e : Exn,
        validateEdgeSchema S2N data = Throw e ->
        forall env : Env, run env (post_edges S2N data) = ([], Ok (Status500 e)))
  /\ validateEdgeSchema S2N friend_edge = Throw (InvalidEdgeType (JStr "FRIEND"))
  /\ validateEdgeSchema S2N uses_edge = Ok true.
Proof.
  pose proof (validateEdgeSchema_accepts S2N data) as Hiff.
  split; [exact Hiff |].
  split; [| split; [apply validateEdgeSchema_total |
            split; [intros e He env; apply post_edges_invalid; exact He |
                    split; vm_compute; reflexivity]]].
  intros Hweight. rewrite Hiff. unfold weight_in_range.
  destruct Hweight as [Habsent | [q Hq]].
  - rewrite Habsent. cbn [truthy ToNumber]. split.
    + intros (Hs & Ht & Hty & Hin & _). repeat split; try assumption.
      left. reflexivity.
    + intros (Hs & Ht & Hty & Hin & _). repeat split; try assumption.
      left. reflexivity.
  - rewrite Hq. cbn [ToNumber truthy]. split.
    + intros (Hs & Ht & Hty & Hin & Hpasses). repeat split; try assumption.
      right. exists q. split; [reflexivity |].
      destruct Hpasses as [Hzero | Hrange]; [| exact Hrange].
      apply negb_false_iff in Hzero. apply Qeq_bool_iff in Hzero. lraQ.
    + intros (Hs & Ht & Hty & Hin & [Hu | [q' [Hq' Hrange]]]);
        [discriminate Hu |].
      injection Hq' as <-. repeat split; try assumption. right. exact Hrange.
Qed.

(** The accepted edge of the specification is an instance. *)
Lemma validateEdgeSchema_accepts_iff_witness :
  truthy uses_edge.["source"] = true
  /\ includes edge_validTypes uses_edge.["type"] = true
  /\ weight_in_range uses_edge.
Proof.
  assert (Hweight : numeric_weight uses_edge).
  { right. exists 0.9%Q. vm_compute. reflexivity. }
  destruct (validateEdgeSchema_accepts_iff (fun _ => None) uses_edge)
    as [_ [Hiff [_ [_ [_ Haccepted]]]]].
  destruct (proj1 (Hiff Hweight) Haccepted) as (Hsource & _ & _ & Htype & Hrange).
  split; [exact Hsource |]. split; [exact Htype | exact Hrange].
Defined.

(** The weight "heavy" is present and is no number in [0, 1], yet the
    validator accepts the edge, whatever conversion of texts to numbers makes
    "heavy" no number, and POST /edges hands the weight to the graph store. *)
Lemma validateEdgeSchema_accepts_text_weight :
  ~ weight_in_range heavy_edge
  /\ (forall S2N : JsVal -> option Q,
        S2N (JStr "heavy") = None ->
        validateEdgeSchema S2N heavy_edge = Ok true
        /\ forall env : Env,
             calls env (post_edges S2N heavy_edge)
             = [CallOf (GraphAddEdge (JStr "a") (JStr "b") (JStr "USES")
                          (JStr "heavy"))]).
Proof.
  split.
  - intros [Habsent | [q [Hq _]]]; [discriminate Habsent | discriminate Hq].
  - intros S2N Hnan.
    assert (Hvalid : validateEdgeSchema S2N heavy_edge = Ok true).
    { apply validateEdgeSchema_accepts.
      repeat split; try reflexivity.
      right. change (heavy_edge.["weight"]) with (JStr "heavy").
      cbn [ToNumber]. rewrite Hnan. exact I. }
    split; [exact Hvalid |].
    intros env. unfold calls, post_edges.
    rewrite run_handler, run_bind, run_lift, Hvalid.
    cbv zeta.
    change (heavy_edge.["source"]) with (JStr "a").
    change (heavy_edge.["target"]) with (JStr "b").
    change (heavy_edge.["type"]) with (JStr "USES").
    change (heavy_edge.["weight"]) with (JStr "heavy").
    cbn [js_not truthy negb orb String.eqb Ascii.eqb Bool.eqb with_default].
    rewrite run_bind, run_await.
    destruct (env _ _) as [[] | e]; reflexivity.
Qed.

(** ** Sorting *)

Section SortFacts.
Context {A : Type}.
Variable comparefn : A -> A -> Q.

Lemma sort_insert_perm (a : A) (l : list A) :
  Permutation (sort_insert comparefn a l) (a :: l).
Proof.
  induction l as [| b rest IH]; simpl.
  - apply Permutation_refl.
  - destruct (goes_after comparefn a b).
    + apply Permutation_trans with (b :: a :: rest).
      * apply perm_skip. exact IH.
      * apply perm_swap.
    + apply Permutation_refl.
Qed.

Lemma sort_perm (l : list A) : Permutation (sort comparefn l) l.
Proof.
  induction l as [| a rest IH]; simpl.
  - apply perm_nil.
  - apply Permutation_trans with (a :: sort comparefn rest).
    + apply sort_insert_perm.
    + apply perm_skip. exact IH.
Qed.
End SortFacts.

(** Sorting by a numeric key in descending order: the comparator
    [(a, b) => key b - key a]. *)
Section DescendingSort.
Context {A : Type}.
Variable key : A -> Q.

Let descending (a b : A) : Q := (key b - key a)%Q.
Let ge_key (a b : A) : Prop := (key b <= key a)%Q.

Lemma goes_after_lt (a b : A) :
  goes_after descending a b = true <-> (key a < key b)%Q.
Proof.
  unfold goes_after, descending.
  rewrite Bool.negb_true_iff.
  split; intros H.
  - destruct (Qlt_le_dec (key a) (key b)) as [Hlt | Hle]; [exact Hlt |].
    assert (Hle' : (key b - key a <= 0)%Q) by lraQ.
    apply Qle_bool_iff in Hle'. congruence.
  - destruct (Qle_bool (key b - key a) 0) eqn:Hb; [| reflexivity].
    apply Qle_bool_iff in Hb. lraQ.
Qed.

Lemma goes_after_false (a b : A) :
  goes_after descending a b = false <-> (key b <= key a)%Q.
Proof.
  pose proof (goes_after_lt a b) as Hlt.
  destruct (goes_after descending a b); split; intros H.
  - discriminate H.
  - assert (key a < key b)%Q by (apply Hlt; reflexivity). lraQ.
  - destruct (Qlt_le_dec (key a) (key b)) as [Hab | Hba]; [| exact Hba].
    apply Hlt in Hab. discriminate Hab.
  - reflexivity.
Qed.

Lemma sort_insert_sorted (a : A) (l : list A) :
  Sorted ge_key l -> Sorted ge_key (sort_insert descending a l).
Proof.
  induction l as [| b rest IH]; intros Hsorted; simpl.
  - repeat constructor.
  - destruct (goes_after descending a b) eqn:Hab.
    + inversion Hsorted as [| ? ? Hrest Hhd]; subst.
      constructor; [apply IH; exact Hrest |].
      apply goes_after_lt in Hab.
      destruct rest as [| c rest']; simpl.
      * constructor. unfold ge_key. lraQ.
      * destruct (goes_after descending a c).
        -- inversion Hhd; subst. constructor. assumption.
        -- constructor. unfold ge_key. lraQ.
    + constructor; [exact Hsorted |].
      constructor. apply goes_after_false. exact Hab.
Qed.

Lemma ge_key_transitive : Transitive ge_key.
Proof. intros a b c Hab Hbc. unfold ge_key in *. lraQ. Qed.

Lemma sort_descending (l : list A) : StronglySorted ge_key (sort descending l).
Proof.
  apply Sorted_StronglySorted; [exact ge_key_transitive |].
  induction l as [| a rest IH]; simpl.
  - constructor.
  - apply sort_insert_sorted. exact IH.
Qed.

(** Stability: the elements with a given key keep their relative order. *)
Lemma sort_insert_filter (q : Q) (a : A) (l : list A) :
  List.filter (fun x => Qeq_bool (key x) q) (sort_insert descending a l)
  = List.filter (fun x => Qeq_bool (key x) q) (a :: l).
Proof.
  induction l as [| b rest IH]; [reflexivity |].
  cbn [sort_insert].
  destruct (goes_after descending a b) eqn:Hab; [| reflexivity].
  cbn [List.filter] in *. rewrite IH.
  destruct (Qeq_bool (key a) q) eqn:Ha; [| reflexivity].
  destruct (Qeq_bool (key b) q) eqn:Hb; [| reflexivity].
  apply goes_after_lt in Hab.
  apply Qeq_bool_iff in Ha. apply Qeq_bool_iff in Hb. lraQ.
Qed.

Lemma sort_stable (q : Q) (l : list A) :
  List.filter (fun x => Qeq_bool (key x) q) (sort descending l)
  = List.filter (fun x => Qeq_bool (key x) q) l.
Proof.
  induction l as [| a rest IH]; [reflexivity |].
  cbn [sort fold_right]. rewrite sort_insert_filter.
  cbn [List.filter]. fold (sort descending rest). rewrite IH. reflexivity.
Qed.
End DescendingSort.

(** ** Score fusion (C1) *)

Lemma num_or_zero (x : option Q) : (num_or x 0 == default 0 x)%Q.
Proof.
  destruct x as [q |]; simpl; [| reflexivity].
  destruct (Qeq_bool q 0) eqn:Hq; [| reflexivity].
  apply Qeq_bool_iff in Hq. symmetry. exact Hq.
Qed.

Lemma Qeq_bool_compat (a b q : Q) : (a == b)%Q -> Qeq_bool a q = Qeq_bool b q.
Proof.
  intros Hab.
  destruct (Qeq_bool a q) eqn:Ha; destruct (Qeq_bool b q) eqn:Hb; try reflexivity.
  - apply Qeq_bool_iff in Ha. apply Qeq_bool_neq in Hb. exfalso. apply Hb.
    rewrite <- Hab. exact Ha.
  - apply Qeq_bool_iff in Hb. apply Qeq_bool_neq in Ha. exfalso. apply Ha.
    rewrite Hab. exact Hb.
Qed.

Lemma filter_map_comm {A B : Type} (f : A -> B) (p : B -> bool) (l : list A) :
  List.filter p (map f l) = map f (List.filter (fun x => p (f x)) l).
Proof.
  induction l as [| x rest IH]; simpl; [reflexivity |].
  destruct (p (f x)); simpl; rewrite IH; reflexivity.
Qed.

(** Two comparators that agree on the elements of a list sort it alike. *)
Lemma sort_insert_ext_in {A : Type} (f g : A -> A -> Q) (a : A) (l : list A) :
  (forall b : A, In b l -> goes_after f a b = goes_after g a b) ->
  sort_insert f a l = sort_insert g a l.
Proof.
  induction l as [| b rest IH]; intros Hagree; [reflexivity |].
  cbn [sort_insert]. rewrite (Hagree b (or_introl eq_refl)).
  rewrite IH by (intros c Hc; apply Hagree; right; exact Hc). reflexivity.
Qed.

Lemma sort_ext_in {A : Type} (f g : A -> A -> Q) (l : list A) :
  (forall a b : A, In a l -> In b l -> goes_after f a b = goes_after g a b) ->
  sort f l = sort g l.
Proof.
  induction l as [| a rest IH]; intros Hagree; [reflexivity |].
  cbn [sort fold_right]. fold (sort f rest). fold (sort g rest).
  rewrite IH by (intros x y Hx Hy; apply Hagree; right; assumption).
  apply sort_insert_ext_in. intros b Hb.
  apply Hagree; [left; reflexivity | right].
  eapply Permutation_in; [apply sort_perm | exact Hb].
Qed.

Lemma totalScore_number (mul add : Q -> Q -> Q) (graphBoost : gmap string Q)
    (vectorWeight : Q) (r : VectorHit) :
  reads_no_member graphBoost r ->
  totalScore mul add graphBoost vectorWeight r
  = Num (machine_score mul add graphBoost vectorWeight r).
Proof.
  unfold reads_no_member, totalScore, machine_score, get_property.
  intros Hplain. destruct (graphBoost !! docId r) as [q |]; [reflexivity |].
  rewrite Hplain by reflexivity. reflexivity.
Qed.

(** With numbers for scores, [mergeResults] sorts by the machine's score in
    descending order. *)
Lemma mergeResults_numbers (mul add : Q -> Q -> Q) (vectorResults : list VectorHit)
    (graphBoost : gmap string Q) (vectorWeight : Q) :
  Forall (reads_no_member graphBoost) vectorResults ->
  mergeResults mul add vectorResults graphBoost vectorWeight
  = sort (fun a b => (machine_score mul add graphBoost vectorWeight (hit b)
                      - machine_score mul add graphBoost vectorWeight (hit a))%Q)
         (map (fun r => {| hit := r;
                           hybrid_score :=
                             Num (machine_score mul add graphBoost vectorWeight r) |})
              vectorResults).
Proof.
  intros Hplain. unfold mergeResults. cbv zeta.
  assert (Hscored :
    map (fun r => {| hit := r;
                     hybrid_score := totalScore mul add graphBoost vectorWeight r |})
        vectorResults
    = map (fun r => {| hit := r;
                       hybrid_score :=
                         Num (machine_score mul add graphBoost vectorWeight r) |})
          vectorResults).
  { apply List.map_ext_in. intros r Hin. rewrite List.Forall_forall in Hplain.
    rewrite (totalScore_number _ _ _ _ _ (Hplain r Hin)). reflexivity. }
  rewrite Hscored. apply sort_ext_in.
  intros a b Ha Hb.
  apply List.in_map_iff in Ha. destruct Ha as (ra & <- & _).
  apply List.in_map_iff in Hb. destruct Hb as (rb & <- & _).
  reflexivity.
Qed.

(** C1: for hits none of which reads an inherited member of the boost object
    as its boost, [mergeResults] returns the input hits, each exactly once
    and none else, each with the hybrid score [similarity * vectorWeight +
    boost] as the machine computes it (boost 0 for a docId without one), in
    descending order of that score, hits of equal score in their input order;
    with exact products and sums the score is the one of the specification,
    and on the hits x (0.8) and y (0.6) with weight 0.7 and boost 0.3 for y
    the result is y with 0.72, then x with 0.56; the order is [y, x] also
    when each product and sum is off by up to a hundredth. *)
Theorem mergeResults_spec (mul add : Q -> Q -> Q) (vectorResults : list VectorHit)
    (graphBoost : gmap string Q) (vectorWeight : Q) :
  Forall (reads_no_member graphBoost) vectorResults ->
  let fused := mergeResults mul add vectorResults graphBoost vectorWeight in
  let score := machine_score mul add graphBoost vectorWeight in
  Permutation (map hit fused) vectorResults
  /\ Forall (fun s => hybrid_score s = Num (score (hit s))) fused
  /\ StronglySorted (fun a b => (score (hit b) <= score (hit a))%Q) fused
  /\ (forall q : Q,
        map hit (List.filter (fun s => Qeq_bool (score (hit s)) q) fused)
        = List.filter (fun r => Qeq_bool (score r) q) vectorResults)
  /\ (forall r : VectorHit,
        (machine_score Qmult Qplus graphBoost vectorWeight r
         == fused_score graphBoost vectorWeight r)%Q)
  /\ Forall2 (fun s expected =>
                hit s = fst expected /\ score_is (hybrid_score s) (snd expected))
             (mergeResults Qmult Qplus [hit_x; hit_y] boost_y 0.7)
             [(hit_y, 0.72%Q); (hit_x, 0.56%Q)]
  /\ ((forall a b : Q, (a * b - 0.01 <= mul a b <= a * b + 0.01)%Q) ->
      (forall a b : Q, (a + b - 0.01 <= add a b <= a + b + 0.01)%Q) ->
      map hit (mergeResults mul add [hit_x; hit_y] boost_y 0.7) = [hit_y; hit_x]).
Proof.
  intros Hplain fused score.
  set (scored := fun r : VectorHit => {| hit := r; hybrid_score := Num (score r) |}).
  set (key := fun s : ScoredHit => score (hit s)).
  assert (Hfused : fused = sort (fun a b => (key b - key a)%Q) (map scored vectorResults))
    by (apply mergeResults_numbers; exact Hplain).
  assert (Hhit : map hit (map scored vectorResults) = vectorResults).
  { rewrite map_map. simpl. apply map_id. }
  split; [| split; [| split; [| split; [| split; [| split]]]]].
  - rewrite Hfused. rewrite <- Hhit at 2.
    apply Permutation_map. apply sort_perm.
  - rewrite Hfused.
    eapply Permutation_Forall; [apply Permutation_sym; apply sort_perm |].
    apply List.Forall_forall. intros s Hin. apply List.in_map_iff in Hin.
    destruct Hin as [r [<- _]]. reflexivity.
  - rewrite Hfused. apply (sort_descending key).
  - intros q. rewrite Hfused.
    rewrite (sort_stable key q).
    rewrite filter_map_comm, map_map. cbn [hit]. rewrite List.map_id.
    reflexivity.
  - intros r. unfold machine_score, fused_score. rewrite num_or_zero. reflexivity.
  - vm_compute. repeat constructor.
  - intros Hmul Hadd.
    pose proof (Hmul (similarity hit_x) 0.7%Q) as Hx.
    pose proof (Hmul (similarity hit_y) 0.7%Q) as Hy.
    pose proof (Hadd (mul (similarity hit_x) 0.7%Q) 0%Q) as Hsx.
    pose proof (Hadd (mul (similarity hit_y) 0.7%Q) 0.3%Q) as Hsy.
    unfold mergeResults. cbv zeta.
    cbn [map sort fold_right sort_insert].
    assert (Hafter :
      goes_after compare_scores
        {| hit := hit_x; hybrid_score := totalScore mul add boost_y 0.7 hit_x |}
        {| hit := hit_y; hybrid_score := totalScore mul add boost_y 0.7 hit_y |}
      = true).
    { unfold goes_after, compare_scores. cbn [hybrid_score].
      change (totalScore mul add boost_y 0.7 hit_x)
        with (Num (add (mul (similarity hit_x) 0.7%Q) 0%Q)).
      change (totalScore mul add boost_y 0.7 hit_y)
        with (Num (add (mul (similarity hit_y) 0.7%Q) 0.3%Q)).
      cbn iota. apply negb_true_iff.
      destruct (Qle_bool _ 0) eqn:Hle; [| reflexivity].
      apply Qle_bool_iff in Hle.
      cbn [similarity hit_x hit_y] in *. exfalso. lraQ. }
    rewrite Hafter. reflexivity.
Qed.

(** The hits x and y of the specification are an instance. *)
Lemma mergeResults_spec_witness :
  Permutation (map hit (mergeResults Qmult Qplus [hit_x; hit_y] boost_y 0.7))
              [hit_x; hit_y].
Proof.
  apply (mergeResults_spec Qmult Qplus [hit_x; hit_y] boost_y 0.7).
  repeat constructor; intros _; reflexivity.
Defined.

(** ** The hybrid search handler, run against the stores *)

Lemma run_VectorDB_search (env : Env) (queryText : string) (topK : Z) :
  run env (VectorDB_search queryText topK)
  = ([CallOf (TableSearch queryText topK)],
     match env _ (TableSearch queryText topK) with
     | Ok rows => Ok {| results := formatted_hits rows;
                        totalResults := List.length (formatted_hits rows) |}
     | Throw e => Throw e
     end).
Proof.
  unfold VectorDB_search. rewrite run_try_catch, run_bind, run_await.
  destruct (env _ (TableSearch queryText topK)) as [rows | e]; reflexivity.
Qed.

Lemma run_graphSearch (env : Env) (query : string) :
  run env (graphSearch query)
  = ([CallOf (GraphKeywordSearch query)], Ok (graph_matches env query)).
Proof.
  unfold graphSearch, graph_matches. rewrite run_try_catch, run_bind, run_await.
  destruct (env _ (GraphKeywordSearch query)) as [records | e]; reflexivity.
Qed.

Lemma run_post_search (env : Env) (req : SearchRequest) :
  run env (post_search req)
  = match env _ (TableSearch (req_query req) (search_top_k req)) with
    | Ok rows =>
        (CallOf (TableSearch (req_query req) (search_top_k req))
         :: (if uses_graph req then [CallOf (GraphKeywordSearch (req_query req))] else []),
         Ok (Json (search_body env req rows)))
    | Throw e =>
        ([CallOf (TableSearch (req_query req) (search_top_k req))], Ok (Status500 e))
    end.
Proof.
  unfold post_search. rewrite run_handler, run_bind, run_VectorDB_search.
  fold (search_top_k req).
  destruct (env _ (TableSearch (req_query req) (search_top_k req))) as [rows | e];
    [| reflexivity].
  rewrite run_bind.
  unfold search_body, fused_hits, search_boosts, search_offset, search_page, uses_graph.
  destruct (String.eqb (default "hybrid" (req_type req)) "hybrid"
            || String.eqb (default "hybrid" (req_type req)) "graph").
  - rewrite run_bind, run_graphSearch. reflexivity.
  - reflexivity.
Qed.

(** ** Pagination (C4) *)

Lemma slice_nth_error {A : Type} (l : list A) (start stop : Z) (i : nat) :
  (0 <= start <= stop)%Z ->
  nth_error (slice l start stop) i
  = if i <? Z.to_nat (stop - start) then nth_error l (Z.to_nat start + i) else None.
Proof.
  intros Hrange. unfold slice, relative_index.
  destruct (Z.ltb_spec start 0) as [Hneg | _]; [lia |].
  destruct (Z.ltb_spec stop 0) as [Hneg | _]; [lia |].
  rewrite List.nth_error_firstn, List.nth_error_skipn.
  destruct (Nat.ltb_spec i (Z.to_nat (Z.min stop (Z.of_nat (List.length l))
                                      - Z.min start (Z.of_nat (List.length l)))))
    as [Hin | Hout];
    destruct (Nat.ltb_spec i (Z.to_nat (stop - start))) as [Hin' | Hout'].
  - f_equal. lia.
  - lia.
  - symmetry. apply List.nth_error_None. lia.
  - reflexivity.
Qed.

Lemma slice_in_range {A : Type} (l : list A) (start stop : Z) :
  (0 <= start <= stop)%Z ->
  slice l start stop = firstn (Z.to_nat (stop - start)) (skipn (Z.to_nat start) l).
Proof.
  intros Hrange. unfold slice, relative_index.
  destruct (Z.ltb_spec start 0) as [Hneg | _]; [lia |].
  destruct (Z.ltb_spec stop 0) as [Hneg | _]; [lia |].
  destruct (Z.le_gt_cases start (Z.of_nat (List.length l))) as [Hin | Hout].
  - rewrite (Z.min_l start) by exact Hin.
    destruct (Z.le_gt_cases stop (Z.of_nat (List.length l))) as [Hin' | Hout'].
    + rewrite (Z.min_l stop) by exact Hin'. reflexivity.
    + rewrite (Z.min_r stop) by lia.
      rewrite !List.firstn_all2 by (rewrite List.length_skipn; lia). reflexivity.
  - rewrite !List.skipn_all2 by lia. rewrite !List.firstn_nil. reflexivity.
Qed.

Lemma slice_beyond {A : Type} (l : list A) (start stop : Z) :
  (Z.of_nat (List.length l) <= start)%Z -> slice l start stop = [].
Proof.
  intros Hbeyond. unfold slice, relative_index.
  destruct (Z.ltb_spec start 0) as [Hneg | _]; [lia |].
  rewrite List.skipn_all2 by lia. apply List.firstn_nil.
Qed.

Lemma ceil_div_spec (a b : Z) :
  (1 <= b)%Z ->
  exists t : Z, ceil_div a b = Some t /\ ((t - 1) * b < a <= t * b)%Z.
Proof.
  intros Hb. unfold ceil_div.
  destruct (Z.eqb_spec b 0) as [Hzero | _]; [lia |].
  exists (- (- a / b))%Z. split; [reflexivity |].
  pose proof (Z.div_mod (- a) b ltac:(lia)) as Hdiv.
  pose proof (Z.mod_pos_bound (- a) b ltac:(lia)) as Hmod.
  nia.
Qed.

Lemma page_slice_spec {A : Type} (fused : list A) (page topK : Z) :
  (1 <= page)%Z -> (1 <= topK)%Z ->
  (forall i : nat,
     nth_error (page_slice fused page topK) i
     = if i <? Z.to_nat topK
       then nth_error fused (Z.to_nat ((page - 1) * topK) + i)
       else None)
  /\ exists totalPages : Z,
       ceil_div (Z.of_nat (List.length fused)) topK = Some totalPages
       /\ ((totalPages - 1) * topK < Z.of_nat (List.length fused)
           <= totalPages * topK)%Z
       /\ ((totalPages < page)%Z -> page_slice fused page topK = []).
Proof.
  intros Hpage HtopK. split.
  - intros i. unfold page_slice. rewrite slice_nth_error by nia.
    replace ((page - 1) * topK + topK - (page - 1) * topK)%Z with topK by lia.
    reflexivity.
  - destruct (ceil_div_spec (Z.of_nat (List.length fused)) topK HtopK)
      as [t [Ht Hbounds]].
    exists t. split; [exact Ht |]. split; [exact Hbounds |].
    intros Hbeyond. unfold page_slice. apply slice_beyond. nia.
Qed.

Lemma post_search_answer (env : Env) (req : SearchRequest) (rows : list RawRow) :
  env _ (TableSearch (req_query req) (search_top_k req)) = Ok rows ->
  outcome env (post_search req) = Ok (Json (search_body env req rows)).
Proof.
  intros Hrows. unfold outcome. rewrite run_post_search, Hrows. reflexivity.
Qed.

(** ** Score fusion on a docId that names an inherited member (C1) *)

(** A document stored under the id "toString" has no boost, yet
    [graphBoost["toString"]] is the function every object inherits: the score
    is then no number but the product followed by the text of that function,
    where the specification's score is 0.35.  POST /search answers with this
    score for a store that holds the document. *)
Lemma mergeResults_reads_inherited_member :
  (fused_score ∅ 0.7 hit_toString == 0.35)%Q
  /\ (forall mul add : Q -> Q -> Q,
        mergeResults mul add [hit_toString] ∅ 0.7
        = [{| hit := hit_toString;
              hybrid_score := NumThenMember (mul 0.5%Q 0.7%Q) "toString" |}])
  /\ ~ score_is (NumThenMember (0.5 * 0.7) "toString") 0.35
  /\ (exists body : SearchBody,
        outcome toString_env
          (post_search {| req_query := "document"; req_type := Some "vector_only";
                          req_vector_weight := None; req_graph_weight := None;
                          req_top_k := None; req_page := None |})
        = Ok (Json body)
        /\ map hybrid_score (res_results body)
           = [NumThenMember (0.5 * 0.7) "toString"]).
Proof.
  split; [vm_compute; reflexivity |].
  split; [intros mul add; reflexivity |].
  split; [intros H; exact H |].
  eexists. split.
  - apply post_search_answer. reflexivity.
  - vm_compute. reflexivity.
Qed.

(** C4: for page >= 1 and topK >= 1 the page cut out of a fused list holds the
    elements at positions offset + i, i < topK, with offset = (page - 1) * topK,
    as far as the list goes; total_pages is the least number of pages of topK
    entries that hold the whole list; a page after the last one is empty, not
    an error; POST /search answers with this page and this count of the fused
    list.  With 12 entries and topK 5, page 1 is the first five, page 3 the
    last two, there are 3 pages and page 4 is empty. *)
Theorem search_pagination :
  (forall (A : Type) (fused : list A) (page topK : Z),
     (1 <= page)%Z -> (1 <= topK)%Z ->
     (forall i : nat,
        nth_error (page_slice fused page topK) i
        = if i <? Z.to_nat topK
          then nth_error fused (Z.to_nat ((page - 1) * topK) + i)
          else None)
     /\ exists totalPages : Z,
          ceil_div (Z.of_nat (List.length fused)) topK = Some totalPages
          /\ ((totalPages - 1) * topK < Z.of_nat (List.length fused)
              <= totalPages * topK)%Z
          /\ ((totalPages < page)%Z -> page_slice fused page topK = []))
  /\ (forall (env : Env) (req : SearchRequest) (rows : list RawRow),
        env _ (TableSearch (req_query req) (search_top_k req)) = Ok rows ->
        exists body : SearchBody,
          outcome env (post_search req) = Ok (Json body)
          /\ res_results body
             = page_slice (fused_hits env req rows) (search_page req) (search_top_k req)
          /\ total_pages body
             = ceil_div (Z.of_nat (List.length (fused_hits env req rows)))
                        (search_top_k req))
  /\ (forall (A : Type) (fused : list A),
        List.length fused = 12 ->
        page_slice fused 1 5 = firstn 5 fused
        /\ page_slice fused 3 5 = skipn 10 fused
        /\ List.length (page_slice fused 3 5) = 2
        /\ ceil_div 12 5 = Some 3%Z
        /\ page_slice fused 4 5 = []).
Proof.
  split; [| split].
  - intros A fused page topK Hpage HtopK.
    apply page_slice_spec; assumption.
  - intros env req rows Hrows.
    exists (search_body env req rows).
    split; [apply post_search_answer; exact Hrows |].
    split; reflexivity.
  - intros A fused Hlen.
    unfold page_slice. rewrite !slice_in_range by lia.
    replace (Z.to_nat ((1 - 1) * 5 + 5 - (1 - 1) * 5)) with 5 by lia.
    replace (Z.to_nat ((3 - 1) * 5 + 5 - (3 - 1) * 5)) with 5 by lia.
    replace (Z.to_nat ((1 - 1) * 5)) with 0 by lia.
    replace (Z.to_nat ((3 - 1) * 5)) with 10 by lia.
    replace (Z.to_nat ((4 - 1) * 5)) with 15 by lia.
    split; [reflexivity |]. split; [| split; [| split]].
    + apply List.firstn_all2. rewrite List.length_skipn. lia.
    + rewrite List.firstn_all2 by (rewrite List.length_skipn; lia).
      rewrite List.length_skipn. lia.
    + reflexivity.
    + rewrite List.skipn_all2 by lia. apply List.firstn_nil.
Qed.

(** Twelve entries, five a page: the second entry of page 3 is the twelfth,
    page 4 is empty. *)
Lemma search_pagination_witness :
  nth_error (page_slice (seq 1 12) 3 5) 1 = Some 12
  /\ page_slice (seq 1 12) 4 5 = [].
Proof.
  destruct search_pagination as [Hpages _].
  destruct (Hpages nat (seq 1 12) 3%Z 5%Z ltac:(lia) ltac:(lia)) as [Hnth _].
  destruct (Hpages nat (seq 1 12) 4%Z 5%Z ltac:(lia) ltac:(lia))
    as [_ [t [Ht [_ Hempty]]]].
  split.
  - rewrite Hnth. reflexivity.
  - apply Hempty. vm_compute in Ht. injection Ht as <-. lia.
Defined.

(** ** One vector search per request (C10) *)

Lemma map_index_length {A B : Type} (f : A -> nat -> B) (index : nat) (l : list A) :
  List.length (map_index f index l) = List.length l.
Proof.
  revert index. induction l as [| x rest IH]; intros index; simpl;
    [reflexivity | rewrite IH; reflexivity].
Qed.

Lemma formatted_hits_length (rows : list RawRow) :
  List.length (formatted_hits rows) <= List.length rows.
Proof.
  unfold formatted_hits.
  rewrite <- (map_index_length format_row 0 rows). apply List.filter_length_le.
Qed.

Lemma mergeResults_length (mul add : Q -> Q -> Q) (vectorResults : list VectorHit)
    (graphBoost : gmap string Q) (vectorWeight : Q) :
  List.length (mergeResults mul add vectorResults graphBoost vectorWeight)
  = List.length vectorResults.
Proof.
  unfold mergeResults.
  rewrite (Permutation_length (sort_perm _ _)). apply List.length_map.
Qed.

Lemma fused_hits_length (env : Env) (req : SearchRequest) (rows : list RawRow) :
  List.length (fused_hits env req rows) <= List.length rows.
Proof.
  unfold fused_hits. rewrite mergeResults_length. apply formatted_hits_length.
Qed.

(** C10: a hybrid search makes one vector search, with limit top_k, and none
    after it; when the table returns at most top_k rows for it, the fused list
    has at most top_k entries, the reported total_pages is never more than 1
    (it is 0 or 1 for top_k >= 1, and not a number for top_k = 0), and a
    request for page 2 or more gets an empty result list. *)
Theorem search_single_page (env : Env) (req : SearchRequest) (rows : list RawRow) :
  env _ (TableSearch (req_query req) (search_top_k req)) = Ok rows ->
  (Z.of_nat (List.length rows) <= search_top_k req)%Z ->
  calls env (post_search req)
  = CallOf (TableSearch (req_query req) (search_top_k req))
    :: (if uses_graph req then [CallOf (GraphKeywordSearch (req_query req))] else [])
  /\ (Z.of_nat (List.length (fused_hits env req rows)) <= search_top_k req)%Z
  /\ exists body : SearchBody,
       outcome env (post_search req) = Ok (Json body)
       /\ (forall t : Z, total_pages body = Some t -> (t <= 1)%Z)
       /\ ((1 <= search_top_k req)%Z ->
           total_pages body = Some 0%Z \/ total_pages body = Some 1%Z)
       /\ ((2 <= search_page req)%Z -> res_results body = []).
Proof.
  intros Hrows Hlimit.
  pose proof (fused_hits_length env req rows) as Hfused.
  assert (Hpages : (1 <= search_top_k req)%Z ->
                   total_pages (search_body env req rows) = Some 0%Z
                   \/ total_pages (search_body env req rows) = Some 1%Z).
  { intros HtopK. cbn [total_pages search_body].
    destruct (ceil_div_spec (Z.of_nat (List.length (fused_hits env req rows)))
                            (search_top_k req) HtopK) as [t [Ht Hbounds]].
    rewrite Ht.
    assert (t = 0 \/ t = 1)%Z as [-> | ->] by nia; [left | right]; reflexivity. }
  split; [| split; [lia |]].
  - unfold calls. rewrite run_post_search, Hrows. reflexivity.
  - exists (search_body env req rows).
    split; [apply post_search_answer; exact Hrows |].
    split; [| split; [exact Hpages |]].
    + intros t Ht.
      destruct (Z.eq_dec (search_top_k req) 0%Z) as [Hzero | Hnonzero].
      * cbn [total_pages search_body] in Ht. unfold ceil_div in Ht.
        rewrite Hzero in Ht. discriminate Ht.
      * destruct (Hpages ltac:(lia)) as [H0 | H1]; rewrite Ht in *;
          [injection H0 as -> | injection H1 as ->]; lia.
    + intros Hpage. cbn [res_results search_body].
      apply slice_beyond. unfold search_offset. nia.
Qed.

(** Page 2 of a search whose table returned two rows for the limit 5. *)
Lemma search_single_page_witness :
  exists body : SearchBody,
    outcome graph_down_env (post_search (hybrid_request 2)) = Ok (Json body)
    /\ res_results body = [].
Proof.
  destruct (search_single_page graph_down_env (hybrid_request 2) [row_alpha; row_beta])
    as [_ [_ [body [Hbody [_ [_ Hempty]]]]]].
  - reflexivity.
  - vm_compute. discriminate.
  - exists body. split; [exact Hbody |]. apply Hempty. vm_compute. discriminate.
Defined.

(** ** Store failures (C8) *)

Lemma fail_fast_await {A : Type} (call : storeE A) : fail_fast (await call).
Proof. unfold await. constructor; [reflexivity | intros a; constructor]. Qed.

Lemma fail_fast_lift {A : Type} (r : result A) : fail_fast (lift r).
Proof. destruct r; constructor. Qed.

Lemma fail_fast_bind {R S : Type} (p : Prog R) (f : R -> Prog S) :
  fail_fast p -> (forall r : R, fail_fast (f r)) -> fail_fast (bind p f).
Proof.
  intros Hp Hf. induction Hp as [r | e | A call k Hraise Hk IH]; simpl.
  - apply Hf.
  - constructor.
  - constructor.
    + intros e. rewrite Hraise. reflexivity.
    + exact IH.
Qed.

Lemma fail_fast_when (b : bool) (p : Prog unit) : fail_fast p -> fail_fast (when b p).
Proof. intros Hp. destruct b; [exact Hp | constructor]. Qed.

Lemma fail_fast_for_of {A : Type} (l : list A) (body : A -> Prog unit) :
  (forall x : A, fail_fast (body x)) -> fail_fast (for_of l body).
Proof.
  intros Hbody. induction l as [| x rest IH]; simpl.
  - constructor.
  - apply fail_fast_bind; [apply Hbody | intros _; exact IH].
Qed.

Lemma fail_fast_run {R : Type} (p : Prog R) :
  fail_fast p ->
  forall (env : Env) (before after : list Call) (c : Call) (e : Exn),
    fst (run env p) = (before ++ c :: after)%list ->
    rejection env c = Some e ->
    after = [] /\ snd (run env p) = Throw e.
Proof.
  intros Hp env.
  induction Hp as [r | e0 | A call k Hraise Hk IH]; intros before after c e Htrace Hrej.
  - destruct before; discriminate Htrace.
  - destruct before; discriminate Htrace.
  - simpl in Htrace |- *.
    destruct (env A call) as [a | e0] eqn:Hreply.
    + specialize (IH a).
      destruct (run env (k (Ok a))) as [trace out]. simpl in *.
      destruct before as [| c0 before'].
      * injection Htrace as Hc Hrest. subst c.
        simpl in Hrej. rewrite Hreply in Hrej. discriminate Hrej.
      * injection Htrace as Hc Hrest. eapply IH; eassumption.
    + rewrite Hraise in *. simpl in *.
      destruct before as [| c0 before'].
      * injection Htrace as Hc Hrest. subst c.
        simpl in Hrej. rewrite Hreply in Hrej. injection Hrej as <-.
        split; [symmetry; exact Hrest | reflexivity].
      * injection Htrace as Hc Hrest. destruct before'; discriminate Hrest.
Qed.

Lemma fail_fast_surfaces {Body : Type} (p : Prog (Response Body)) :
  fail_fast p -> surfaces_store_errors (handler p).
Proof.
  intros Hp env before after c e Hcalls Hrej.
  unfold calls, outcome in *. rewrite run_handler in *.
  pose proof (fail_fast_run p Hp env before after c e) as Hrun.
  destruct (run env p) as [trace [r | e0]]; simpl in *;
    destruct (Hrun Hcalls Hrej) as [Hafter Hout]; [discriminate Hout |].
  injection Hout as <-. split; [exact Hafter | reflexivity].
Qed.

Lemma fail_fast_VectorDB_search (queryText : string) (topK : Z) :
  fail_fast (VectorDB_search queryText topK).
Proof.
  unfold VectorDB_search. simpl. constructor; [reflexivity | intros rows; constructor].
Qed.

(** Every handler of hybrid.js but POST /search is a [try] block whose body
    never goes on after a rejected call. *)
Lemma handlers_surface_store_errors :
  (forall body : gmap string JsVal, surfaces_store_errors (post_nodes body))
  /\ (forall id : string, surfaces_store_errors (get_node id))
  /\ (forall (S2N : JsVal -> option Q) (data : gmap string JsVal),
        surfaces_store_errors (post_edges S2N data))
  /\ (forall (start_id : option string) (depth : option Z),
        surfaces_store_errors (get_search_graph start_id depth))
  /\ (forall (query : string) (top_k : option Z),
        surfaces_store_errors (post_search_vector query top_k))
  /\ (forall data : gmap string JsVal, surfaces_store_errors (post_ingest data))
  /\ (forall id : string, surfaces_store_errors (get_edge id))
  /\ (forall (id : string) (body : gmap string JsVal),
        surfaces_store_errors (put_node id body))
  /\ (forall id : string, surfaces_store_errors (delete_node id))
  /\ surfaces_store_errors get_stats
  /\ (forall req : MultiHopRequest, surfaces_store_errors (get_multi_hop req)).
Proof.
  repeat match goal with |- _ /\ _ => split end; intros;
    apply fail_fast_surfaces;
    repeat match goal with
      | |- fail_fast (bind _ _) => apply fail_fast_bind; [| intros]
      | |- fail_fast (for_of _ _) => apply fail_fast_for_of; intros
      | |- fail_fast (when _ _) => apply fail_fast_when
      | |- fail_fast (await _) => apply fail_fast_await
      | |- fail_fast (lift _) => apply fail_fast_lift
      | |- fail_fast (VectorDB_search _ _) => apply fail_fast_VectorDB_search
      | |- fail_fast (Ret _) => constructor
      | |- fail_fast (match ?x with _ => _ end) => destruct x
      | |- fail_fast _ => progress cbv beta zeta
      end.
Qed.

(** C8, as stated, fails: with Neo4j down, the keyword search of a hybrid
    search is rejected, and POST /search still answers 200 with the two
    vector hits and no boost. *)
Lemma graph_search_failure_is_swallowed :
  rejection graph_down_env (CallOf (GraphKeywordSearch "alpha"))
  = Some (StoreFailure "ServiceUnavailable")
  /\ calls graph_down_env (post_search (hybrid_request 1))
     = [CallOf (TableSearch "alpha" 5); CallOf (GraphKeywordSearch "alpha")]
  /\ (exists body : SearchBody,
        outcome graph_down_env (post_search (hybrid_request 1)) = Ok (Json body)
        /\ map (fun s => docId (hit s)) (res_results body) = ["alpha"; "beta"]
        /\ graph_boosts body = 0)
  /\ ~ surfaces_store_errors (post_search (hybrid_request 1)).
Proof.
  assert (Hcalls : calls graph_down_env (post_search (hybrid_request 1))
                   = [CallOf (TableSearch "alpha" 5); CallOf (GraphKeywordSearch "alpha")]).
  { unfold calls. rewrite run_post_search. reflexivity. }
  assert (Hout : outcome graph_down_env (post_search (hybrid_request 1))
                 = Ok (Json (search_body graph_down_env (hybrid_request 1)
                                         [row_alpha; row_beta]))).
  { apply post_search_answer. reflexivity. }
  split; [reflexivity |]. split; [exact Hcalls |]. split.
  - eexists. split; [exact Hout |]. split; vm_compute; reflexivity.
  - intros Hsurfaces.
    destruct (Hsurfaces graph_down_env [CallOf (TableSearch "alpha" 5)] []
                        (CallOf (GraphKeywordSearch "alpha"))
                        (StoreFailure "ServiceUnavailable") Hcalls eq_refl)
      as [_ Herror].
    rewrite Hout in Herror. discriminate Herror.
Qed.

(** C8, amended: no handler of hybrid.js retries a failed store call.  In
    every handler but POST /search a rejected store call is the last call made
    and the response is the 500 that carries its error; so it is for the
    vector search of POST /search.  The keyword search on the graph of a
    hybrid search is the exception: its failure is caught in [graphSearch] and
    treated as no match, the request completes with status 200, no boost, and
    each store called once. *)
Theorem store_failures_surface_except_graph_search :
  ((forall body : gmap string JsVal, surfaces_store_errors (post_nodes body))
   /\ (forall id : string, surfaces_store_errors (get_node id))
   /\ (forall (S2N : JsVal -> option Q) (data : gmap string JsVal),
         surfaces_store_errors (post_edges S2N data))
   /\ (forall (start_id : option string) (depth : option Z),
         surfaces_store_errors (get_search_graph start_id depth))
   /\ (forall (query : string) (top_k : option Z),
         surfaces_store_errors (post_search_vector query top_k))
   /\ (forall data : gmap string JsVal, surfaces_store_errors (post_ingest data))
   /\ (forall id : string, surfaces_store_errors (get_edge id))
   /\ (forall (id : string) (body : gmap string JsVal),
         surfaces_store_errors (put_node id body))
   /\ (forall id : string, surfaces_store_errors (delete_node id))
   /\ surfaces_store_errors get_stats
   /\ (forall req : MultiHopRequest, surfaces_store_errors (get_multi_hop req)))
  /\ (forall (env : Env) (req : SearchRequest) (e : Exn),
        env _ (TableSearch (req_query req) (search_top_k req)) = Throw e ->
        run env (post_search req)
        = ([CallOf (TableSearch (req_query req) (search_top_k req))],
           Ok (Status500 e)))
  /\ (forall (env : Env) (req : SearchRequest) (rows : list RawRow) (e : Exn),
        env _ (TableSearch (req_query req) (search_top_k req)) = Ok rows ->
        uses_graph req = true ->
        env _ (GraphKeywordSearch (req_query req)) = Throw e ->
        run env (post_search req)
        = ([CallOf (TableSearch (req_query req) (search_top_k req));
            CallOf (GraphKeywordSearch (req_query req))],
           Ok (Json (search_body env req rows)))
        /\ search_boosts env req = ∅
        /\ graph_boosts (search_body env req rows) = 0).
Proof.
  split; [exact handlers_surface_store_errors | split].
  - intros env req e Hfail. rewrite run_post_search, Hfail. reflexivity.
  - intros env req rows e Hrows Hgraph Hfail.
    assert (Hboosts : search_boosts env req = ∅).
    { unfold search_boosts, graph_matches. rewrite Hgraph, Hfail. reflexivity. }
    split; [| split; [exact Hboosts |]].
    + rewrite run_post_search, Hrows, Hgraph. reflexivity.
    + cbn [graph_boosts search_body]. rewrite Hboosts. reflexivity.
Qed.

(** The run of a hybrid search while Neo4j is down. *)
Lemma store_failures_surface_except_graph_search_witness :
  run graph_down_env (post_search (hybrid_request 1))
  = ([CallOf (TableSearch "alpha" 5); CallOf (GraphKeywordSearch "alpha")],
     Ok (Json (search_body graph_down_env (hybrid_request 1) [row_alpha; row_beta]))).
Proof.
  destruct store_failures_surface_except_graph_search as [_ [_ Hgraph]].
  destruct (Hgraph graph_down_env (hybrid_request 1) [row_alpha; row_beta]
                   (StoreFailure "ServiceUnavailable") eq_refl eq_refl eq_refl)
    as [Hrun _].
  exact Hrun.
Defined.

(** ** Bounded multi-hop traversal (C9) *)

Lemma trails_length (g : Graph) (types : list string) (hops at_node : nat)
    (used : list nat) (p : list GraphRel) (e : nat) :
  In (p, e) (trails g types hops at_node used) ->
  1 <= List.length p <= hops.
Proof.
  revert at_node used p e.
  induction hops as [| hops' IH]; intros at_node used p e Hin; simpl in Hin.
  - contradiction.
  - apply List.in_flat_map in Hin. destruct Hin as [[i r] [_ Hin]].
    destruct (existsb (String.eqb (rel_type r)) types && negb (existsb (Nat.eqb i) used));
      [| contradiction].
    destruct (other_end r at_node) as [next |]; [| contradiction].
    destruct Hin as [Hone | Hmore].
    + injection Hone as <- _. simpl. lia.
    + apply List.in_map_iff in Hmore. destruct Hmore as [[p' e'] [Heq Hin']].
      injection Heq as <- _. apply IH in Hin'. simpl. lia.
Qed.

Lemma insert_by_hops_perm (row : PathRecord) (rows : list PathRecord) :
  Permutation (insert_by_hops row rows) (row :: rows).
Proof.
  induction rows as [| other rest IH]; simpl.
  - apply Permutation_refl.
  - destruct (rec_hop_count row <=? rec_hop_count other)%Z.
    + apply Permutation_refl.
    + apply Permutation_trans with (other :: row :: rest);
        [apply perm_skip; exact IH | apply perm_swap].
Qed.

Lemma order_by_hops_perm (rows : list PathRecord) :
  Permutation (order_by_hops rows) rows.
Proof.
  induction rows as [| row rest IH]; simpl.
  - apply perm_nil.
  - apply Permutation_trans with (row :: order_by_hops rest);
      [apply insert_by_hops_perm | apply perm_skip; exact IH].
Qed.

Lemma insert_by_hops_sorted (row : PathRecord) (rows : list PathRecord) :
  Sorted hops_le rows -> Sorted hops_le (insert_by_hops row rows).
Proof.
  induction rows as [| other rest IH]; intros Hsorted; simpl.
  - repeat constructor.
  - destruct (Z.leb_spec (rec_hop_count row) (rec_hop_count other)) as [Hle | Hgt].
    + constructor; [exact Hsorted | constructor; exact Hle].
    + inversion Hsorted as [| ? ? Hrest Hhd]; subst.
      constructor; [apply IH; exact Hrest |].
      destruct rest as [| next rest']; simpl.
      * constructor. unfold hops_le. lia.
      * destruct (rec_hop_count row <=? rec_hop_count next)%Z.
        -- constructor. unfold hops_le. lia.
        -- inversion Hhd; subst. constructor. assumption.
Qed.

Lemma order_by_hops_sorted (rows : list PathRecord) :
  StronglySorted hops_le (order_by_hops rows).
Proof.
  apply Sorted_StronglySorted.
  - intros a b c Hab Hbc. unfold hops_le in *. lia.
  - induction rows as [| row rest IH]; simpl;
      [constructor | apply insert_by_hops_sorted; exact IH].
Qed.

Lemma In_firstn_In {A : Type} (n : nat) (l : list A) (x : A) :
  In x (firstn n l) -> In x l.
Proof.
  intros Hin. rewrite <- (List.firstn_skipn n l). apply List.in_or_app. left. exact Hin.
Qed.

Lemma StronglySorted_firstn {A : Type} (R : A -> A -> Prop) (n : nat) (l : list A) :
  StronglySorted R l -> StronglySorted R (firstn n l).
Proof.
  revert n. induction l as [| x rest IH]; intros n Hsorted.
  - rewrite List.firstn_nil. constructor.
  - destruct n as [| n']; simpl; [constructor |].
    inversion Hsorted as [| ? ? Hrest Hall]; subst.
    constructor; [apply IH; exact Hrest |].
    apply List.Forall_forall. intros y Hy.
    apply In_firstn_In in Hy.
    rewrite List.Forall_forall in Hall. apply Hall. exact Hy.
Qed.

Lemma run_multi_hop_rows (g : Graph) (startId : string) (types : list string)
    (hops : nat) :
  List.length (run_multi_hop g startId types hops) <= result_cap
  /\ Forall (fun record => (1 <= rec_hop_count record <= Z.of_nat hops)%Z)
            (run_multi_hop g startId types hops)
  /\ StronglySorted hops_le (run_multi_hop g startId types hops).
Proof.
  unfold run_multi_hop.
  split; [| split].
  - rewrite List.length_firstn. lia.
  - apply List.Forall_forall. intros record Hin.
    apply In_firstn_In in Hin.
    apply (Permutation_in _ (order_by_hops_perm _)) in Hin.
    apply List.in_flat_map in Hin. destruct Hin as [[start node] [_ Hin]].
    apply List.in_map_iff in Hin. destruct Hin as [[p e] [<- Hin]].
    apply List.filter_In in Hin. destruct Hin as [Hin _].
    apply trails_length in Hin. simpl. lia.
  - apply StronglySorted_firstn. apply order_by_hops_sorted.
Qed.

(** C9: against a graph store that holds any graph (dense or cyclic) and
    executes the query as Cypher prescribes, GET /search/multi-hop with a start
    id and hop limit H answers with at most 20 paths, each with a hop count
    between 1 and H, in ascending order of hop count; with no start id it
    answers 400. *)
Theorem multi_hop_bounded (g : Graph) (req : MultiHopRequest) :
  match outcome (graph_env g) (get_multi_hop req) with
  | Ok (Json body) =>
      List.length (paths body) <= 20
      /\ total_paths body = List.length (paths body)
      /\ Forall (fun row =>
                   (1 <= hop_count row <= Z.of_nat (default 2%nat (req_hops req)))%Z)
                (paths body)
      /\ StronglySorted (fun a b => (hop_count a <= hop_count b)%Z) (paths body)
  | Ok (Status400 _) => req_start_id req = None \/ req_start_id req = Some ""
  | Ok (Status404 _) | Ok (Status500 _) | Throw _ => False
  end.
Proof.
  unfold outcome, get_multi_hop. rewrite run_handler.
  destruct (req_start_id req) as [[| c start_id] |];
    [simpl; right; reflexivity | | simpl; left; reflexivity].
  rewrite run_bind, run_await.
  cbn [graph_env run snd fst].
  set (types := if String.eqb (req_relationship_types req) "" then _ else _).
  set (hops := default 2 (req_hops req)).
  destruct (run_multi_hop_rows g (String c start_id) types hops)
    as [Hcap [Hhops Hsorted]].
  cbn [paths total_paths].
  split; [rewrite List.length_map; exact Hcap |].
  split; [reflexivity |].
  split.
  - apply List.Forall_forall. intros row Hin.
    apply List.in_map_iff in Hin. destruct Hin as [record [<- Hin]].
    rewrite List.Forall_forall in Hhops. apply Hhops in Hin. exact Hin.
  - clear Hcap Hhops.
    induction Hsorted as [| record rest Hrest IH Hall]; simpl; constructor.
    + exact IH.
    + apply List.Forall_forall. intros row Hin.
      apply List.in_map_iff in Hin. destruct Hin as [record' [<- Hin]].
      rewrite List.Forall_forall in Hall. apply Hall in Hin. exact Hin.
Qed.

(** ** Cosine similarity (C5) *)

Lemma cosine_loop (a b : list R) :
  List.length a = List.length b ->
  forall d ma mb : R,
    fold_left cosine_step (combine a b) (d, ma, mb)
    = (d + dot a b, ma + dot a a, mb + dot b b)%R.
Proof.
  revert b. induction a as [| x a' IH]; intros [| y b'] Hlen d ma mb;
    try discriminate Hlen; simpl.
  - f_equal; [f_equal |]; ring.
  - rewrite IH by (injection Hlen as Hlen; exact Hlen).
    f_equal; [f_equal |]; ring.
Qed.

Lemma dot_self_nonneg (a : list R) : (0 <= dot a a)%R.
Proof.
  induction a as [| x a' IH]; simpl; [lraR | nra].
Qed.

Lemma dot_self_zero (a : list R) : dot a a = 0%R <-> Forall (fun x => x = 0%R) a.
Proof.
  induction a as [| x a' IH]; simpl.
  - split; [constructor | reflexivity].
  - pose proof (dot_self_nonneg a') as Hnonneg.
    split.
    + intros Hzero. constructor; [nra |]. apply IH. nra.
    + intros Hall. inversion Hall as [| ? ? Hx Hrest]; subst.
      apply IH in Hrest. rewrite Hrest. ring.
Qed.

Lemma magnitude_zero (a : list R) :
  magnitude a = 0%R <-> Forall (fun x => x = 0%R) a.
Proof.
  unfold magnitude. rewrite <- dot_self_zero. split.
  - apply sqrt_eq_0. apply dot_self_nonneg.
  - intros ->. apply sqrt_0.
Qed.

Lemma cosineSimilarity_equal_length (a b : list R) :
  List.length a = List.length b ->
  cosineSimilarity a b
  = if Req_EM_T (magnitude a) 0 then Ok 0%R
    else if Req_EM_T (magnitude b) 0 then Ok 0%R
    else Ok (dot a b / (magnitude a * magnitude b))%R.
Proof.
  intros Hlen. unfold cosineSimilarity.
  rewrite Hlen, Nat.eqb_refl. cbn [negb].
  rewrite cosine_loop by exact Hlen.
  rewrite !Rplus_0_l. reflexivity.
Qed.

(** C5: [cosineSimilarity] throws the dimension error exactly when the two
    lengths differ.  On vectors of equal length it takes the branch that
    returns 0 exactly when the magnitude of one of them is 0, which is the
    case of a vector of zeros and of the empty vector, and in the other case
    it returns dot(a, b) / (|a| * |b|).  (That quotient is itself 0 for
    orthogonal vectors.) *)
Theorem cosineSimilarity_spec (a b : list R) :
  (cosineSimilarity a b = Throw DimensionMismatch <-> List.length a <> List.length b)
  /\ (List.length a = List.length b ->
      (magnitude a = 0%R \/ magnitude b = 0%R -> cosineSimilarity a b = Ok 0%R)
      /\ (magnitude a <> 0%R -> magnitude b <> 0%R ->
          cosineSimilarity a b = Ok (dot a b / (magnitude a * magnitude b))%R))
  /\ (magnitude a = 0%R <-> Forall (fun x => x = 0%R) a)
  /\ cosineSimilarity [] [] = Ok 0%R.
Proof.
  split; [| split; [| split]].
  - split.
    + intros Hthrow Hlen.
      rewrite (cosineSimilarity_equal_length a b Hlen) in Hthrow.
      destruct (Req_EM_T (magnitude a) 0); [discriminate Hthrow |].
      destruct (Req_EM_T (magnitude b) 0); discriminate Hthrow.
    + intros Hlen. unfold cosineSimilarity.
      destruct (Nat.eqb_spec (List.length a) (List.length b)) as [Heq | _];
        [contradiction | reflexivity].
  - intros Hlen. rewrite (cosineSimilarity_equal_length a b Hlen). split.
    + intros [Ha | Hb].
      * destruct (Req_EM_T (magnitude a) 0); [reflexivity | contradiction].
      * destruct (Req_EM_T (magnitude a) 0); [reflexivity |].
        destruct (Req_EM_T (magnitude b) 0); [reflexivity | contradiction].
    + intros Ha Hb.
      destruct (Req_EM_T (magnitude a) 0); [contradiction |].
      destruct (Req_EM_T (magnitude b) 0); [contradiction | reflexivity].
  - apply magnitude_zero.
  - rewrite cosineSimilarity_equal_length by reflexivity.
    destruct (Req_EM_T (magnitude []) 0) as [_ | Hnz]; [reflexivity |].
    exfalso. apply Hnz. apply magnitude_zero. constructor.
Qed.

(** Two vectors of magnitude 5. *)
Lemma cosineSimilarity_spec_witness :
  cosineSimilarity [3; 4]%R [4; 3]%R
  = Ok (dot [3; 4] [4; 3] / (magnitude [3; 4] * magnitude [4; 3]))%R.
Proof.
  destruct (cosineSimilarity_spec [3; 4]%R [4; 3]%R) as [_ [Hequal _]].
  destruct (Hequal eq_refl) as [_ Hquotient].
  apply Hquotient.
  - intros Hzero.
    destruct (cosineSimilarity_spec [3; 4]%R [4; 3]%R) as [_ [_ [Hmag _]]].
    apply Hmag in Hzero. inversion Hzero as [| ? ? Hthree _]. lraR.
  - intros Hzero.
    destruct (cosineSimilarity_spec [4; 3]%R [3; 4]%R) as [_ [_ [Hmag _]]].
    apply Hmag in Hzero. inversion Hzero as [| ? ? Hfour _]. lraR.
Defined.

(** The vectors of [testCosineSimilarity]: perpendicular and opposite. *)
Example cosineSimilarity_perpendicular_opposite :
  cosineSimilarity [1; 0; 0]%R [0; 1; 0]%R = Ok 0%R
  /\ cosineSimilarity [1; 0; 0]%R [-1; 0; 0]%R = Ok (-1)%R.
Proof.
  assert (Hunit : magnitude [1; 0; 0]%R = 1%R).
  { unfold magnitude. replace (dot [1; 0; 0] [1; 0; 0])%R with 1%R by (simpl; ring).
    apply sqrt_1. }
  assert (Hunit' : magnitude [0; 1; 0]%R = 1%R).
  { unfold magnitude. replace (dot [0; 1; 0] [0; 1; 0])%R with 1%R by (simpl; ring).
    apply sqrt_1. }
  assert (Hunit'' : magnitude [-1; 0; 0]%R = 1%R).
  { unfold magnitude. replace (dot [-1; 0; 0] [-1; 0; 0])%R with 1%R by (simpl; ring).
    apply sqrt_1. }
  split; rewrite cosineSimilarity_equal_length by reflexivity;
    rewrite Hunit, ?Hunit', ?Hunit'';
    (destruct (Req_EM_T 1 0) as [Habsurd | _]; [lraR |]);
    f_equal; simpl; field.
Qed.

(** ** The fallback embedding (C6) *)

Lemma ToInt32_range (z : Z) : (- 2 ^ 31 <= ToInt32 z < 2 ^ 31)%Z.
Proof.
  unfold ToInt32.
  pose proof (Z.mod_pos_bound (z + 2 ^ 31) (2 ^ 32) ltac:(lia)). lia.
Qed.

Lemma ToInt32_eq (z : Z) :
  ToInt32 z = (z + (- ((z + 2 ^ 31) / 2 ^ 32)) * 2 ^ 32)%Z.
Proof.
  unfold ToInt32. rewrite Z.mod_eq by lia. ring.
Qed.

Lemma ToInt32_congr (x y k : Z) : (x = y + k * 2 ^ 32)%Z -> ToInt32 x = ToInt32 y.
Proof.
  intros ->. unfold ToInt32.
  replace (y + k * 2 ^ 32 + 2 ^ 31)%Z with (y + 2 ^ 31 + k * 2 ^ 32)%Z by ring.
  rewrite Z_mod_plus_full. reflexivity.
Qed.

Lemma ToInt32_small (z : Z) : (- 2 ^ 31 <= z < 2 ^ 31)%Z -> ToInt32 z = z.
Proof.
  intros Hrange. unfold ToInt32. rewrite Z.mod_small by lia. lia.
Qed.

Lemma and32_diag (x : Z) : and32 x x = ToInt32 x.
Proof.
  unfold and32. rewrite Z.land_diag.
  apply ToInt32_small. apply ToInt32_range.
Qed.

Lemma hash_step_poly (h h' c : Z) :
  h = ToInt32 h' -> hash_step h c = ToInt32 (h' * 31 + c).
Proof.
  intros ->. unfold hash_step. rewrite and32_diag.
  unfold shl32. change (5 mod 32)%Z with 5%Z.
  rewrite Z.shiftl_mul_pow2 by lia.
  rewrite (ToInt32_small (ToInt32 h')) by apply ToInt32_range.
  rewrite (ToInt32_eq (ToInt32 h' * 2 ^ 5)).
  rewrite (ToInt32_eq h').
  set (q := (- ((h' + 2 ^ 31) / 2 ^ 32))%Z).
  set (q' := (- (((h' + q * 2 ^ 32) * 2 ^ 5 + 2 ^ 31) / 2 ^ 32))%Z).
  apply ToInt32_congr with (k := (31 * q + q')%Z). ring.
Qed.

Lemma text_hash_fold (chars : list Z) (h h' : Z) :
  h = ToInt32 h' ->
  fold_left hash_step chars h
  = ToInt32 (fold_left (fun acc c => (acc * 31 + c)%Z) chars h').
Proof.
  revert h h'. induction chars as [| c rest IH]; intros h h' Hh; simpl.
  - exact Hh.
  - apply IH. apply hash_step_poly. exact Hh.
Qed.

Lemma text_hash_poly (text : list Z) :
  text_hash text = ToInt32 (poly_hash text).
Proof.
  unfold text_hash, poly_hash. apply text_hash_fold. reflexivity.
Qed.

Lemma horner_polynomial (codes : list Z) (h : Z) :
  fold_left (fun acc c => (acc * 31 + c)%Z) codes h
  = (h * 31 ^ Z.of_nat (List.length codes) + polynomial codes)%Z.
Proof.
  revert h. induction codes as [| c rest IH]; intros h.
  - cbn [fold_left polynomial List.length]. change (Z.of_nat 0) with 0%Z.
    rewrite Z.pow_0_r. ring.
  - cbn [fold_left polynomial List.length]. rewrite IH.
    rewrite Nat2Z.inj_succ, Z.pow_succ_r by lia. ring.
Qed.

Lemma poly_hash_polynomial (codes : list Z) : poly_hash codes = polynomial codes.
Proof. unfold poly_hash. rewrite horner_polynomial. apply Z.add_0_l. Qed.

Lemma sin_period_Z (x : R) (k : Z) : sin (x + 2 * IZR k * PI) = sin x.
Proof.
  destruct (Z.le_gt_cases 0 k) as [Hpos | Hneg].
  - rewrite <- (Z2Nat.id k Hpos), <- INR_IZR_INZ. apply sin_period.
  - rewrite <- (sin_period (x + 2 * IZR k * PI) (Z.to_nat (- k))).
    rewrite INR_IZR_INZ, Z2Nat.id by lia.
    rewrite opp_IZR. f_equal. ring.
Qed.

Lemma sin_js_rem (x : R) : sin (js_rem x (2 * PI)) = sin x.
Proof.
  unfold js_rem.
  rewrite <- (sin_period_Z x (- trunc (x / (2 * PI)))).
  rewrite opp_IZR. f_equal. ring.
Qed.

Lemma nth_error_map_seq {B : Type} (f : nat -> B) (n i : nat) :
  i < n -> nth_error (map f (seq 0 n)) i = Some (f i).
Proof.
  intros Hi. rewrite List.nth_error_map.
  rewrite List.nth_error_seq.
  destruct (Nat.ltb_spec i n) as [_ | Hge]; [reflexivity | lia].
Qed.

(** C6: [generateMockEmbedding] is a function of the text and the dimension
    alone (it reads no state, so two calls on the same text return the same
    vector).  The vector has exactly D components; component i is
    sin(hash + i * 12345) * 0.5 + 0.5 and lies in [0, 1]; hash is the
    polynomial hash of the character codes, base 31, wrapped to a signed
    32-bit integer. *)
Theorem generateMockEmbedding_spec (text : list Z) (dimensions : nat) :
  List.length (generateMockEmbedding text dimensions) = dimensions
  /\ (forall i : nat,
        i < dimensions ->
        nth_error (generateMockEmbedding text dimensions) i
        = Some (sin (IZR (text_hash text) + INR i * 12345) * 0.5 + 0.5)%R)
  /\ Forall (fun v => (0 <= v <= 1)%R) (generateMockEmbedding text dimensions)
  /\ text_hash text = ToInt32 (polynomial text)
  /\ (- 2 ^ 31 <= text_hash text < 2 ^ 31)%Z.
Proof.
  unfold generateMockEmbedding.
  split; [| split; [| split; [| split]]].
  - rewrite List.length_map. apply List.length_seq.
  - intros i Hi. rewrite nth_error_map_seq by exact Hi.
    rewrite sin_js_rem. reflexivity.
  - apply List.Forall_forall. intros v Hin.
    apply List.in_map_iff in Hin. destruct Hin as [i [<- _]].
    pose proof (SIN_bound (js_rem (IZR (text_hash text) + INR i * 12345) (2 * PI))).
    lraR.
  - rewrite text_hash_poly, poly_hash_polynomial. reflexivity.
  - rewrite text_hash_poly. apply ToInt32_range.
Qed.

(** The second of three components for the text "abc". *)
Lemma generateMockEmbedding_spec_witness :
  nth_error (generateMockEmbedding (code_units "abc") 3) 1
  = Some (sin (IZR (text_hash (code_units "abc")) + INR 1 * 12345) * 0.5 + 0.5)%R.
Proof.
  destruct (generateMockEmbedding_spec (code_units "abc") 3) as [_ [Hnth _]].
  apply Hnth. lia.
Defined.

(** ** The examples of the specification, evaluated *)

Example decideRoute_title_and_node : decideRoute title_and_node_payload = BOTH.
Proof. vm_compute. reflexivity. Qed.

Example cleanData_short_content : cleanData short_content_payload = Ok None.
Proof. vm_compute. reflexivity. Qed.

Example decideRoute_content_only :
  match cleanData content_only_payload with
  | Ok (Some cleaned) => decideRoute cleaned = VECTOR_ONLY
  | _ => False
  end.
Proof. vm_compute. reflexivity. Qed.

Example cleanData_collapses_and_strips :
  trim (strip_noise (collapse_spaces false "  Hello,   wor@ld!  is  it#? ")) = "Hello, world! is it?".
Proof. vm_compute. reflexivity. Qed.

Example text_hash_abc : text_hash (code_units "abc") = 96354%Z.
Proof. vm_compute. reflexivity. Qed.

Example text_hash_wraps :
  polynomial (code_units "AI healthcare cancer diagnostics")
  = 1150321365897287594660893008134392949698019699111%Z
  /\ text_hash (code_units "AI healthcare cancer diagnostics") = (-311973465)%Z.
Proof. split; vm_compute; reflexivity. Qed.

Example post_search_boost_reorders :
  match outcome both_up_env (post_search (hybrid_request 1)) with
  | Ok (Json body) =>
      map (fun s => docId (hit s)) (res_results body) = ["beta"; "alpha"]
      /\ Forall2 score_is (map hybrid_score (res_results body)) [0.69%Q; 0.56%Q]
      /\ total_pages body = Some 1%Z
      /\ vector_hits body = 2 /\ graph_boosts body = 1
  | _ => False
  end.
Proof.
  unfold outcome. rewrite run_post_search.
  cbn [both_up_env hybrid_request req_query search_top_k req_top_k default snd].
  split; [vm_compute; reflexivity |].
  split; [vm_compute; repeat constructor |].
  repeat split; vm_compute; reflexivity.
Qed.

Example mergeResults_keeps_order_of_ties :
  map (fun s => docId (hit s))
      (mergeResults Qmult Qplus
         [hit_y; hit_x; {| rank := 3; docId := "z"; text := "third";
                           distance := 0.4; similarity := 0.6;
                           metadata := JNull |}] ∅ 1)
  = ["x"; "y"; "z"].
Proof. vm_compute. reflexivity. Qed.

(** On the dense graph 5 paths of one hop and 20 of two leave n0; the answer
    holds the first 20, the paths of one hop first. *)
Example multi_hop_dense_graph :
  List.length (trails dense_graph default_relationship_types 2 0 []) = 25
  /\ match outcome (graph_env dense_graph) (get_multi_hop dense_request) with
     | Ok (Json body) =>
         map hop_count (paths body)
         = (repeat 1 5 ++ repeat 2 15)%Z%list
         /\ total_paths body = 20
     | _ => False
     end.
Proof. split; [vm_compute; reflexivity |]. vm_compute. split; reflexivity. Qed.

(** * Further properties of the code *)

(** ** similarity.js *)

Lemma dot_comm (a b : list R) : dot a b = dot b a.
Proof.
  revert b. induction a as [| x a' IH]; intros [| y b']; simpl; try reflexivity.
  rewrite IH. ring.
Qed.

(** X1: [cosineSimilarity] is symmetric in its two arguments, the dimension
    error included. *)
Theorem cosineSimilarity_symmetric (a b : list R) :
  cosineSimilarity a b = cosineSimilarity b a.
Proof.
  destruct (Nat.eq_dec (List.length a) (List.length b)) as [Hlen | Hlen].
  - rewrite (cosineSimilarity_equal_length a b Hlen).
    rewrite (cosineSimilarity_equal_length b a (eq_sym Hlen)).
    rewrite (dot_comm b a), (Rmult_comm (magnitude b) (magnitude a)).
    destruct (Req_EM_T (magnitude a) 0); destruct (Req_EM_T (magnitude b) 0);
      reflexivity.
  - unfold cosineSimilarity.
    destruct (Nat.eqb_spec (List.length a) (List.length b)) as [Heq | _];
      [contradiction |].
    destruct (Nat.eqb_spec (List.length b) (List.length a)) as [Heq | _];
      [symmetry in Heq; contradiction | reflexivity].
Qed.

(** X2: the similarity of a vector with itself is 1, unless its magnitude is
    0, in which case it is 0. *)
Theorem cosineSimilarity_self (a : list R) :
  (magnitude a <> 0%R -> cosineSimilarity a a = Ok 1%R)
  /\ (magnitude a = 0%R -> cosineSimilarity a a = Ok 0%R).
Proof.
  rewrite (cosineSimilarity_equal_length a a eq_refl).
  split; intros Ha.
  - destruct (Req_EM_T (magnitude a) 0); [contradiction |].
    f_equal. unfold magnitude in *.
    rewrite sqrt_sqrt by apply dot_self_nonneg.
    apply Rinv_r. intros Hzero. apply Ha. rewrite Hzero. apply sqrt_0.
  - destruct (Req_EM_T (magnitude a) 0); [reflexivity | contradiction].
Qed.

Lemma cosineSimilarity_self_witness : cosineSimilarity [3; 4]%R [3; 4]%R = Ok 1%R.
Proof.
  apply (proj1 (cosineSimilarity_self [3; 4]%R)).
  intros Hzero. apply magnitude_zero in Hzero.
  inversion Hzero as [| ? ? Hthree _]. lraR.
Defined.


(** The Cauchy-Schwarz inequality for the sums of the loop. *)
Lemma dot_cauchy_schwarz (a b : list R) :
  (dot a b * dot a b <= dot a a * dot b b)%R.
Proof.
  revert b. induction a as [| x a' IH]; intros [| y b']; simpl; try lraR.
  specialize (IH b').
  pose proof (dot_self_nonneg a') as HA.
  pose proof (dot_self_nonneg b') as HB.
  set (s := dot a' b') in *. set (A := dot a' a') in *.
  set (B := dot b' b') in *.
  assert (Hcross : (2 * (x * y * s) <= x * x * B + y * y * A)%R).
  { destruct (Req_dec A 0) as [HA0 | HA0].
    - assert (s = 0)%R by nra. subst s. nra.
    - assert (0 < A)%R by lraR.
      assert (0 <= A * (x * x * B + y * y * A - 2 * (x * y * s)))%R.
      { pose proof (Rle_0_sqr (x * s - y * A)) as Hsq. unfold Rsqr in Hsq.
        assert (0 <= x * x * (A * B - s * s))%R by nra.
        nra. }
      nra. }
  nra.
Qed.

(** X3: a similarity that [cosineSimilarity] returns lies between -1 and 1. *)
Theorem cosineSimilarity_bounded (a b : list R) (r : R) :
  cosineSimilarity a b = Ok r -> (-1 <= r <= 1)%R.
Proof.
  intros Hr.
  assert (Hlen : List.length a = List.length b).
  { unfold cosineSimilarity in Hr.
    destruct (Nat.eqb_spec (List.length a) (List.length b)) as [Heq | _];
      [exact Heq | discriminate Hr]. }
  rewrite (cosineSimilarity_equal_length a b Hlen) in Hr.
  destruct (Req_EM_T (magnitude a) 0) as [| Ha];
    [injection Hr as <-; lraR |].
  destruct (Req_EM_T (magnitude b) 0) as [| Hb];
    [injection Hr as <-; lraR |].
  injection Hr as <-.
  pose proof (dot_cauchy_schwarz a b) as Hcs.
  pose proof (dot_self_nonneg a) as HA. pose proof (dot_self_nonneg b) as HB.
  unfold magnitude in *.
  pose proof (sqrt_pos (dot a a)) as Hma. pose proof (sqrt_pos (dot b b)) as Hmb.
  pose proof (sqrt_sqrt _ HA) as Hsa. pose proof (sqrt_sqrt _ HB) as Hsb.
  set (ma := sqrt (dot a a)) in *. set (mb := sqrt (dot b b)) in *.
  assert (Hp : (0 < ma * mb)%R) by (apply Rmult_lt_0_compat; lraR).
  assert (Hsq : (dot a b * dot a b <= (ma * mb) * (ma * mb))%R).
  { replace ((ma * mb) * (ma * mb))%R with ((ma * ma) * (mb * mb))%R by ring.
    rewrite Hsa, Hsb. exact Hcs. }
  assert (Hq : (dot a b / (ma * mb) * (ma * mb) = dot a b)%R)
    by (field; lraR).
  set (q := (dot a b / (ma * mb))%R) in *.
  set (p := (ma * mb)%R) in *. set (s := dot a b) in *.
  assert (Hs : (- p <= s <= p)%R) by (split; nra).
  rewrite <- Hq in Hs. split; nra.
Qed.

Lemma magnitude_of_3_4 (x y : R) :
  (x * x + y * y = 25)%R -> magnitude [x; y] = 5%R.
Proof.
  intros Hsum. unfold magnitude. cbn [dot].
  replace (x * x + (y * y + 0))%R with (5 * 5)%R by lraR.
  apply sqrt_square. lraR.
Qed.

Lemma cosineSimilarity_bounded_witness :
  cosineSimilarity [3; 4]%R [4; 3]%R = Ok (24 / 25)%R
  /\ (-1 <= 24 / 25 <= 1)%R.
Proof.
  assert (H : cosineSimilarity [3; 4]%R [4; 3]%R = Ok (24 / 25)%R).
  { rewrite cosineSimilarity_equal_length by reflexivity.
    rewrite (magnitude_of_3_4 3 4), (magnitude_of_3_4 4 3) by lraR.
    destruct (Req_EM_T 5 0) as [Hzero | _]; [exfalso; lraR |].
    cbn [dot]. f_equal. field. }
  split; [exact H | exact (cosineSimilarity_bounded _ _ _ H)].
Defined.

Lemma dot_scale_l (k : R) (a b : list R) :
  dot (map (Rmult k) a) b = (k * dot a b)%R.
Proof.
  revert b. induction a as [| x a' IH]; intros [| y b']; simpl;
    try (ring_simplify; reflexivity).
  rewrite IH. ring.
Qed.

Lemma magnitude_scale (k : R) (a : list R) :
  (0 <= k)%R -> magnitude (map (Rmult k) a) = (k * magnitude a)%R.
Proof.
  intros Hk. unfold magnitude.
  rewrite dot_scale_l, (dot_comm a), dot_scale_l.
  replace (k * (k * dot a a))%R with ((k * k) * dot a a)%R by ring.
  rewrite sqrt_mult by (try apply dot_self_nonneg; nra).
  rewrite sqrt_square by exact Hk. reflexivity.
Qed.

(** X4: the similarity does not depend on the length of a vector: scaling the
    first vector by a positive factor leaves the result unchanged, the
    dimension error and the zero case included. *)
Theorem cosineSimilarity_scale_invariant (k : R) (a b : list R) :
  (0 < k)%R ->
  cosineSimilarity (map (Rmult k) a) b = cosineSimilarity a b.
Proof.
  intros Hk.
  destruct (Nat.eq_dec (List.length a) (List.length b)) as [Hlen | Hlen].
  - rewrite (cosineSimilarity_equal_length a b Hlen).
    rewrite cosineSimilarity_equal_length
      by (rewrite length_map; exact Hlen).
    rewrite magnitude_scale by lraR. rewrite dot_scale_l.
    destruct (Req_EM_T (k * magnitude a) 0) as [Hka | Hka];
      destruct (Req_EM_T (magnitude a) 0) as [Ha | Ha]; try reflexivity.
    + exfalso. nra.
    + exfalso. rewrite Ha in Hka. apply Hka. ring.
    + destruct (Req_EM_T (magnitude b) 0) as [Hb | Hb]; [reflexivity |].
      f_equal. field. repeat split; lraR.
  - unfold cosineSimilarity. rewrite length_map.
    destruct (Nat.eqb_spec (List.length a) (List.length b)) as [Heq | _];
      [contradiction | reflexivity].
Qed.

Lemma cosineSimilarity_scale_invariant_witness :
  cosineSimilarity (map (Rmult 2) [1; 0]%R) [1; 1]%R
  = cosineSimilarity [1; 0]%R [1; 1]%R.
Proof.
  apply (cosineSimilarity_scale_invariant 2 [1; 0]%R [1; 1]%R). lraR.
Defined.


Lemma batch_from_ok (q : list R) (l : list (list R)) (idx : nat) :
  Forall (fun vec => List.length vec = List.length q) l ->
  exists out,
    batch_from q idx l = Ok out
    /\ List.length out = List.length l
    /\ forall i vec, nth_error l i = Some vec ->
         exists s, cosineSimilarity q vec = Ok s
           /\ nth_error out i
              = Some {| bs_index := idx + i; bs_similarity := s |}.
Proof.
  intros Hall. revert idx.
  induction Hall as [| vec rest Hvec _ IH]; intros idx.
  - exists []. split; [reflexivity |]. split; [reflexivity |].
    intros [| i] vec Hnth; discriminate Hnth.
  - destruct (IH (S idx)) as (tail & Htail & Hlen & Hnth).
    assert (Hcos : exists s, cosineSimilarity q vec = Ok s).
    { rewrite (cosineSimilarity_equal_length q vec (eq_sym Hvec)).
      destruct (Req_EM_T (magnitude q) 0); [eauto |].
      destruct (Req_EM_T (magnitude vec) 0); eauto. }
    destruct Hcos as [s Hs].
    exists ({| bs_index := idx; bs_similarity := s |} :: tail).
    cbn [batch_from]. rewrite Hs. cbn [rbind]. rewrite Htail. cbn [rbind].
    split; [reflexivity |]. split; [cbn [List.length]; congruence |].
    intros [| i] vec' Hvec'; cbn [nth_error] in *.
    + injection Hvec' as <-. exists s. rewrite Nat.add_0_r. auto.
    + destruct (Hnth i vec' Hvec') as (s' & Hs' & Hout).
      exists s'. split; [exact Hs' |].
      rewrite Hout. do 2 f_equal. lia.
Qed.

Lemma batch_from_throws (q : list R) (l : list (list R)) (idx : nat) :
  Exists (fun vec => List.length vec <> List.length q) l ->
  batch_from q idx l = Throw DimensionMismatch.
Proof.
  intros Hex. revert idx. induction l as [| vec rest IH]; intros idx.
  - inversion Hex.
  - cbn [batch_from].
    destruct (Nat.eq_dec (List.length vec) (List.length q)) as [Heq | Hne].
    + inversion Hex as [? ? Hbad | ? ? Hrest]; subst; [contradiction |].
      rewrite (IH Hrest).
      rewrite (cosineSimilarity_equal_length q vec (eq_sym Heq)).
      destruct (Req_EM_T (magnitude q) 0); [reflexivity |].
      destruct (Req_EM_T (magnitude vec) 0); reflexivity.
    + unfold cosineSimilarity.
      destruct (Nat.eqb_spec (List.length q) (List.length vec)) as [Heq | _];
        [symmetry in Heq; contradiction | reflexivity].
Qed.

(** X5: [batchSimilarity] answers one entry per vector of the list, in the
    order of the list, the entry at position [i] holding [i] and the
    similarity of the query with the [i]-th vector; when some vector of the
    list has another dimension than the query, the whole call throws the
    dimension error and no partial result is returned. *)
Theorem batchSimilarity_spec (queryVector : list R) (vectorList : list (list R)) :
  (Forall (fun vec => List.length vec = List.length queryVector) vectorList ->
   exists out,
     batchSimilarity queryVector vectorList = Ok out
     /\ List.length out = List.length vectorList
     /\ forall i vec, nth_error vectorList i = Some vec ->
          exists s, cosineSimilarity queryVector vec = Ok s
            /\ nth_error out i = Some {| bs_index := i; bs_similarity := s |})
  /\ (Exists (fun vec => List.length vec <> List.length queryVector) vectorList ->
      batchSimilarity queryVector vectorList = Throw DimensionMismatch).
Proof.
  split.
  - intros Hall. exact (batch_from_ok queryVector vectorList 0 Hall).
  - apply batch_from_throws.
Qed.

Lemma batchSimilarity_spec_witness :
  (exists out,
     batchSimilarity [1; 0]%R [[1; 0]; [0; 1]]%R = Ok out
     /\ List.length out = 2)
  /\ batchSimilarity [1; 0]%R [[1; 0]; [1]]%R = Throw DimensionMismatch.
Proof.
  split.
  - destruct (proj1 (batchSimilarity_spec [1; 0]%R [[1; 0]; [0; 1]]%R))
      as (out & Hout & Hlen & _).
    + repeat constructor.
    + exists out. split; [exact Hout | exact Hlen].
  - apply (proj2 (batchSimilarity_spec [1; 0]%R [[1; 0]; [1]]%R)).
    apply Exists_cons_tl. apply Exists_cons_hd. simpl. lia.
Defined.

(** X6: [distanceToSimilarity] is [1 - distance] cut off at 0: it is never
    negative, it is 0 exactly for the distances from 1 on, it does not
    increase when the distance grows, and its second argument has no effect
    on the result. *)
Theorem distanceToSimilarity_clamped (distance maxDistance : R) :
  (0 <= distanceToSimilarity distance maxDistance)%R
  /\ (distanceToSimilarity distance maxDistance = 0%R <-> (1 <= distance)%R)
  /\ (forall further : R, (distance <= further)%R ->
        (distanceToSimilarity further maxDistance
         <= distanceToSimilarity distance maxDistance)%R)
  /\ (forall other : R,
        distanceToSimilarity distance other
        = distanceToSimilarity distance maxDistance).
Proof.
  unfold distanceToSimilarity. repeat split.
  - apply Rmax_l.
  - intros Hzero. pose proof (Rmax_r 0 (1 - distance)) as Hr. lraR.
  - intros Hfar. apply Rmax_left. lraR.
  - intros further Hle. apply Rle_max_compat_l. lraR.
Qed.


(** ** embedding.js *)

Lemma generateMockEmbedding_length (text : list Z) (dimensions : nat) :
  List.length (generateMockEmbedding text dimensions) = dimensions.
Proof.
  unfold generateMockEmbedding. rewrite List.length_map. apply List.length_seq.
Qed.

Lemma generateMockEmbedding_unit_interval (text : list Z) (dimensions : nat) :
  Forall (fun v => (0 <= v <= 1)%R) (generateMockEmbedding text dimensions).
Proof.
  unfold generateMockEmbedding. apply List.Forall_forall. intros v Hin.
  apply List.in_map_iff in Hin. destruct Hin as [i [<- _]].
  pose proof (SIN_bound (js_rem (IZR (text_hash text) + INR i * 12345) (2 * PI))).
  lraR.
Qed.

(** X7: [generateEmbedding] answers the data of the real model only when it
    is asked for with [useReal], the model was loaded and the call of the
    model on this text succeeded; in every other case (no [useReal], a failed
    initialisation, a failing call) it answers the mock embedding of the text,
    which has [getEmbeddingDimensions()] components, all between 0 and 1. *)
Theorem generateEmbedding_falls_back (loaded : result EmbeddingModel)
    (text : list Z) (useReal : bool) :
  let embedding := generateEmbedding (initializeRealEmbeddings loaded) text useReal in
  (exists model, useReal = true /\ loaded = Ok model /\ model text = Ok embedding)
  \/ ((useReal = false
       \/ (exists error, loaded = Throw error)
       \/ (exists model error, loaded = Ok model /\ model text = Throw error))
      /\ embedding = generateMockEmbedding text 384
      /\ List.length embedding = getEmbeddingDimensions
      /\ Forall (fun v => (0 <= v <= 1)%R) embedding).
Proof.
  cbv zeta. unfold generateEmbedding, generateRealEmbedding.
  destruct useReal; cbn [andb].
  - destruct loaded as [model | error]; cbn [initializeRealEmbeddings].
    + rewrite bool_decide_eq_true_2 by eauto.
      destruct (model text) as [data | error] eqn:Hcall.
      * left. exists model. auto.
      * right. split; [right; right; eauto |].
        split; [reflexivity |]. split.
        -- apply generateMockEmbedding_length.
        -- apply generateMockEmbedding_unit_interval.
    + rewrite bool_decide_eq_false_2 by (intros [? H]; discriminate H).
      right. split; [right; left; eauto |].
      split; [reflexivity |]. split.
      * apply generateMockEmbedding_length.
      * apply generateMockEmbedding_unit_interval.
  - right. split; [left; reflexivity |].
    split; [reflexivity |]. split.
    + apply generateMockEmbedding_length.
    + apply generateMockEmbedding_unit_interval.
Qed.


(** ** hybrid.js: the cleaner *)

Lemma collapse_spaces_chars (in_run : bool) (s : string) :
  all_chars (fun c => negb (is_space c) || Ascii.eqb c " ")
            (collapse_spaces in_run s) = true.
Proof.
  revert in_run. induction s as [| c rest IH]; intros in_run; [reflexivity |].
  cbn [collapse_spaces]. destruct (is_space c) eqn:Hc.
  - destruct in_run; [apply IH |].
    cbn [all_chars]. rewrite IH. reflexivity.
  - cbn [all_chars]. rewrite Hc, IH. reflexivity.
Qed.

Lemma strip_noise_chars (s : string) :
  all_chars (fun c => negb (is_space c) || Ascii.eqb c " ") s = true ->
  all_chars clean_char (strip_noise s) = true.
Proof.
  induction s as [| c rest IH]; [reflexivity |].
  cbn [all_chars strip_noise]. intros Hs.
  apply andb_prop in Hs. destruct Hs as [Hc Hrest].
  destruct (is_noise c) eqn:Hnoise; [exact (IH Hrest) |].
  cbn [all_chars]. rewrite (IH Hrest), andb_true_r.
  unfold is_noise in Hnoise. apply negb_false_iff in Hnoise.
  unfold clean_char.
  destruct (is_word c); [reflexivity |].
  destruct (is_space c); cbn [negb orb] in *; [rewrite Hc; reflexivity |].
  destruct (Ascii.eqb c " "); [reflexivity | exact Hnoise].
Qed.

Lemma trim_start_chars (p : ascii -> bool) (s : string) :
  all_chars p s = true -> all_chars p (trim_start s) = true.
Proof.
  induction s as [| c rest IH]; [reflexivity |].
  intros Hs. cbn [trim_start]. destruct (is_space c); [| exact Hs].
  cbn [all_chars] in Hs. apply andb_prop in Hs. apply IH, Hs.
Qed.

Lemma trim_end_chars (p : ascii -> bool) (s : string) :
  all_chars p s = true -> all_chars p (trim_end s) = true.
Proof.
  induction s as [| c rest IH]; [reflexivity |].
  cbn [all_chars trim_end]. intros Hs.
  apply andb_prop in Hs. destruct Hs as [Hc Hrest]. specialize (IH Hrest).
  destruct (trim_end rest) as [| d kept].
  - destruct (is_space c); [reflexivity |].
    cbn [all_chars]. rewrite Hc. reflexivity.
  - cbn [all_chars] in *. rewrite Hc. exact IH.
Qed.

Lemma trim_end_idempotent (s : string) : trim_end (trim_end s) = trim_end s.
Proof.
  induction s as [| c rest IH]; [reflexivity |].
  cbn [trim_end]. destruct (trim_end rest) as [| d kept] eqn:Hrest.
  - destruct (is_space c) eqn:Hc; [reflexivity |].
    cbn [trim_end]. rewrite Hc. reflexivity.
  - cbn [trim_end] in *. rewrite IH. reflexivity.
Qed.

Lemma trim_start_head (s : string) :
  trim_start s = EmptyString
  \/ exists c rest, trim_start s = String c rest /\ is_space c = false.
Proof.
  induction s as [| c rest IH]; [left; reflexivity |].
  cbn [trim_start]. destruct (is_space c) eqn:Hc; [exact IH |].
  right. eauto.
Qed.

Lemma trim_idempotent (s : string) : trim (trim s) = trim s.
Proof.
  unfold trim.
  assert (Hstart : trim_start (trim_end (trim_start s)) = trim_end (trim_start s)).
  { destruct (trim_start_head s) as [-> | (c & rest & -> & Hc)]; [reflexivity |].
    cbn [trim_end]. destruct (trim_end rest); rewrite ?Hc;
      cbn [trim_start]; rewrite Hc; reflexivity. }
  rewrite Hstart. apply trim_end_idempotent.
Qed.

(** The value [cleanData] returns past its two guards. *)
Lemma cleanData_text_branch (data cleaned : gmap string JsVal) :
  truthy (opt_length data.["nodes"] ||| opt_length data.["edges"]) = false ->
  cleanData data = Ok (Some cleaned) ->
  exists raw : string,
    data.["text"] ||| data.["content"] ||| data.["title"]
      ||| data.["description"] ||| JStr "" = JStr raw
    /\ (10 <= String.length (trim (strip_noise (collapse_spaces false raw))))
    /\ cleaned
       = <["text" := JStr (trim (strip_noise (collapse_spaces false raw)))]> data.
Proof.
  intros Hrel Hclean. unfold cleanData in Hclean. rewrite Hrel in Hclean.
  set (chain := data.["text"] ||| data.["content"] ||| data.["title"]
                ||| data.["description"] ||| JStr "") in *.
  assert (Hbody :
    match chain with
    | JStr raw =>
        if (String.length (trim (strip_noise (collapse_spaces false raw))) <? 10)%nat
        then Ok None
        else Ok (Some (<["text" := JStr (trim (strip_noise (collapse_spaces false raw)))]>
                         data))
    | _ => Throw (TypeError "replace is not a function")
    end = Ok (Some cleaned)).
  { destruct (opt_trim data.["text"]) as [t | ?]; cbn [rbind] in Hclean;
      [| discriminate Hclean].
    destruct (truthy t); [exact Hclean |].
    destruct (opt_trim data.["content"]) as [c | ?]; cbn [rbind] in Hclean;
      [| discriminate Hclean].
    destruct (truthy c); [exact Hclean |].
    destruct (opt_trim data.["title"]) as [ti | ?]; cbn [rbind] in Hclean;
      [| discriminate Hclean].
    destruct (truthy ti); [exact Hclean | discriminate Hclean]. }
  clear Hclean. destruct chain as [| | | | raw | |]; try discriminate Hbody.
  exists raw. split; [reflexivity |].
  destruct (Nat.ltb_spec (String.length (trim (strip_noise (collapse_spaces false raw)))) 10)
    as [Hshort | Hlong]; [discriminate Hbody |].
  split; [exact Hlong |]. injection Hbody as <-. reflexivity.
Qed.

(** X8: when [cleanData] cleans a payload (one without nodes and edges), the
    result is the payload with its [text] replaced by a string of at least 10
    characters that holds only word characters, plain spaces and the marks
    [. , ! ?], and that neither starts nor ends with white space. *)
Theorem cleanData_cleaned_text (data cleaned : gmap string JsVal) :
  truthy (opt_length data.["nodes"] ||| opt_length data.["edges"]) = false ->
  cleanData data = Ok (Some cleaned) ->
  exists cleanText : string,
    cleaned = <["text" := JStr cleanText]> data
    /\ 10 <= String.length cleanText
    /\ all_chars clean_char cleanText = true
    /\ trim cleanText = cleanText.
Proof.
  intros Hrel Hclean.
  destruct (cleanData_text_branch data cleaned Hrel Hclean)
    as (raw & _ & Hlen & ->).
  exists (trim (strip_noise (collapse_spaces false raw))).
  split; [reflexivity |]. split; [exact Hlen |]. split.
  - unfold trim. apply trim_end_chars, trim_start_chars, strip_noise_chars.
    apply collapse_spaces_chars.
  - apply trim_idempotent.
Qed.

Lemma cleanData_cleaned_text_witness :
  exists cleanText : string,
    <["text" := JStr "a sufficiently long description text"]> content_only_payload
    = <["text" := JStr cleanText]> content_only_payload
    /\ 10 <= String.length cleanText
    /\ all_chars clean_char cleanText = true
    /\ trim cleanText = cleanText.
Proof.
  apply (cleanData_cleaned_text content_only_payload); reflexivity.
Defined.


(** ** hybrid.js: what the handlers can answer *)

Lemma returns_only_bind {R S : Type} (P : S -> Prop) (p : Prog R) (f : R -> Prog S) :
  (forall r : R, returns_only P (f r)) -> returns_only P (bind p f).
Proof.
  intros Hf. induction p as [r | e | A call k IH]; cbn [bind].
  - apply Hf.
  - constructor.
  - constructor. intros reply. apply IH.
Qed.

Lemma returns_only_try_catch {R : Type} (P : R -> Prop) (p : Prog R)
    (h : Exn -> Prog R) :
  returns_only P p -> (forall e : Exn, returns_only P (h e)) ->
  returns_only P (try_catch p h).
Proof.
  intros Hp Hh. induction Hp as [r Hr | e | A call k _ IH]; cbn [try_catch].
  - constructor. exact Hr.
  - apply Hh.
  - constructor. exact IH.
Qed.

Lemma returns_only_outcome {R : Type} (P : R -> Prop) (p : Prog R) (env : Env) (r : R) :
  returns_only P p -> outcome env p = Ok r -> P r.
Proof.
  unfold outcome. intros Hp. induction Hp as [r' Hr | e | A call k _ IH];
    cbn [run].
  - intros [= <-]. exact Hr.
  - intros [=].
  - specialize (IH (env _ call)).
    destruct (run env (k (env _ call))) as [trace out]. exact IH.
Qed.

Lemma decideRoute_cleaned (data cleaned : gmap string JsVal) :
  cleanData data = Ok (Some cleaned) ->
  (truthy (opt_length data.["nodes"] ||| opt_length data.["edges"]) = true
   /\ cleaned = data
   /\ (decideRoute cleaned = BOTH \/ decideRoute cleaned = GRAPH_ONLY))
  \/ (truthy (opt_length data.["nodes"] ||| opt_length data.["edges"]) = false
      /\ (decideRoute cleaned = BOTH \/ decideRoute cleaned = VECTOR_ONLY)).
Proof.
  intros Hclean.
  destruct (truthy (opt_length data.["nodes"] ||| opt_length data.["edges"]))
    eqn:Hrel.
  - left. split; [reflexivity |].
    assert (cleaned = data) as ->.
    { unfold cleanData in Hclean. rewrite Hrel in Hclean. congruence. }
    split; [reflexivity |].
    unfold decideRoute. rewrite !truthy_js_or in *. rewrite Hrel. cbn [orb].
    destruct (truthy data.["text"] || truthy data.["content"]
              || truthy data.["title"] || truthy data.["description"]); auto.
  - right. split; [reflexivity |].
    destruct (cleanData_text_branch data cleaned Hrel Hclean)
      as (raw & _ & Hlen & ->).
    unfold decideRoute. rewrite !truthy_js_or, field_insert_eq.
    assert (Htext : truthy (JStr (trim (strip_noise (collapse_spaces false raw))))
                    = true).
    { destruct (trim (strip_noise (collapse_spaces false raw)));
        [cbn in Hlen; lia | reflexivity]. }
    rewrite Htext. cbn [orb andb].
    match goal with |- context [if ?b then BOTH else _] => destruct b end; auto.
Qed.

(** X9: a payload that passes [cleanData] is never classified METADATA_ONLY:
    one with nodes or edges goes to BOTH or GRAPH_ONLY, a cleaned text goes to
    BOTH or VECTOR_ONLY.  So no answer of POST /ingest reports the route
    METADATA_ONLY, whatever the stores do. *)
Theorem ingest_never_metadata_only (data : gmap string JsVal) :
  (forall cleaned : gmap string JsVal,
     cleanData data = Ok (Some cleaned) -> decideRoute cleaned <> METADATA_ONLY)
  /\ (forall (env : Env) (body : Ingested),
        outcome env (post_ingest data) = Ok (Json body) ->
        routed_to body <> METADATA_ONLY).
Proof.
  assert (Hpure : forall cleaned, cleanData data = Ok (Some cleaned) ->
                                  decideRoute cleaned <> METADATA_ONLY).
  { intros cleaned Hclean.
    destruct (decideRoute_cleaned data cleaned Hclean)
      as [(_ & _ & [-> | ->]) | (_ & [-> | ->])]; discriminate. }
  split; [exact Hpure |].
  intros env body Hout.
  refine (returns_only_outcome
            (fun resp => forall b, resp = Json b -> routed_to b <> METADATA_ONLY)
            (post_ingest data) env (Json body) _ Hout body eq_refl).
  unfold post_ingest, handler.
  apply returns_only_try_catch;
    [| intros e; constructor; intros b Hb; discriminate Hb].
  destruct (cleanData data) as [[cleaned |] | e] eqn:Hclean; cbn [lift bind].
  - repeat (apply returns_only_bind; intros ?).
    constructor. intros b [= <-]. cbn [routed_to]. apply Hpure. reflexivity.
  - constructor. intros b Hb. discriminate Hb.
  - constructor.
Qed.

Lemma ingest_never_metadata_only_witness :
  decideRoute (<["text" := JStr "a sufficiently long description text"]>
                 content_only_payload) <> METADATA_ONLY.
Proof.
  apply (proj1 (ingest_never_metadata_only content_only_payload)). reflexivity.
Defined.

(** ** hybrid.js: node validation and POST /nodes *)

Lemma missing_fields_none (data : gmap string JsVal) (required : list string) :
  (0 <? List.length (List.filter (fun f => js_not data.[f]) required)) = false
  <-> Forall (fun f => truthy data.[f] = true) required.
Proof.
  induction required as [| f rest IH].
  - split; [constructor | reflexivity].
  - cbn [List.filter]. unfold js_not at 1.
    destruct (truthy data.[f]) eqn:Hf; cbn [negb].
    + rewrite IH. split.
      * intros Hrest. constructor; [exact Hf | exact Hrest].
      * intros Hall. inversion Hall. assumption.
    + split; [discriminate |].
      intros Hall. inversion Hall. congruence.
Qed.

Lemma validateNodeSchema_ok (data : gmap string JsVal) (b : bool) :
  validateNodeSchema data = Ok b ->
  b = true /\ truthy data.["id"] = true /\ truthy data.["text"] = true.
Proof.
  unfold validateNodeSchema.
  destruct (0 <? List.length (List.filter (fun f => js_not data.[f]) node_required))
    eqn:Hmissing; [discriminate |].
  apply missing_fields_none in Hmissing.
  inversion Hmissing as [| ? ? Hid Hrest]; subst.
  inversion Hrest as [| ? ? Htext _]; subst.
  destruct (truthy (opt_member data.["metadata"] "type")
            && negb (includes node_validTypes (opt_member data.["metadata"] "type")));
    [discriminate |].
  intros [= <-]. auto.
Qed.

Lemma post_nodes_invalid (env : Env) (data : gmap string JsVal) (e : Exn) :
  validateNodeSchema data = Throw e ->
  run env (post_nodes data) = ([], Ok (Status500 e)).
Proof.
  intros Hinvalid. unfold post_nodes. rewrite run_handler, run_bind, run_lift.
  rewrite Hinvalid. reflexivity.
Qed.

(** X10: [validateNodeSchema] accepts a body exactly when its [id] and [text]
    are truthy and its [metadata.type], if truthy, is one of the seven valid
    types.  A falsy [id] or [text] is reported as missing fields, before the
    type is looked at.  When the validator throws, POST /nodes answers 500
    with that error and calls no store. *)
Theorem validateNodeSchema_accepts_iff (data : gmap string JsVal) :
  let type := opt_member data.["metadata"] "type" in
  (validateNodeSchema data = Ok true
   <-> truthy data.["id"] = true
       /\ truthy data.["text"] = true
       /\ (truthy type = true -> includes node_validTypes type = true))
  /\ (truthy data.["id"] = false \/ truthy data.["text"] = false ->
      exists names : list string,
        names <> [] /\ incl names node_required
        /\ validateNodeSchema data = Throw (MissingFields names))
  /\ (forall e : Exn,
        validateNodeSchema data = Throw e ->
        forall env : Env, run env (post_nodes data) = ([], Ok (Status500 e))).
Proof.
  cbv zeta. split; [| split].
  - split.
    + intros Hok. destruct (validateNodeSchema_ok data true Hok) as (_ & Hid & Htext).
      split; [exact Hid |]. split; [exact Htext |].
      intros Htype. unfold validateNodeSchema in Hok.
      destruct (0 <? List.length (List.filter (fun f => js_not data.[f]) node_required));
        [discriminate |].
      rewrite Htype in Hok. cbn [andb] in Hok.
      destruct (includes node_validTypes (opt_member data.["metadata"] "type"));
        [reflexivity | discriminate].
    + intros (Hid & Htext & Htype). unfold validateNodeSchema.
      assert (Hnone : (0 <? List.length
                         (List.filter (fun f => js_not data.[f]) node_required))
                      = false).
      { apply missing_fields_none. repeat constructor; assumption. }
      rewrite Hnone.
      destruct (truthy (opt_member data.["metadata"] "type")); [| reflexivity].
      rewrite Htype by reflexivity. reflexivity.
  - intros Hfalsy.
    exists (List.filter (fun f => js_not data.[f]) node_required).
    assert (Hsome : (0 <? List.length
                       (List.filter (fun f => js_not data.[f]) node_required))
                    = true).
    { destruct (0 <? List.length
                  (List.filter (fun f => js_not data.[f]) node_required)) eqn:Hm;
        [reflexivity |].
      apply missing_fields_none in Hm.
      inversion Hm as [| ? ? Hid Hrest]; subst.
      inversion Hrest as [| ? ? Htext _]; subst.
      destruct Hfalsy; congruence. }
    split; [| split].
    + intros Hnil. rewrite Hnil in Hsome. discriminate Hsome.
    + intros f Hin. apply List.filter_In in Hin. apply Hin.
    + unfold validateNodeSchema. rewrite Hsome. reflexivity.
  - intros e Hinvalid env. apply post_nodes_invalid. exact Hinvalid.
Qed.

Lemma validateNodeSchema_accepts_iff_witness :
  exists names : list string,
    names <> [] /\ incl names node_required
    /\ validateNodeSchema (<["id" := JStr "n1"]> ∅) = Throw (MissingFields names).
Proof.
  apply (proj1 (proj2 (validateNodeSchema_accepts_iff (<["id" := JStr "n1"]> ∅)))).
  right. reflexivity.
Defined.


Lemma validateEdgeSchema_ok (S2N : JsVal -> option Q) (data : gmap string JsVal)
    (b : bool) :
  validateEdgeSchema S2N data = Ok b ->
  truthy data.["source"] = true /\ truthy data.["target"] = true
  /\ truthy data.["type"] = true.
Proof.
  unfold validateEdgeSchema.
  destruct (0 <? List.length (List.filter (fun f => js_not data.[f]) edge_required))
    eqn:Hmissing; [discriminate |].
  apply missing_fields_none in Hmissing.
  inversion Hmissing as [| ? ? Hsource Hrest]; subst.
  inversion Hrest as [| ? ? Htarget Hrest']; subst.
  inversion Hrest' as [| ? ? Htype _]; subst.
  auto.
Qed.

(** X11: POST /nodes and POST /edges never answer 400.  The guard that would
    send it comes after the validator, which has already thrown for every
    body the guard tests for, so such a body is answered 500. *)
Theorem create_handlers_never_answer_400 :
  (forall (env : Env) (body : gmap string JsVal) (message : string),
     outcome env (post_nodes body) <> Ok (Status400 message))
  /\ (forall (S2N : JsVal -> option Q) (env : Env) (body : gmap string JsVal)
             (message : string),
        outcome env (post_edges S2N body) <> Ok (Status400 message)).
Proof.
  split.
  - intros env body message Hout.
    refine (returns_only_outcome
              (fun resp => forall m, resp <> Status400 m)
              (post_nodes body) env _ _ Hout message eq_refl).
    unfold post_nodes, handler.
    apply returns_only_try_catch; [| intros e; constructor; discriminate].
    destruct (validateNodeSchema body) as [b | e] eqn:Hvalid; cbn [lift bind];
      [| constructor].
    destruct (validateNodeSchema_ok body b Hvalid) as (_ & Hid & Htext).
    unfold js_not. rewrite Hid, Htext. cbn [negb orb].
    repeat (apply returns_only_bind; intros ?).
    constructor. discriminate.
  - intros S2N env body message Hout.
    refine (returns_only_outcome
              (fun resp => forall m, resp <> Status400 m)
              (post_edges S2N body) env _ _ Hout message eq_refl).
    unfold post_edges, handler.
    apply returns_only_try_catch; [| intros e; constructor; discriminate].
    destruct (validateEdgeSchema S2N body) as [b | e] eqn:Hvalid; cbn [lift bind];
      [| constructor].
    destruct (validateEdgeSchema_ok S2N body b Hvalid) as (Hs & Ht & Hty).
    unfold js_not. rewrite Hs, Ht, Hty. cbn [negb orb].
    repeat (apply returns_only_bind; intros ?).
    constructor. discriminate.
Qed.

(** ** hybrid.js: graph boosts *)

Lemma boosts_fold_lookup (graphMatches : list GraphMatch) (graph_weight : Q)
    (acc : gmap string Q) (d : string) :
  d <> "__proto__" ->
  fold_left (fun graphScoreBoost m =>
               assign graphScoreBoost (match_docId m)
                      (match_score m * graph_weight)%Q)
            graphMatches acc !! d
  = match last_match d graphMatches with
    | Some m => Some (match_score m * graph_weight)%Q
    | None => acc !! d
    end.
Proof.
  intros Hd. revert acc.
  induction graphMatches as [| m rest IH]; intros acc; [reflexivity |].
  cbn [fold_left last_match]. rewrite IH.
  destruct (last_match d rest); [reflexivity |].
  unfold assign.
  destruct (String.eqb_spec (match_docId m) d) as [Heq | Hne].
  - subst d. apply String.eqb_neq in Hd. rewrite Hd. apply lookup_insert_eq.
  - destruct (String.eqb (match_docId m) "__proto__"); [reflexivity |].
    apply lookup_insert_ne. exact Hne.
Qed.

Lemma boosts_fold_proto (graphMatches : list GraphMatch) (graph_weight : Q)
    (acc : gmap string Q) :
  fold_left (fun graphScoreBoost m =>
               assign graphScoreBoost (match_docId m)
                      (match_score m * graph_weight)%Q)
            graphMatches acc !! "__proto__"
  = acc !! "__proto__".
Proof.
  revert acc. induction graphMatches as [| m rest IH]; intros acc; [reflexivity |].
  cbn [fold_left]. rewrite IH. unfold assign.
  destruct (String.eqb_spec (match_docId m) "__proto__") as [Heq | Hne];
    [reflexivity |].
  apply lookup_insert_ne. exact Hne.
Qed.

Lemma boosts_fold_size (graphMatches : list GraphMatch) (graph_weight : Q)
    (acc : gmap string Q) :
  size (fold_left (fun graphScoreBoost m =>
                     assign graphScoreBoost (match_docId m)
                            (match_score m * graph_weight)%Q)
                  graphMatches acc)
  <= size acc + List.length graphMatches.
Proof.
  revert acc. induction graphMatches as [| m rest IH]; intros acc;
    cbn [fold_left List.length]; [lia |].
  etransitivity; [apply IH |]. unfold assign.
  destruct (String.eqb (match_docId m) "__proto__"); [lia |].
  rewrite map_size_insert. destruct (acc !! match_docId m); cbn; lia.
Qed.

(** X12: the boost table built from the graph matches holds, for a document
    id other than "__proto__", the score of the last match that names it
    times the graph weight, and nothing for an id no match names; a match
    whose docId is "__proto__" leaves no entry, since that assignment creates
    no property.  The table has at most as many entries as there are
    matches. *)
Theorem boosts_of_lookup (graphMatches : list GraphMatch) (graph_weight : Q)
    (d : string) :
  boosts_of graphMatches graph_weight !! d
  = (if String.eqb d "__proto__" then None
     else (fun m => (match_score m * graph_weight)%Q) <$> last_match d graphMatches)
  /\ (boosts_of graphMatches graph_weight !! d = None
      <-> d = "__proto__" \/ Forall (fun m => match_docId m <> d) graphMatches)
  /\ size (boosts_of graphMatches graph_weight) <= List.length graphMatches.
Proof.
  assert (Hlookup : boosts_of graphMatches graph_weight !! d
                    = (if String.eqb d "__proto__" then None
                       else (fun m => (match_score m * graph_weight)%Q)
                              <$> last_match d graphMatches)).
  { unfold boosts_of.
    destruct (String.eqb_spec d "__proto__") as [-> | Hd].
    - rewrite boosts_fold_proto. apply lookup_empty.
    - rewrite boosts_fold_lookup by exact Hd.
      destruct (last_match d graphMatches); reflexivity. }
  split; [exact Hlookup |]. split.
  - rewrite Hlookup. clear Hlookup.
    destruct (String.eqb_spec d "__proto__") as [-> | Hd].
    { split; [intros _; left; reflexivity | reflexivity]. }
    assert (Hnone : (fun m => (match_score m * graph_weight)%Q)
                      <$> last_match d graphMatches = None
                    <-> Forall (fun m => match_docId m <> d) graphMatches).
    { induction graphMatches as [| m rest IH]; cbn [last_match].
      - split; [constructor | reflexivity].
      - destruct (last_match d rest) as [later |];
          cbn [fmap option_fmap option_map] in *.
        + split; [discriminate |].
          intros Hall. inversion Hall as [| ? ? _ Hrest]; subst.
          apply IH in Hrest. discriminate Hrest.
        + destruct (String.eqb_spec (match_docId m) d) as [Heq | Hne];
            cbn [fmap option_fmap option_map].
          * split; [discriminate |].
            intros Hall. inversion Hall; subst. contradiction.
          * split; [| reflexivity].
            intros _. constructor; [exact Hne | apply IH; reflexivity]. }
    rewrite Hnone. split; [intros H; right; exact H |].
    intros [Heq | H]; [contradiction | exact H].
  - unfold boosts_of.
    pose proof (boosts_fold_size graphMatches graph_weight ∅) as Hsize.
    rewrite map_size_empty in Hsize. exact Hsize.
Qed.

(** ** hybrid.js: fusion when no boost is in force *)

Lemma sort_of_sorted {A : Type} (comparefn : A -> A -> Q) (l : list A) :
  StronglySorted (fun a b => goes_after comparefn a b = false) l ->
  sort comparefn l = l.
Proof.
  induction 1 as [| a rest _ IH Hall]; [reflexivity |].
  cbn [sort fold_right]. fold (sort comparefn rest). rewrite IH.
  destruct rest as [| b rest']; [reflexivity |].
  cbn [sort_insert]. inversion Hall as [| ? ? Hab _]; subst.
  rewrite Hab. reflexivity.
Qed.

Lemma mergeResults_unboosted (vectorResults : list VectorHit)
    (graphBoost : gmap string Q) (vectorWeight : Q) :
  (0 <= vectorWeight)%Q ->
  Forall (fun r => get_property graphBoost (docId r) = NoProperty) vectorResults ->
  StronglySorted (fun a b => (similarity b <= similarity a)%Q) vectorResults ->
  mergeResults Qmult Qplus vectorResults graphBoost vectorWeight
  = map (fun r => {| hit := r;
                     hybrid_score := Num (similarity r * vectorWeight + 0)%Q |})
        vectorResults.
Proof.
  intros Hweight Hnone Hsorted. unfold mergeResults.
  assert (Hscored :
    map (fun r => {| hit := r;
                     hybrid_score := totalScore Qmult Qplus graphBoost vectorWeight r |})
        vectorResults
    = map (fun r => {| hit := r;
                       hybrid_score := Num (similarity r * vectorWeight + 0)%Q |})
          vectorResults).
  { apply List.map_ext_in. intros r Hin.
    rewrite List.Forall_forall in Hnone. unfold totalScore.
    rewrite (Hnone r Hin). reflexivity. }
  cbv zeta. rewrite Hscored. apply sort_of_sorted.
  clear Hnone Hscored.
  induction Hsorted as [| a rest _ IH Hall]; cbn [map]; constructor.
  - exact IH.
  - apply List.Forall_forall. intros s Hin.
    apply List.in_map_iff in Hin. destruct Hin as (b & <- & Hb).
    rewrite List.Forall_forall in Hall. specialize (Hall b Hb).
    unfold goes_after, compare_scores. cbn [hybrid_score].
    apply negb_false_iff. apply Qle_bool_iff. Lqa.nra.
Qed.

(** X13: when no result reads anything from the boost object (its docId is
    neither a property of the object nor the name of an inherited member),
    the vector weight is not negative and the vector results come by
    descending similarity, [mergeResults] keeps them in that order, each with
    the score [similarity * vectorWeight]. *)
Theorem mergeResults_keeps_sorted_input (vectorResults : list VectorHit)
    (graphBoost : gmap string Q) (vectorWeight : Q) :
  (0 <= vectorWeight)%Q ->
  Forall (fun r => get_property graphBoost (docId r) = NoProperty) vectorResults ->
  StronglySorted (fun a b => (similarity b <= similarity a)%Q) vectorResults ->
  map hit (mergeResults Qmult Qplus vectorResults graphBoost vectorWeight)
  = vectorResults
  /\ Forall (fun s => score_is (hybrid_score s) (similarity (hit s) * vectorWeight))
            (mergeResults Qmult Qplus vectorResults graphBoost vectorWeight).
Proof.
  intros Hweight Hnone Hsorted.
  rewrite (mergeResults_unboosted _ _ _ Hweight Hnone Hsorted). split.
  - rewrite List.map_map. cbn [hit]. apply List.map_id.
  - apply List.Forall_forall. intros s Hin.
    apply List.in_map_iff in Hin. destruct Hin as (r & <- & _).
    cbn [hit hybrid_score score_is]. ring.
Qed.

Lemma mergeResults_keeps_sorted_input_witness :
  map hit (mergeResults Qmult Qplus [hit_x; hit_y] ∅ 0.7) = [hit_x; hit_y].
Proof.
  apply (mergeResults_keeps_sorted_input [hit_x; hit_y] ∅ 0.7).
  - vm_compute. discriminate.
  - repeat constructor.
  - repeat constructor; vm_compute; discriminate.
Defined.

(** ** vectordb.js: the result of [VectorDB.search] *)

Lemma map_index_nth_error {A B : Type} (f : A -> nat -> B) (index : nat)
    (l : list A) (n : nat) :
  nth_error (map_index f index l) n
  = option_map (fun x => f x (index + n)) (nth_error l n).
Proof.
  revert index n. induction l as [| x rest IH]; intros index [| n];
    cbn [map_index nth_error option_map]; try reflexivity.
  - rewrite Nat.add_0_r. reflexivity.
  - rewrite IH. replace (S index + n) with (index + S n) by lia. reflexivity.
Qed.

Lemma map_index_map {A B C : Type} (f : A -> nat -> B) (g : B -> C) (h : A -> C)
    (index : nat) (l : list A) :
  (forall x i, g (f x i) = h x) ->
  map g (map_index f index l) = map h l.
Proof.
  intros Hgf. revert index. induction l as [| x rest IH]; intros index;
    cbn [map_index map]; [reflexivity |].
  rewrite Hgf, IH. reflexivity.
Qed.

Lemma StronglySorted_filter {A : Type} (R : A -> A -> Prop) (p : A -> bool)
    (l : list A) :
  StronglySorted R l -> StronglySorted R (List.filter p l).
Proof.
  induction 1 as [| a rest _ IH Hall]; cbn [List.filter]; [constructor |].
  destruct (p a); [| exact IH].
  constructor; [exact IH |].
  apply List.Forall_forall. intros b Hb. apply List.filter_In in Hb.
  rewrite List.Forall_forall in Hall. apply Hall, Hb.
Qed.

Lemma map_index_ranks (index : nat) (rows : list RawRow) :
  Forall (fun h => (Z.of_nat index < rank h)%Z) (map_index format_row index rows)
  /\ StronglySorted (fun a b => (rank a < rank b)%Z) (map_index format_row index rows).
Proof.
  revert index. induction rows as [| row rest IH]; intros index;
    cbn [map_index]; [split; constructor |].
  destruct (IH (S index)) as [Hlow Hsorted]. split.
  - constructor; [cbn [format_row rank]; lia |].
    eapply Forall_impl; [exact Hlow |]. cbn beta. intros h Hh. lia.
  - constructor; [exact Hsorted |].
    eapply Forall_impl; [exact Hlow |]. cbn beta. intros h Hh.
    cbn [format_row rank]. lia.
Qed.

(** X14: when the table answers [VectorDB.search] with rows, the method makes
    that one call and returns the rows in their order without those whose id
    is "init"; [totalResults] is their number; each result carries the id,
    text and distance of its row (0 when the row has none), the similarity
    [1 - distance], and as [rank] the position of the row in the table's
    answer, counted from 1 before the placeholder is removed, so that ranks
    increase but need not be consecutive. *)
Theorem VectorDB_search_results (env : Env) (queryText : string) (topK : Z)
    (rows : list RawRow) :
  env _ (TableSearch queryText topK) = Ok rows ->
  exists found : SearchResults,
    run env (VectorDB_search queryText topK)
    = ([CallOf (TableSearch queryText topK)], Ok found)
    /\ totalResults found = List.length (results found)
    /\ List.length (results found) <= List.length rows
    /\ map docId (results found)
       = List.filter (fun id => negb (String.eqb id "init")) (map row_id rows)
    /\ (forall h : VectorHit,
          In h (results found) ->
          docId h <> "init"
          /\ similarity h = (1 - distance h)%Q
          /\ exists (n : nat) (row : RawRow),
               nth_error rows n = Some row
               /\ rank h = (Z.of_nat n + 1)%Z
               /\ docId h = row_id row
               /\ text h = row_text row
               /\ distance h = num_or (row_distance row) 0
               /\ metadata h = row_metadata row)
    /\ StronglySorted (fun a b => (rank a < rank b)%Z) (results found).
Proof.
  intros Hrows.
  exists {| results := formatted_hits rows;
            totalResults := List.length (formatted_hits rows) |}.
  split; [rewrite run_VectorDB_search, Hrows; reflexivity |].
  cbn [results totalResults].
  split; [reflexivity |]. split; [apply formatted_hits_length |].
  split; [| split].
  - unfold formatted_hits.
    rewrite <- (map_index_map format_row docId row_id 0 rows)
      by reflexivity.
    rewrite filter_map_comm. reflexivity.
  - intros h Hin. unfold formatted_hits in Hin.
    apply List.filter_In in Hin. destruct Hin as [Hin Hkeep].
    apply List.In_nth_error in Hin. destruct Hin as [n Hn].
    rewrite map_index_nth_error in Hn.
    destruct (nth_error rows n) as [row |] eqn:Hrow; [| discriminate Hn].
    cbn [option_map] in Hn. injection Hn as <-. cbn [Nat.add] in *.
    split.
    { apply negb_true_iff in Hkeep. apply String.eqb_neq in Hkeep. exact Hkeep. }
    split; [reflexivity |].
    exists n, row. repeat split. exact Hrow.
  - unfold formatted_hits. apply StronglySorted_filter.
    apply (map_index_ranks 0 rows).
Qed.

Lemma VectorDB_search_results_witness :
  exists found : SearchResults,
    run graph_down_env (VectorDB_search "alpha" 5)
    = ([CallOf (TableSearch "alpha" 5)], Ok found)
    /\ totalResults found = List.length (results found).
Proof.
  destruct (VectorDB_search_results graph_down_env "alpha" 5 [row_alpha; row_beta]
              eq_refl) as (found & Hrun & Htotal & _).
  exists found. split; [exact Hrun | exact Htotal].
Defined.


(** ** hybrid.js: POST /search when no boost is in force *)

Lemma slice_map {A B : Type} (f : A -> B) (l : list A) (start stop : Z) :
  slice (map f l) start stop = map f (slice l start stop).
Proof.
  unfold slice. rewrite List.length_map, List.skipn_map, List.firstn_map.
  reflexivity.
Qed.

Lemma In_skipn_In {A : Type} (n : nat) (l : list A) (x : A) :
  In x (skipn n l) -> In x l.
Proof.
  revert l. induction n as [| n IH]; intros [| y rest] Hin; cbn [skipn] in Hin;
    try exact Hin.
  right. apply IH. exact Hin.
Qed.

Lemma slice_incl {A : Type} (l : list A) (start stop : Z) (x : A) :
  In x (slice l start stop) -> In x l.
Proof.
  unfold slice. intros Hin. apply In_firstn_In in Hin.
  eapply In_skipn_In. exact Hin.
Qed.

Lemma mergeResults_scores (vectorResults : list VectorHit)
    (graphBoost : gmap string Q) (vectorWeight : Q) :
  Forall (fun s => hybrid_score s
                   = totalScore Qmult Qplus graphBoost vectorWeight (hit s))
         (mergeResults Qmult Qplus vectorResults graphBoost vectorWeight).
Proof.
  unfold mergeResults. cbv zeta.
  eapply Permutation_Forall; [symmetry; apply sort_perm |].
  apply List.Forall_forall. intros s Hin.
  apply List.in_map_iff in Hin. destruct Hin as (r & <- & _). reflexivity.
Qed.

Lemma mergeResults_hits (mul add : Q -> Q -> Q) (vectorResults : list VectorHit)
    (graphBoost : gmap string Q) (vectorWeight : Q) :
  Permutation (map hit (mergeResults mul add vectorResults graphBoost vectorWeight))
              vectorResults.
Proof.
  unfold mergeResults. cbv zeta.
  etransitivity; [apply Permutation_map, sort_perm |].
  rewrite List.map_map. cbn [hit]. rewrite List.map_id. reflexivity.
Qed.

Lemma formatted_hits_ids (rows : list RawRow) (h : VectorHit) :
  In h (formatted_hits rows) -> exists row, In row rows /\ docId h = row_id row.
Proof.
  unfold formatted_hits. intros Hin. apply List.filter_In in Hin.
  destruct Hin as [Hin _]. apply List.In_nth_error in Hin. destruct Hin as [n Hn].
  rewrite map_index_nth_error in Hn.
  destruct (nth_error rows n) as [row |] eqn:Hrow; [| discriminate Hn].
  cbn [option_map] in Hn. injection Hn as <-.
  exists row. split; [eapply List.nth_error_In; exact Hrow | reflexivity].
Qed.

Lemma formatted_hits_sorted (rows : list RawRow) :
  StronglySorted (fun a b => (num_or (row_distance a) 0 <= num_or (row_distance b) 0)%Q)
                 rows ->
  StronglySorted (fun a b => (similarity b <= similarity a)%Q) (formatted_hits rows).
Proof.
  intros Hsorted. unfold formatted_hits. apply StronglySorted_filter.
  generalize 0 as index.
  induction Hsorted as [| row rest _ IH Hall]; intros index; cbn [map_index];
    constructor; [apply IH |].
  apply List.Forall_forall. intros h Hin.
  apply List.In_nth_error in Hin. destruct Hin as [n Hn].
  rewrite map_index_nth_error in Hn.
  destruct (nth_error rest n) as [later |] eqn:Hlater; [| discriminate Hn].
  cbn [option_map] in Hn. injection Hn as <-.
  rewrite List.Forall_forall in Hall.
  specialize (Hall later (List.nth_error_In _ _ Hlater)).
  cbn [format_row similarity]. lraQ.
Qed.

Lemma search_boosts_empty (env : Env) (req : SearchRequest) :
  uses_graph req = false
  \/ (exists e : Exn, env _ (GraphKeywordSearch (req_query req)) = Throw e)
  \/ env _ (GraphKeywordSearch (req_query req)) = Ok [] ->
  search_boosts env req = ∅.
Proof.
  unfold search_boosts, graph_matches.
  intros [-> | [[e ->] | ->]]; [reflexivity | |];
    destruct (uses_graph req); reflexivity.
Qed.

(** X15: when no boost is in force (the request type is neither hybrid nor
    graph, or the keyword search on the graph failed, or it matched nothing)
    and no stored id is the name of a member that objects inherit, POST
    /search answers with [graph_boosts] 0 and every result it returns has the
    score [similarity * vector_weight]; when moreover the table's rows come
    by ascending distance and the vector weight is not negative, the page is
    cut out of the vector results in the table's own order.  A request of
    another type than hybrid and graph calls the vector table only. *)
Theorem search_without_boosts (env : Env) (req : SearchRequest) (rows : list RawRow) :
  env _ (TableSearch (req_query req) (search_top_k req)) = Ok rows ->
  uses_graph req = false
  \/ (exists e : Exn, env _ (GraphKeywordSearch (req_query req)) = Throw e)
  \/ env _ (GraphKeywordSearch (req_query req)) = Ok [] ->
  Forall (fun row => inherited (row_id row) = false) rows ->
  exists body : SearchBody,
    outcome env (post_search req) = Ok (Json body)
    /\ graph_boosts body = 0
    /\ Forall (fun s => score_is (hybrid_score s)
                                 (similarity (hit s) * res_vector_weight body))
              (res_results body)
    /\ (uses_graph req = false ->
        calls env (post_search req)
        = [CallOf (TableSearch (req_query req) (search_top_k req))])
    /\ ((0 <= res_vector_weight body)%Q ->
        StronglySorted
          (fun a b => (num_or (row_distance a) 0 <= num_or (row_distance b) 0)%Q)
          rows ->
        map hit (res_results body)
        = slice (formatted_hits rows) (search_offset req)
                (search_offset req + search_top_k req)).
Proof.
  intros Hrows Hnone Hids.
  pose proof (search_boosts_empty env req Hnone) as Hempty.
  assert (Hplain : Forall (fun r => get_property ∅ (docId r) = NoProperty)
                          (formatted_hits rows)).
  { apply List.Forall_forall. intros h Hin.
    destruct (formatted_hits_ids rows h Hin) as (row & Hrow & Hid).
    rewrite List.Forall_forall in Hids. specialize (Hids row Hrow).
    unfold get_property. rewrite lookup_empty, Hid, Hids. reflexivity. }
  exists (search_body env req rows).
  split; [apply post_search_answer; exact Hrows |].
  cbn [graph_boosts res_results res_vector_weight search_body].
  unfold fused_hits. rewrite Hempty.
  split; [apply map_size_empty |]. split; [| split].
  - apply List.Forall_forall. intros s Hin. apply slice_incl in Hin.
    pose proof (mergeResults_scores (formatted_hits rows) ∅
                  (default 0.7%Q (req_vector_weight req))) as Hscores.
    rewrite List.Forall_forall in Hscores. rewrite (Hscores s Hin).
    assert (Hhit : In (hit s) (formatted_hits rows)).
    { eapply Permutation_in; [apply mergeResults_hits |].
      apply List.in_map. exact Hin. }
    rewrite List.Forall_forall in Hplain. unfold totalScore.
    rewrite (Hplain (hit s) Hhit). cbn [score_is]. ring.
  - intros Hgraph. unfold calls. rewrite run_post_search, Hrows, Hgraph.
    reflexivity.
  - intros Hweight Hsorted.
    rewrite mergeResults_unboosted.
    + rewrite <- slice_map, List.map_map. cbn [hit]. rewrite List.map_id.
      reflexivity.
    + exact Hweight.
    + exact Hplain.
    + apply formatted_hits_sorted. exact Hsorted.
Qed.

Lemma search_without_boosts_witness :
  exists body : SearchBody,
    outcome graph_down_env (post_search (hybrid_request 1)) = Ok (Json body)
    /\ graph_boosts body = 0.
Proof.
  destruct (search_without_boosts graph_down_env (hybrid_request 1)
              [row_alpha; row_beta] eq_refl)
    as (body & Hout & Hboosts & _).
  - right. left. exists (StoreFailure "ServiceUnavailable"). reflexivity.
  - repeat constructor.
  - exists body. split; [exact Hout | exact Hboosts].
Defined.

(** ** hybrid.js: what POST /ingest hands to the vector store *)

(** X16: for a payload routed VECTOR_ONLY, POST /ingest makes exactly one
    store call: it adds a document whose text is the cleaned text (not the
    text that was sent), with the payload's id and its metadata or an empty
    object.  It answers with the route and the length of the cleaned text,
    or with 500 and the store's error when the store rejects the call. *)
Theorem post_ingest_vector_only (env : Env) (data cleaned : gmap string JsVal) :
  cleanData data = Ok (Some cleaned) ->
  decideRoute cleaned = VECTOR_ONLY ->
  exists cleanText : string,
    cleaned = <["text" := JStr cleanText]> data
    /\ run env (post_ingest data)
       = ([CallOf (VectorAddDocument data.["id"] (JStr cleanText)
                     (data.["metadata"] ||| JObj ∅))],
          match env _ (VectorAddDocument data.["id"] (JStr cleanText)
                         (data.["metadata"] ||| JObj ∅)) with
          | Ok _ =>
              Ok (Json {| routed_to := VECTOR_ONLY;
                          cleaned_text_length := JNat (String.length cleanText) |})
          | Throw e => Ok (Status500 e)
          end).
Proof.
  intros Hclean Hroute.
  destruct (decideRoute_cleaned data cleaned Hclean)
    as [(_ & _ & [Hr | Hr]) | (Hrel & _)]; try congruence.
  destruct (cleanData_text_branch data cleaned Hrel Hclean)
    as (raw & _ & Hlen & Hcleaned).
  set (cleanText := trim (strip_noise (collapse_spaces false raw))) in *.
  exists cleanText. split; [exact Hcleaned |].
  assert (Htext : cleaned.["text"] = JStr cleanText)
    by (rewrite Hcleaned; apply field_insert_eq).
  assert (Hid : cleaned.["id"] = data.["id"])
    by (rewrite Hcleaned; apply field_insert_ne; discriminate).
  assert (Hmeta : cleaned.["metadata"] = data.["metadata"])
    by (rewrite Hcleaned; apply field_insert_ne; discriminate).
  assert (Hlabel : log_label cleaned = Ok tt).
  { unfold log_label. rewrite Htext. destruct (truthy cleaned.["id"]); reflexivity. }
  assert (Hlength : opt_length (JStr cleanText) ||| JNat 0
                    = JNat (String.length cleanText)).
  { unfold js_or. cbn [opt_length].
    destruct (truthy (JNat (String.length cleanText))) eqn:Hzero; [reflexivity |].
    exfalso. unfold JNat, truthy in Hzero. apply negb_false_iff in Hzero.
    apply Qeq_bool_iff in Hzero. unfold Qeq in Hzero. cbn in Hzero. lia. }
  unfold post_ingest. rewrite run_handler, run_bind, run_lift, Hclean.
  cbv zeta. rewrite Hroute, Hlabel, Htext, Hid, Hmeta, Hlength.
  cbn [lift bind is_route orb when].
  rewrite run_bind, run_await.
  destruct (env _ (VectorAddDocument data.["id"] (JStr cleanText)
                     (data.["metadata"] ||| JObj ∅))) as [[] | e];
    reflexivity.
Qed.

Lemma post_ingest_vector_only_witness :
  exists cleanText : string,
    <["text" := JStr "a sufficiently long description text"]> content_only_payload
    = <["text" := JStr cleanText]> content_only_payload
    /\ run graph_down_env (post_ingest content_only_payload)
       = ([CallOf (VectorAddDocument content_only_payload.["id"] (JStr cleanText)
                     (content_only_payload.["metadata"] ||| JObj ∅))],
          match graph_down_env _
                  (VectorAddDocument content_only_payload.["id"] (JStr cleanText)
                     (content_only_payload.["metadata"] ||| JObj ∅)) with
          | Ok _ =>
              Ok (Json {| routed_to := VECTOR_ONLY;
                          cleaned_text_length := JNat (String.length cleanText) |})
          | Throw e => Ok (Status500 e)
          end).
Proof.
  apply (post_ingest_vector_only graph_down_env content_only_payload); reflexivity.
Defined.

(** X17: a payload with a non-empty [nodes] or [edges] is not cleaned:
    [cleanData] returns it as it is.  When one of its text-like fields is
    truthy it is routed BOTH, and, provided the log line can be printed (the
    id is truthy, or [text] is a string, null or absent), the first store
    call of POST /ingest adds a document with the payload's own [text] as it
    was sent, which is [undefined] when the text is carried by [content],
    [title] or [description]. *)
Theorem post_ingest_with_relationships (env : Env) (data : gmap string JsVal) :
  truthy (opt_length data.["nodes"] ||| opt_length data.["edges"]) = true ->
  cleanData data = Ok (Some data)
  /\ (truthy (data.["text"] ||| data.["content"] ||| data.["title"]
              ||| data.["description"]) = true ->
      log_label data = Ok tt ->
      decideRoute data = BOTH
      /\ exists rest : list Call,
           calls env (post_ingest data)
           = CallOf (VectorAddDocument data.["id"] data.["text"]
                       (data.["metadata"] ||| JObj ∅)) :: rest).
Proof.
  intros Hrel.
  assert (Hclean : cleanData data = Ok (Some data))
    by (unfold cleanData; rewrite Hrel; reflexivity).
  split; [exact Hclean |].
  intros Htext Hlabel.
  assert (Hroute : decideRoute data = BOTH).
  { unfold decideRoute. rewrite Htext.
    rewrite !truthy_js_or in *. rewrite Hrel. reflexivity. }
  split; [exact Hroute |].
  unfold calls, post_ingest. rewrite run_handler, run_bind, run_lift, Hclean.
  cbv zeta. rewrite Hroute, Hlabel.
  cbn [lift bind is_route orb when].
  rewrite run_bind, run_await.
  destruct (env _ (VectorAddDocument data.["id"] data.["text"]
                     (data.["metadata"] ||| JObj ∅))) as [[] | e].
  - match goal with
    | |- context [run env ?p] => destruct (run env p) as [trace [r | e]]
    end; cbn [fst app]; eauto.
  - cbn [fst]. eauto.
Qed.

Lemma post_ingest_with_relationships_witness :
  cleanData title_and_node_payload = Ok (Some title_and_node_payload).
Proof.
  apply (proj1 (post_ingest_with_relationships graph_down_env
                  title_and_node_payload eq_refl)).
Defined.


(** ** hybrid.js: POST /nodes *)

(** X18: the node data POST /nodes builds from an object [metadata] holds
    every property of [metadata] unchanged; the defaults apply only to
    properties [metadata] does not have: [name] is then the id, [tags] the
    empty array and [type] [undefined].  A falsy [name] or [tags] that
    [metadata] does have is passed on as it is. *)
Theorem node_data_defaults (id : JsVal) (fields : gmap string JsVal) :
  exists nodeData : gmap string JsVal,
    node_data id (JObj fields) = Ok (JObj nodeData)
    /\ (forall (k : string) (v : JsVal), fields !! k = Some v -> nodeData !! k = Some v)
    /\ (fields !! "name" = None -> nodeData !! "name" = Some id)
    /\ (fields !! "type" = None -> nodeData !! "type" = Some JUndefined)
    /\ (fields !! "tags" = None -> nodeData !! "tags" = Some (JArr []))
    /\ (forall k : string,
          k <> "name" -> k <> "type" -> k <> "tags" -> nodeData !! k = fields !! k).
Proof.
  eexists. split; [reflexivity |].
  cbn [spread list_to_map foldr fst snd uncurry].
  split; [| split; [| split; [| split]]].
  - intros k v Hk. apply lookup_union_Some_l. exact Hk.
  - intros Hnone. rewrite lookup_union_r by exact Hnone.
    rewrite lookup_insert_eq. unfold field. rewrite Hnone. reflexivity.
  - intros Hnone. rewrite lookup_union_r by exact Hnone.
    rewrite lookup_insert_ne by discriminate. rewrite lookup_insert_eq.
    unfold field. rewrite Hnone. reflexivity.
  - intros Hnone. rewrite lookup_union_r by exact Hnone.
    rewrite !lookup_insert_ne by discriminate. rewrite lookup_insert_eq.
    unfold field. rewrite Hnone. reflexivity.
  - intros k Hname Htype Htags.
    destruct (fields !! k) as [v |] eqn:Hk.
    + apply lookup_union_Some_l. exact Hk.
    + rewrite lookup_union_r by exact Hk.
      rewrite !lookup_insert_ne by congruence. apply lookup_empty.
Qed.

Lemma node_data_defaults_witness :
  exists nodeData : gmap string JsVal,
    node_data (JStr "n1") (obj [("name", JStr "")]) = Ok (JObj nodeData)
    /\ nodeData !! "name" = Some (JStr "")
    /\ nodeData !! "tags" = Some (JArr []).
Proof.
  destruct (node_data_defaults (JStr "n1") (list_to_map [("name", JStr "")]))
    as (nodeData & Hdata & Hkept & _ & _ & Htags & _).
  exists nodeData. split; [exact Hdata |]. split.
  - apply Hkept. reflexivity.
  - apply Htags. reflexivity.
Defined.

(** X19: POST /nodes writes to the vector store first and to the graph store
    second, and undoes nothing.  For a valid body, when the vector store
    accepts the document and the graph store rejects the node, the answer is
    500 with the graph store's error and no further call is made, so the
    document stays in the vector store alone.  A body whose [metadata] is
    [null] is answered 500 with a type error after the document was added,
    before any call to the graph store. *)
Theorem post_nodes_partial_write (env : Env) (body : gmap string JsVal) :
  validateNodeSchema body = Ok true ->
  env _ (VectorAddDocument body.["id"] body.["text"]
           (with_default body.["metadata"] (JObj ∅))) = Ok tt ->
  (forall (nodeData : JsVal) (e : Exn),
     node_data body.["id"] (with_default body.["metadata"] (JObj ∅)) = Ok nodeData ->
     env _ (GraphAddNode body.["id"] nodeData) = Throw e ->
     run env (post_nodes body)
     = ([CallOf (VectorAddDocument body.["id"] body.["text"]
                   (with_default body.["metadata"] (JObj ∅)));
         CallOf (GraphAddNode body.["id"] nodeData)],
        Ok (Status500 e)))
  /\ (body.["metadata"] = JNull ->
      run env (post_nodes body)
      = ([CallOf (VectorAddDocument body.["id"] body.["text"] JNull)],
         Ok (Status500 (TypeError "cannot read properties of a nullish value")))).
Proof.
  intros Hvalid Hadd.
  destruct (validateNodeSchema_ok body true Hvalid) as (_ & Hid & Htext).
  assert (Hrun :
            run env (post_nodes body)
            = run env (handler
                (await (VectorAddDocument body.["id"] body.["text"]
                          (with_default body.["metadata"] (JObj ∅))) ;;;
                 nodeData <- lift (node_data body.["id"]
                                     (with_default body.["metadata"] (JObj ∅))) ;;
                 await (GraphAddNode body.["id"] nodeData) ;;;
                 Ret (Json (obj [("success", JBool true); ("node_id", body.["id"]);
                                 ("text_length", opt_length body.["text"]);
                                 ("driver", JStr "Neo4j+LanceDB")]))))).
  { unfold post_nodes. rewrite Hvalid. cbn [lift bind]. cbv zeta.
    unfold js_not. rewrite Hid, Htext. reflexivity. }
  rewrite Hrun. clear Hrun.
  split.
  - intros nodeData e Hdata Hgraph.
    rewrite run_handler, run_bind, run_await, Hadd.
    rewrite run_bind, run_lift, Hdata.
    rewrite run_bind, run_await, Hgraph. reflexivity.
  - intros Hnull. rewrite Hnull in *. cbn [with_default] in *.
    rewrite run_handler, run_bind, run_await, Hadd.
    rewrite run_bind, run_lift. reflexivity.
Qed.

Lemma post_nodes_partial_write_witness :
  exists nodeData : JsVal,
    run vector_up_env (post_nodes named_node_body)
    = ([CallOf (VectorAddDocument (JStr "n1") (JStr "a node text")
                  (obj [("name", JStr "")]));
        CallOf (GraphAddNode (JStr "n1") nodeData)],
       Ok (Status500 (StoreFailure "ServiceUnavailable"))).
Proof.
  eexists.
  apply (proj1 (post_nodes_partial_write vector_up_env named_node_body
                  eq_refl eq_refl)); reflexivity.
Defined.


(** ** The client classes, run against the libraries *)

Lemma exec_tree_bind {X Y : Type} (world : World) (history : list LibCall)
    (t : Tree X) (f : X -> Tree Y) :
  exec world history (tree_bind t f)
  = let (history', x) := exec world history t in exec world history' (f x).
Proof.
  revert history. induction t as [x | A call k IH]; intros history;
    cbn [tree_bind exec]; [reflexivity |].
  apply IH.
Qed.

Lemma exec_m_bind {S T U : Type} (world : World) (history : list LibCall)
    (m : Method S T) (f : T -> Method S U) (this : S) :
  exec world history (m_bind m f this)
  = match exec world history (m this) with
    | (history', (Ok x, this')) => exec world history' (f x this')
    | (history', (Throw e, this')) => (history', (Throw e, this'))
    end.
Proof.
  unfold m_bind. rewrite exec_tree_bind.
  destruct (exec world history (m this)) as [history' [[x | e] this']]; reflexivity.
Qed.

Lemma exec_m_try {S T : Type} (world : World) (history : list LibCall)
    (m : Method S T) (handler : Exn -> Method S T) (this : S) :
  exec world history (m_try m handler this)
  = match exec world history (m this) with
    | (history', (Ok x, this')) => (history', (Ok x, this'))
    | (history', (Throw e, this')) => exec world history' (handler e this')
    end.
Proof.
  unfold m_try. rewrite exec_tree_bind.
  destruct (exec world history (m this)) as [history' [[x | e] this']]; reflexivity.
Qed.

Lemma exec_m_call {S A : Type} (world : World) (history : list LibCall)
    (call : libE A) (this : S) :
  exec world history (m_call call this)
  = ((history ++ [LibCallOf call])%list, (world history _ call, this)).
Proof. reflexivity. Qed.

Lemma exec_on_table {A : Type} (world : World) (history : list LibCall)
    (call : libE A) (this : VectorDB.state) :
  exec world history (VectorDB.on_table call this)
  = if VectorDB.table this
    then ((history ++ [LibCallOf call])%list, (world history _ call, this))
    else (history, (Throw (TypeError "cannot read properties of null"), this)).
Proof.
  unfold VectorDB.on_table. rewrite exec_m_bind. cbn [m_get exec].
  destruct (VectorDB.table this); reflexivity.
Qed.

Lemma exec_deleteDocument (world : World) (history : list LibCall)
    (this : VectorDB.state) (id : string) :
  exec world history (VectorDB.deleteDocument id this) = (history, (Ok tt, this)).
Proof.
  unfold VectorDB.deleteDocument. rewrite exec_m_bind. cbn [m_get exec].
  destruct (VectorDB.table this); cbn [negb]; [| reflexivity].
  rewrite exec_m_try, exec_m_bind. reflexivity.
Qed.

Lemma exec_addDocument (embeddingModel : option EmbeddingModel) (world : World)
    (history : list LibCall) (this : VectorDB.state) (id text : string)
    (metadata : JsVal) :
  VectorDB.table this = true ->
  let document :=
    {| doc_id := id; doc_text := text;
       doc_embedding := generateEmbedding embeddingModel (code_units text) true;
       doc_metadata := with_default metadata (JObj ∅) |} in
  exec world history (VectorDB.addDocument embeddingModel id text metadata this)
  = ((history ++ [LibCallOf (TableAdd [document])])%list,
     match world history _ (TableAdd [document]) with
     | Ok _ =>
         (Ok document,
          {| VectorDB.dbPath := VectorDB.dbPath this; VectorDB.db := VectorDB.db this;
             VectorDB.table := VectorDB.table this;
             VectorDB.documentCount := S (VectorDB.documentCount this) |})
     | Throw e => (Throw e, this)
     end).
Proof.
  intros Htable document. unfold VectorDB.addDocument. cbv zeta. fold document.
  rewrite exec_m_try, exec_m_bind, exec_on_table.
  destruct this as [path connected opened count].
  cbn [VectorDB.table] in Htable. subst opened. cbn [VectorDB.table].
  destruct (world history unit (TableAdd [document])) as [[] | e]; reflexivity.
Qed.

(** X20: [VectorDB.deleteDocument] never rejects, leaves the fields of the
    object as they are, the document count included, and never calls the
    table: with a table it fails to build the filter [id == "<id>"], because
    [lancedb.where] does not exist, and ignores the error; without a table it
    returns at once.  So no document is ever deleted, and DELETE
    /vector/nodes/:id answers with success all the same. *)
Theorem vector_delete_always_succeeds (world : World) (history : list LibCall)
    (this : VectorDB.state) (id : string) :
  exec world history (VectorDB.deleteDocument id this) = (history, (Ok tt, this))
  /\ exec world history (VectorRoutes.delete_vector_node id this)
     = (history, (Ok (Answer200 ("Document deleted: " ++ id)), this)).
Proof.
  split; [apply exec_deleteDocument |].
  unfold VectorRoutes.delete_vector_node.
  rewrite exec_m_try, exec_m_bind, exec_deleteDocument. reflexivity.
Qed.

(** X21: on an object with a table, [VectorDB.updateDocument] deletes
    nothing: its delete step makes no call, so the first call is the add of
    the document, which leaves any row stored under the same id in place;
    when that add is rejected it makes the same add a second time.  It
    resolves, with the document count raised by one, as soon as one of the
    two adds is accepted, and rejects with the error of the second add when
    both are rejected. *)
Theorem VectorDB_updateDocument_retries (embeddingModel : option EmbeddingModel)
    (world : World) (history : list LibCall) (this : VectorDB.state)
    (id text : string) (metadata : JsVal) :
  VectorDB.table this = true ->
  let document :=
    {| doc_id := id; doc_text := text;
       doc_embedding := generateEmbedding embeddingModel (code_units text) true;
       doc_metadata := with_default metadata (JObj ∅) |} in
  let added := (history ++ [LibCallOf (TableAdd [document])])%list in
  let counted :=
    {| VectorDB.dbPath := VectorDB.dbPath this; VectorDB.db := VectorDB.db this;
       VectorDB.table := VectorDB.table this;
       VectorDB.documentCount := S (VectorDB.documentCount this) |} in
  exec world history (VectorDB.updateDocument embeddingModel id text metadata this)
  = match world history _ (TableAdd [document]) with
    | Ok _ => (added, (Ok tt, counted))
    | Throw _ =>
        ((added ++ [LibCallOf (TableAdd [document])])%list,
         match world added _ (TableAdd [document]) with
         | Ok _ => (Ok tt, counted)
         | Throw e => (Throw e, this)
         end)
    end.
Proof.
  intros Htable document added counted.
  unfold VectorDB.updateDocument.
  rewrite exec_m_try, exec_m_bind, exec_deleteDocument.
  rewrite exec_m_bind.
  rewrite (exec_addDocument embeddingModel world history this id text metadata Htable).
  fold document. fold added.
  destruct (world history unit (TableAdd [document])) as [[] | e1].
  - reflexivity.
  - rewrite exec_m_bind.
    rewrite (exec_addDocument embeddingModel world added this id text metadata Htable).
    fold document.
    destruct (world added unit (TableAdd [document])) as [[] | e2]; reflexivity.
Qed.

Lemma VectorDB_updateDocument_retries_witness :
  snd (exec flaky_world []
         (VectorDB.updateDocument None "d1" "an updated text" JUndefined opened_db))
  = (Ok tt,
     {| VectorDB.dbPath := "/tmp/hackathon.lancedb"; VectorDB.db := true;
        VectorDB.table := true; VectorDB.documentCount := 1 |}).
Proof.
  rewrite (VectorDB_updateDocument_retries None flaky_world [] opened_db
             "d1" "an updated text" JUndefined eq_refl).
  reflexivity.
Defined.

(** ** vectordb.js: the document count *)

Lemma accepted_adds_app (world : World) (before first second : list LibCall) :
  accepted_adds world before (first ++ second)
  = accepted_adds world before first
    + accepted_adds world (before ++ first)%list second.
Proof.
  revert before. induction first as [| c rest IH]; intros before.
  - cbn [app accepted_adds]. rewrite List.app_nil_r. reflexivity.
  - destruct c as [A call]. cbn [app accepted_adds]. rewrite IH.
    rewrite <- List.app_assoc. cbn [app]. lia.
Qed.

Lemma keeps_count_pure {T : Type} (r : result T) :
  keeps_count (fun this => Done (r, this)).
Proof.
  intros world history this. exists []. cbn [exec fst snd accepted_adds].
  rewrite List.app_nil_r. repeat split. lia.
Qed.

Lemma keeps_count_get : keeps_count (@m_get VectorDB.state).
Proof.
  intros world history this. exists []. cbn [m_get exec fst snd accepted_adds].
  rewrite List.app_nil_r. repeat split. lia.
Qed.

Lemma keeps_count_bind {T U : Type} (m : Method VectorDB.state T)
    (f : T -> Method VectorDB.state U) :
  keeps_count m -> (forall x : T, keeps_count (f x)) -> keeps_count (m_bind m f).
Proof.
  intros Hm Hf world history this. rewrite exec_m_bind.
  destruct (Hm world history this) as (calls & Hcalls & Hcount & Htable & Hdb & Hpath).
  destruct (exec world history (m this)) as [history' [[x | e] this']];
    cbn [fst snd] in *.
  - destruct (Hf x world history' this')
      as (calls' & Hcalls' & Hcount' & Htable' & Hdb' & Hpath').
    exists (calls ++ calls')%list.
    rewrite Hcalls', Hcount', Htable', Hdb', Hpath', Hcalls, Hcount.
    rewrite accepted_adds_app, List.app_assoc. repeat split; try assumption. lia.
  - exists calls. repeat split; assumption.
Qed.

Lemma keeps_count_try {T : Type} (m : Method VectorDB.state T)
    (handler : Exn -> Method VectorDB.state T) :
  keeps_count m -> (forall e : Exn, keeps_count (handler e)) ->
  keeps_count (m_try m handler).
Proof.
  intros Hm Hh world history this. rewrite exec_m_try.
  destruct (Hm world history this) as (calls & Hcalls & Hcount & Htable & Hdb & Hpath).
  destruct (exec world history (m this)) as [history' [[x | e] this']];
    cbn [fst snd] in *.
  - exists calls. repeat split; assumption.
  - destruct (Hh e world history' this')
      as (calls' & Hcalls' & Hcount' & Htable' & Hdb' & Hpath').
    exists (calls ++ calls')%list.
    rewrite Hcalls', Hcount', Htable', Hdb', Hpath', Hcalls, Hcount.
    rewrite accepted_adds_app, List.app_assoc. repeat split; try assumption. lia.
Qed.

Lemma keeps_count_query (queryEmbedding : list R) (limit : Z) :
  keeps_count (VectorDB.on_table (TableQuery queryEmbedding limit)).
Proof.
  intros world history this. rewrite exec_on_table.
  destruct (VectorDB.table this) eqn:Htable.
  - exists [LibCallOf (TableQuery queryEmbedding limit)].
    cbn [fst snd accepted_adds]. repeat split; try lia; auto.
  - exists []. cbn [fst snd accepted_adds]. rewrite List.app_nil_r.
    repeat split; try lia; auto.
Qed.

Lemma keeps_count_deleteDocument (id : string) :
  keeps_count (VectorDB.deleteDocument id).
Proof.
  intros world history this. rewrite exec_deleteDocument. cbn [fst snd].
  exists []. rewrite List.app_nil_r. cbn [accepted_adds].
  repeat split; try lia; auto.
Qed.

Lemma keeps_count_addDocument (embeddingModel : option EmbeddingModel)
    (id text : string) (metadata : JsVal) :
  keeps_count (VectorDB.addDocument embeddingModel id text metadata).
Proof.
  intros world history this.
  destruct (VectorDB.table this) eqn:Htable.
  - rewrite (exec_addDocument embeddingModel world history this id text metadata Htable).
    cbv zeta. cbn [fst].
    eexists. split; [reflexivity |]. cbn [accepted_adds].
    match goal with
    | |- context [world history unit ?c] => destruct (world history unit c) as [[] | e]
    end; cbn [fst snd VectorDB.documentCount VectorDB.table VectorDB.db VectorDB.dbPath];
      repeat split; try lia; auto.
  - unfold VectorDB.addDocument. cbv zeta.
    rewrite exec_m_try, exec_m_bind, exec_on_table, Htable.
    cbn [m_throw exec fst snd].
    exists []. rewrite List.app_nil_r. cbn [accepted_adds].
    repeat split; try lia; auto.
Qed.

Lemma keeps_count_ret {T : Type} (x : T) : keeps_count (@m_ret VectorDB.state T x).
Proof. apply (keeps_count_pure (Ok x)). Qed.

Lemma keeps_count_throw {T : Type} (e : Exn) :
  keeps_count (@m_throw VectorDB.state T e).
Proof. apply (keeps_count_pure (Throw e)). Qed.

Lemma keeps_count_routes (embeddingModel : option EmbeddingModel) :
  (forall id text metadata,
     keeps_count (VectorRoutes.post_vector_nodes embeddingModel id text metadata))
  /\ (forall id, keeps_count (VectorRoutes.get_vector_node id))
  /\ (forall id text metadata,
        keeps_count (VectorRoutes.put_vector_node embeddingModel id text metadata))
  /\ (forall id, keeps_count (VectorRoutes.delete_vector_node id))
  /\ (forall query_text top_k,
        keeps_count (VectorRoutes.post_vector_search embeddingModel query_text top_k))
  /\ keeps_count VectorRoutes.get_vector_all
  /\ keeps_count VectorRoutes.get_vector_stats.
Proof.
  repeat match goal with |- _ /\ _ => split end; intros;
    unfold VectorRoutes.post_vector_nodes, VectorRoutes.get_vector_node, VectorRoutes.put_vector_node,
      VectorRoutes.delete_vector_node, VectorRoutes.post_vector_search, VectorRoutes.get_vector_all,
      VectorRoutes.get_vector_stats, VectorDB.getDocument, VectorDB.updateDocument,
      VectorDB.search, VectorDB.getAllDocuments, VectorDB.getStats;
    repeat match goal with
      | |- keeps_count (m_try _ _) => apply keeps_count_try; [| intros ?]
      | |- keeps_count (m_bind _ _) => apply keeps_count_bind; [| intros ?]
      | |- keeps_count (m_ret _) => apply keeps_count_ret
      | |- keeps_count (m_throw _) => apply keeps_count_throw
      | |- keeps_count m_get => apply keeps_count_get
      | |- keeps_count (VectorDB.on_table (TableQuery _ _)) => apply keeps_count_query
      | |- keeps_count (VectorDB.deleteDocument _) => apply keeps_count_deleteDocument
      | |- keeps_count (VectorDB.addDocument _ _ _ _) => apply keeps_count_addDocument
      | |- keeps_count (match ?x with _ => _ end) => destruct x
      | |- keeps_count (if ?b then _ else _) => destruct b
      | |- keeps_count _ => progress cbv zeta
      end.
Qed.


Lemma serve_keeps_count (embeddingModel : option EmbeddingModel) (world : World)
    (request : VectorRoutes.Request) (history : list LibCall) (this : VectorDB.state) :
  exists calls : list LibCall,
    fst (VectorRoutes.serve embeddingModel world request (history, this))
    = (history ++ calls)%list
    /\ VectorDB.documentCount
         (snd (VectorRoutes.serve embeddingModel world request (history, this)))
       = VectorDB.documentCount this + accepted_adds world history calls
    /\ VectorDB.table
         (snd (VectorRoutes.serve embeddingModel world request (history, this)))
       = VectorDB.table this
    /\ VectorDB.dbPath
         (snd (VectorRoutes.serve embeddingModel world request (history, this)))
       = VectorDB.dbPath this.
Proof.
  destruct (keeps_count_routes embeddingModel)
    as (Hpost & Hget & Hput & Hdelete & Hsearch & Hall & Hstats).
  destruct request as [id text metadata | id | id text metadata | id
                      | query_text top_k | |];
    cbn [VectorRoutes.serve];
    match goal with
    | |- context [exec world history (?m this)] =>
        let H := fresh "H" in
        assert (H : keeps_count m) by auto;
        destruct (H world history this)
          as (calls & Hcalls & Hcount & Htable & _ & Hpath);
        destruct (exec world history (m this)) as [history' [out this']];
        cbn [fst snd] in *; exists calls; auto
    end.
Qed.

(** X22: over any sequence of requests to the /vector routes, served one
    after the other, the document count of the store goes up by exactly the
    number of [table.add] calls the table accepted, and GET /vector/stats
    then reports that count as [totalDocuments].  No request lowers it: a
    delete leaves it as it is, and an update of a stored document raises it
    by one. *)
Theorem documentCount_counts_accepted_adds (embeddingModel : option EmbeddingModel)
    (world : World) (requests : list VectorRoutes.Request)
    (history : list LibCall) (this : VectorDB.state) :
  let served := VectorRoutes.serve_all embeddingModel world requests (history, this) in
  exists calls : list LibCall,
    fst served = (history ++ calls)%list
    /\ VectorDB.documentCount (snd served)
       = VectorDB.documentCount this + accepted_adds world history calls
    /\ exec world (fst served) (VectorRoutes.get_vector_stats (snd served))
       = (fst served,
          (Ok (Answer200
                 {| VectorDB.totalDocuments :=
                      VectorDB.documentCount this + accepted_adds world history calls;
                    VectorDB.embeddingDimension := 384;
                    VectorDB.stats_dbPath := VectorDB.dbPath this;
                    VectorDB.status := "healthy" |}),
           snd served)).
Proof.
  cbv zeta.
  assert (Hserved : exists calls : list LibCall,
            fst (VectorRoutes.serve_all embeddingModel world requests (history, this))
            = (history ++ calls)%list
            /\ VectorDB.documentCount
                 (snd (VectorRoutes.serve_all embeddingModel world requests
                         (history, this)))
               = VectorDB.documentCount this + accepted_adds world history calls
            /\ VectorDB.dbPath
                 (snd (VectorRoutes.serve_all embeddingModel world requests
                         (history, this)))
               = VectorDB.dbPath this).
  { revert history this. induction requests as [| request rest IH];
      intros history this.
    - exists []. cbn [VectorRoutes.serve_all fold_left fst snd accepted_adds].
      rewrite List.app_nil_r. repeat split. lia.
    - unfold VectorRoutes.serve_all in *. cbn [fold_left].
      destruct (serve_keeps_count embeddingModel world request history this)
        as (calls & Hcalls & Hcount & _ & Hpath).
      destruct (VectorRoutes.serve embeddingModel world request (history, this))
        as [history' this'].
      cbn [fst snd] in *. subst history'.
      destruct (IH (history ++ calls)%list this')
        as (calls' & Hcalls' & Hcount' & Hpath').
      exists (calls ++ calls')%list.
      rewrite Hcalls', Hcount', Hpath', Hcount, Hpath.
      rewrite accepted_adds_app, List.app_assoc. repeat split. lia. }
  destruct Hserved as (calls & Hcalls & Hcount & Hpath).
  exists calls. split; [exact Hcalls |]. split; [exact Hcount |].
  unfold VectorRoutes.get_vector_stats, VectorDB.getStats.
  rewrite exec_m_try, exec_m_bind, exec_m_bind. cbn [m_get m_ret exec].
  rewrite Hcount, Hpath. reflexivity.
Qed.


(** ** vectordb.js and vector.js: reading documents *)

Lemma exec_getAllDocuments (world : World) (history : list LibCall)
    (this : VectorDB.state) (limit : Z) :
  exec world history (VectorDB.getAllDocuments limit this)
  = ((history
      ++ (if VectorDB.table this
          then [LibCallOf (TableQuery VectorDB.zero_vector limit)] else []))%list,
     (Ok (if VectorDB.table this
          then match world history _ (TableQuery VectorDB.zero_vector limit) with
               | Ok rows =>
                   List.filter (fun doc => negb (String.eqb (stored_id doc) "init"))
                               (map VectorDB.to_stored rows)
               | Throw _ => []
               end
          else []),
      this)).
Proof.
  unfold VectorDB.getAllDocuments.
  rewrite exec_m_try, exec_m_bind, exec_on_table.
  destruct (VectorDB.table this).
  - destruct (world history _ (TableQuery VectorDB.zero_vector limit));
      reflexivity.
  - cbn [m_ret exec]. rewrite List.app_nil_r. reflexivity.
Qed.

(** X23: [VectorDB.getAllDocuments] never rejects.  When the table answers
    the query it returns the rows in their order, without the rows whose id
    is "init"; when the query is rejected or the object has no table it
    returns the empty list.  So GET /vector/all always answers 200, with the
    number of documents returned as [totalDocuments], and a failing table
    shows as an empty store. *)
Theorem VectorDB_getAllDocuments_never_rejects (world : World)
    (history : list LibCall) (this : VectorDB.state) (limit : Z) :
  (exists documents : list StoredDocument,
     exec world history (VectorDB.getAllDocuments limit this)
     = ((history
         ++ (if VectorDB.table this
             then [LibCallOf (TableQuery VectorDB.zero_vector limit)] else []))%list,
        (Ok documents, this))
     /\ Forall (fun d => stored_id d <> "init") documents
     /\ (forall rows : list RawRow,
           VectorDB.table this = true ->
           world history _ (TableQuery VectorDB.zero_vector limit) = Ok rows ->
           documents
           = map VectorDB.to_stored
                 (List.filter (fun row => negb (String.eqb (row_id row) "init")) rows))
     /\ (VectorDB.table this = false
         \/ (exists e : Exn,
               world history _ (TableQuery VectorDB.zero_vector limit) = Throw e) ->
         documents = []))
  /\ (exists (documents : list StoredDocument) (calls : list LibCall),
        exec world history (VectorRoutes.get_vector_all this)
        = ((history ++ calls)%list,
           (Ok (Answer200 (List.length documents, documents)), this))
        /\ Forall (fun d => stored_id d <> "init") documents).
Proof.
  assert (Hfiltered : forall rows : list RawRow,
            Forall (fun d => stored_id d <> "init")
                   (List.filter (fun doc => negb (String.eqb (stored_id doc) "init"))
                                (map VectorDB.to_stored rows))).
  { intros rows. apply List.Forall_forall. intros d Hin.
    apply List.filter_In in Hin. destruct Hin as [_ Hkeep].
    apply negb_true_iff in Hkeep. apply String.eqb_neq in Hkeep. exact Hkeep. }
  split.
  - rewrite exec_getAllDocuments. eexists. split; [reflexivity |].
    destruct (VectorDB.table this) eqn:Htable.
    + destruct (world history _ (TableQuery VectorDB.zero_vector limit))
        as [rows | e].
      * split; [apply Hfiltered |]. split.
        -- intros rows' _ [= <-]. rewrite filter_map_comm. reflexivity.
        -- intros [Hno | [e He]]; discriminate.
      * split; [constructor |]. split; [| reflexivity].
        intros rows' _ Hrows. discriminate Hrows.
    + split; [constructor |]. split; [| reflexivity].
      intros rows' Hyes. discriminate Hyes.
  - unfold VectorRoutes.get_vector_all.
    rewrite exec_m_try, exec_m_bind, exec_getAllDocuments. cbn [m_ret exec].
    eexists. eexists. split; [reflexivity |].
    destruct (VectorDB.table this); [| constructor].
    destruct (world history _ (TableQuery VectorDB.zero_vector 1000));
      [apply Hfiltered | constructor].
Qed.

(** X24: GET /vector/nodes/:id never answers 500: it answers 200 with the
    first row whose id is the one asked for, among the at most 1000 rows the
    table returns, and 404 in every other case, with "Document not found"
    when no row has the id and with the error itself when the table rejected
    the query or the object has no table. *)
Theorem vector_get_node_answers (world : World) (history : list LibCall)
    (this : VectorDB.state) (id : string) :
  exists (answer : Answer StoredDocument) (calls : list LibCall),
    exec world history (VectorRoutes.get_vector_node id this)
    = ((history ++ calls)%list, (Ok answer, this))
    /\ (forall e : Exn, answer <> Answer500 e)
    /\ (VectorDB.table this = false -> calls = [] /\ exists e, answer = Answer404 e)
    /\ (VectorDB.table this = true ->
        calls = [LibCallOf (TableQuery VectorDB.zero_vector 1000)]
        /\ match world history _ (TableQuery VectorDB.zero_vector 1000) with
           | Ok rows =>
               match List.find (fun d => String.eqb (row_id d) id) rows with
               | Some doc => answer = Answer200 (VectorDB.to_stored doc) /\ row_id doc = id
               | None => answer = Answer404 (DocumentNotFound id)
               end
           | Throw e => answer = Answer404 e
           end).
Proof.
  unfold VectorRoutes.get_vector_node, VectorDB.getDocument.
  rewrite exec_m_try, exec_m_bind, exec_m_try, exec_m_bind, exec_on_table.
  destruct (VectorDB.table this) eqn:Htable.
  - destruct (world history _ (TableQuery VectorDB.zero_vector 1000))
      as [rows | e] eqn:Hquery.
    + destruct (List.find (fun d => String.eqb (row_id d) id) rows)
        as [doc |] eqn:Hfind.
      * eexists. eexists. split; [reflexivity |].
        split; [discriminate |]. split; [discriminate |].
        intros _. split; [reflexivity |]. split; [reflexivity |].
        apply List.find_some in Hfind. destruct Hfind as [_ Hid].
        apply String.eqb_eq in Hid. exact Hid.
      * eexists. eexists. split; [reflexivity |].
        split; [discriminate |]. split; [discriminate |].
        intros _. split; reflexivity.
    + eexists. eexists. split; [reflexivity |].
      split; [discriminate |]. split; [discriminate |].
      intros _. split; reflexivity.
  - exists (Answer404 (TypeError "cannot read properties of null")), [].
    cbn [m_throw exec]. rewrite List.app_nil_r.
    split; [reflexivity |]. split; [discriminate |].
    split; [eauto | discriminate].
Qed.


(** ** vector.js: POST /vector/nodes *)

(** X25: POST /vector/nodes answers 400, without calling the table, when
    [id] or [text] is absent or empty.  Otherwise, on a store with a table, it
    makes one [table.add] call, with a single document that carries the id,
    the text, the embedding [generateEmbedding(text, true)] and the metadata
    (an empty object when none was sent); it answers 201 with that document
    when the table accepts the call, and 500 with the table's error, the
    document count unchanged, when it rejects it. *)
Theorem vector_post_nodes_answers (embeddingModel : option EmbeddingModel)
    (world : World) (history : list LibCall) (this : VectorDB.state)
    (id text : option string) (metadata : JsVal) :
  (VectorRoutes.blank id = true \/ VectorRoutes.blank text = true ->
   exec world history (VectorRoutes.post_vector_nodes embeddingModel id text metadata this)
   = (history, (Ok (Answer400 "Missing required fields: id, text"), this)))
  /\ (forall id' text' : string,
        id = Some id' -> text = Some text' ->
        VectorRoutes.blank id = false -> VectorRoutes.blank text = false ->
        VectorDB.table this = true ->
        let document :=
          {| doc_id := id'; doc_text := text';
             doc_embedding := generateEmbedding embeddingModel (code_units text') true;
             doc_metadata := with_default metadata (JObj ∅) |} in
        exec world history (VectorRoutes.post_vector_nodes embeddingModel id text metadata this)
        = ((history ++ [LibCallOf (TableAdd [document])])%list,
           match world history _ (TableAdd [document]) with
           | Ok _ =>
               (Ok (Answer201 (id', document)),
                {| VectorDB.dbPath := VectorDB.dbPath this;
                   VectorDB.db := VectorDB.db this;
                   VectorDB.table := VectorDB.table this;
                   VectorDB.documentCount := S (VectorDB.documentCount this) |})
           | Throw e => (Ok (Answer500 e), this)
           end)).
Proof.
  split.
  - intros Hblank. unfold VectorRoutes.post_vector_nodes. rewrite exec_m_try.
    destruct id as [[| c id'] |]; destruct text as [[| d text'] |];
      cbn [VectorRoutes.blank orb] in *; try reflexivity.
    destruct Hblank; discriminate.
  - intros id' text' -> -> Hid Htext Htable document.
    unfold VectorRoutes.post_vector_nodes. rewrite exec_m_try.
    rewrite Hid, Htext. cbn [orb].
    rewrite exec_m_bind.
    rewrite (exec_addDocument embeddingModel world history this id' text' metadata
               Htable).
    fold document.
    destruct (world history unit (TableAdd [document])) as [[] | e]; reflexivity.
Qed.

Lemma vector_post_nodes_answers_witness :
  exec flaky_world [] (VectorRoutes.post_vector_nodes None None (Some "a text") JUndefined
                         opened_db)
  = ([], (Ok (Answer400 "Missing required fields: id, text"), opened_db)).
Proof.
  apply (proj1 (vector_post_nodes_answers None flaky_world [] opened_db None
                  (Some "a text") JUndefined)).
  left. reflexivity.
Defined.

(** ** vectordb.js: start-up *)

(** X26: on a connected object, [VectorDB.ensureTable] opens the table and,
    only when opening is rejected, creates it with the one placeholder row
    whose id and text are "init"; the object has a table afterwards exactly
    when one of the two calls was accepted, and the method rejects with the
    error of the creation otherwise.  On an object that was never connected
    it rejects with a type error and calls nothing.  The document count
    stays 0 in each case: the placeholder is not counted. *)
Theorem VectorDB_ensureTable_opens_or_creates (world : World)
    (history : list LibCall) (dbPath tableName : string) (connected : bool) :
  let this :=
    {| VectorDB.dbPath := dbPath; VectorDB.db := connected;
       VectorDB.table := false; VectorDB.documentCount := 0 |} in
  let ready :=
    {| VectorDB.dbPath := dbPath; VectorDB.db := connected;
       VectorDB.table := true; VectorDB.documentCount := 0 |} in
  let opening := (history ++ [LibCallOf (OpenTable tableName)])%list in
  let creating :=
    (opening ++ [LibCallOf (CreateTable tableName VectorDB.dummyData)])%list in
  map doc_id VectorDB.dummyData = ["init"]
  /\ map doc_text VectorDB.dummyData = ["init"]
  /\ exec world history (VectorDB.ensureTable tableName this)
     = if connected
       then match world history _ (OpenTable tableName) with
            | Ok _ => (opening, (Ok tt, ready))
            | Throw _ =>
                match world opening _ (CreateTable tableName VectorDB.dummyData) with
                | Ok _ => (creating, (Ok tt, ready))
                | Throw e => (creating, (Throw e, this))
                end
            end
       else (history, (Throw (TypeError "cannot read properties of null"), this)).
Proof.
  cbv zeta. split; [reflexivity |]. split; [reflexivity |].
  unfold VectorDB.ensureTable, VectorDB.on_db, VectorDB.set_table.
  rewrite !exec_m_try, !exec_m_bind. cbn [m_get exec VectorDB.db].
  destruct connected.
  - rewrite exec_m_call.
    destruct (world history unit (OpenTable tableName)) as [[] | e1].
    + reflexivity.
    + rewrite !exec_m_bind. cbn [m_get exec VectorDB.db]. rewrite exec_m_call.
      destruct (world (history ++ [LibCallOf (OpenTable tableName)])%list unit
                  (CreateTable tableName VectorDB.dummyData)) as [[] | e2];
        reflexivity.
  - cbn [m_throw exec]. rewrite !exec_m_bind. cbn [m_get exec VectorDB.db m_throw].
    reflexivity.
Qed.


(** ** neo4jdb.js *)

(** X27: [Neo4jDB.getStats] never rejects, and leaves the object as it is.
    It runs the node count and then the edge count; when a query is rejected,
    a record cannot be read or there is no session, it makes no further
    query and returns the statistics of an empty graph (0 nodes, 0 edges),
    marked by the driver name "Neo4j (error)" and the error.  So the caller
    cannot tell an unreachable graph from an empty one by the counts. *)
Theorem Neo4jDB_getStats_never_rejects (world : World) (history : list LibCall)
    (this : Neo4jDB.state) :
  exists (stats : Neo4jDB.Stats) (calls : list LibCall),
    exec world history (Neo4jDB.getStats this) = ((history ++ calls)%list, (Ok stats, this))
    /\ List.length calls <= 2
    /\ (Neo4jDB.error stats = None ->
        Neo4jDB.driver stats = "Neo4j"
        /\ calls = [LibCallOf (SessionRun CountNodes []);
                    LibCallOf (SessionRun CountEdges [])])
    /\ (forall e : Exn,
          Neo4jDB.error stats = Some e ->
          Neo4jDB.totalNodes stats = JNum 0 /\ Neo4jDB.totalEdges stats = JNum 0
          /\ Neo4jDB.driver stats = "Neo4j (error)")
    /\ (Neo4jDB.session this = false ->
        calls = [] /\ Neo4jDB.error stats = Some Neo4jDB.no_session)
    /\ (forall e : Exn,
          Neo4jDB.session this = true ->
          world history _ (SessionRun CountNodes []) = Throw e ->
          calls = [LibCallOf (SessionRun CountNodes [])]
          /\ Neo4jDB.error stats = Some e).
Proof.
  unfold Neo4jDB.getStats, Neo4jDB.session_run.
  rewrite exec_m_try, exec_m_bind. cbn [m_get exec].
  destruct (Neo4jDB.session this) eqn:Hsession; cbn [negb].
  - rewrite exec_m_bind, exec_m_call.
    destruct (world history _ (SessionRun CountNodes [])) as [nodesResult | e1]
      eqn:Hnodes.
    + rewrite exec_m_bind, exec_m_call.
      destruct (world (history ++ [LibCallOf (SessionRun CountNodes [])])%list _
                  (SessionRun CountEdges [])) as [edgesResult | e2].
      * rewrite exec_m_bind. cbn [m_lift exec].
        destruct (Neo4jDB.count_of nodesResult "totalNodes") as [totalNodes | e3].
        -- rewrite exec_m_bind. cbn [m_lift exec].
           destruct (Neo4jDB.count_of edgesResult "totalEdges") as [totalEdges | e4];
             cbn [m_ret exec]; rewrite <- List.app_assoc; cbn [app];
             eexists; eexists; (split; [reflexivity |]);
             cbn [List.length Neo4jDB.error Neo4jDB.driver Neo4jDB.totalNodes
                  Neo4jDB.totalEdges];
             repeat split; try lia; try discriminate; auto.
        -- cbn [m_ret exec]. rewrite <- List.app_assoc. cbn [app].
           eexists. eexists. split; [reflexivity |].
           cbn [List.length Neo4jDB.error Neo4jDB.driver Neo4jDB.totalNodes
                Neo4jDB.totalEdges].
           repeat split; try lia; try discriminate; auto.
      * cbn [m_ret exec]. rewrite <- List.app_assoc. cbn [app].
        eexists. eexists. split; [reflexivity |].
        cbn [List.length Neo4jDB.error Neo4jDB.driver Neo4jDB.totalNodes
             Neo4jDB.totalEdges].
        repeat split; try lia; try discriminate; auto.
    + cbn [m_ret exec].
      eexists. eexists. split; [reflexivity |].
      cbn [List.length Neo4jDB.error Neo4jDB.driver Neo4jDB.totalNodes
           Neo4jDB.totalEdges].
      repeat split; try lia; try discriminate; auto.
      congruence.
  - cbn [m_throw m_ret exec].
    exists {| Neo4jDB.totalNodes := JNum 0; Neo4jDB.totalEdges := JNum 0;
              Neo4jDB.nodeTypes := None; Neo4jDB.driver := "Neo4j (error)";
              Neo4jDB.error := Some Neo4jDB.no_session |}, [].
    rewrite List.app_nil_r. split; [reflexivity |].
    cbn [List.length Neo4jDB.error Neo4jDB.driver Neo4jDB.totalNodes
         Neo4jDB.totalEdges].
    repeat split; try lia; try discriminate; auto.
Qed.


(** ** hybrid.js: the edges of an ingested payload *)

Lemma run_for_of_accepted {A : Type} (env : Env) (l : list A)
    (body : A -> Prog unit) (call_of : A -> storeE unit) :
  (forall x : A, In x l -> run env (body x) = ([CallOf (call_of x)], Ok tt)) ->
  run env (for_of l body) = (map (fun x => CallOf (call_of x)) l, Ok tt).
Proof.
  induction l as [| x rest IH]; intros Hbody; [reflexivity |].
  cbn [for_of map]. rewrite run_bind, (Hbody x (or_introl eq_refl)).
  rewrite IH by (intros y Hy; apply Hbody; right; exact Hy).
  reflexivity.
Qed.

(** X28: POST /ingest does not validate the edges of a payload.  For a
    payload without text and nodes whose [edges] is a non-empty array of
    objects, it is routed GRAPH_ONLY and, as long as the graph store accepts
    the calls, every edge is handed to [graphDB.addEdge] in order with its
    [from], [to], [type] and [weight] as they were sent, whatever the type
    and the weight are, and the answer reports a cleaned text length of 0. *)
Theorem post_ingest_edges_unvalidated (env : Env) (data : gmap string JsVal)
    (edges : list (gmap string JsVal)) :
  truthy (data.["text"] ||| data.["content"] ||| data.["title"]
          ||| data.["description"]) = false ->
  truthy data.["nodes"] = false ->
  data.["edges"] = JArr (map JObj edges) ->
  edges <> [] ->
  log_label data = Ok tt ->
  (forall e : gmap string JsVal,
     In e edges ->
     env _ (GraphAddEdge e.["from"] e.["to"] e.["type"] e.["weight"]) = Ok tt) ->
  run env (post_ingest data)
  = (map (fun e => CallOf (GraphAddEdge e.["from"] e.["to"] e.["type"] e.["weight"]))
         edges,
     Ok (Json {| routed_to := GRAPH_ONLY; cleaned_text_length := JNat 0 |})).
Proof.
  intros Htext Hnodes Hedges Hsome Hlabel Haccepted.
  assert (Hlen : truthy (opt_length data.["edges"]) = true).
  { rewrite Hedges. destruct edges as [| e rest]; [contradiction | reflexivity]. }
  assert (Hrel : truthy (opt_length data.["nodes"] ||| opt_length data.["edges"])
                 = true).
  { rewrite truthy_js_or, Hlen. apply orb_true_r. }
  assert (Hclean : cleanData data = Ok (Some data))
    by (unfold cleanData; rewrite Hrel; reflexivity).
  assert (Hroute : decideRoute data = GRAPH_ONLY).
  { unfold decideRoute. rewrite Htext. cbn [andb].
    rewrite !truthy_js_or in *. rewrite Hrel. reflexivity. }
  assert (Hlength : opt_length data.["text"] ||| JNat 0 = JNat 0).
  { rewrite !truthy_js_or in Htext.
    repeat (apply orb_false_elim in Htext; destruct Htext as [Htext _]).
    unfold js_or. destruct data.["text"] as [| | b | q | s | items | fields];
      cbn [opt_length truthy] in *; try reflexivity; try discriminate Htext.
    apply negb_false_iff in Htext. apply String.eqb_eq in Htext. subst s.
    reflexivity. }
  unfold post_ingest. rewrite run_handler, run_bind, run_lift, Hclean.
  cbv zeta. rewrite Hroute, Hlabel, Hlength, Hnodes, Hedges.
  cbn [lift bind is_route orb when truthy iterate].
  rewrite run_bind.
  rewrite (run_for_of_accepted env (map JObj edges) _
             (fun edge => GraphAddEdge (opt_member edge "from") (opt_member edge "to")
                            (opt_member edge "type") (opt_member edge "weight"))).
  - rewrite List.map_map. cbn [opt_member run app]. rewrite List.app_nil_r.
    reflexivity.
  - intros edge Hin. apply List.in_map_iff in Hin. destruct Hin as (e & <- & He).
    cbn [member lift bind opt_member]. rewrite run_await, (Haccepted e He).
    reflexivity.
Qed.

Lemma post_ingest_edges_unvalidated_witness :
  run writes_accepted_env (post_ingest edges_payload)
  = ([CallOf (GraphAddEdge (JStr "a") (JStr "b") (JStr "FRIEND") (JNum 5))],
     Ok (Json {| routed_to := GRAPH_ONLY; cleaned_text_length := JNat 0 |})).
Proof.
  apply (post_ingest_edges_unvalidated writes_accepted_env edges_payload
           [unchecked_edge]); try reflexivity; try discriminate.
Defined.


(** ** hybrid.js and neo4jdb.js: the parameters of a node *)

Lemma node_data_field (id : JsVal) (fields : gmap string JsVal) :
  let nodeData :=
    spread (JObj fields)
    ∪ list_to_map [("name", fields.["name"] ||| id); ("type", fields.["type"]);
                   ("tags", fields.["tags"] ||| JArr [])] in
  nodeData.["name"] ||| id = fields.["name"] ||| id
  /\ nodeData.["type"] = fields.["type"]
  /\ nodeData.["tags"] ||| JArr [] = fields.["tags"] ||| JArr [].
Proof.
  cbv zeta. cbn [spread list_to_map foldr fst snd uncurry].
  assert (Hfield : forall (k : string) (fallback : JsVal) (rest : gmap string JsVal),
            (fields ∪ <[k := fallback]> rest).[k]
            = match fields !! k with Some v => v | None => fallback end).
  { intros k fallback rest. unfold field.
    destruct (fields !! k) as [v |] eqn:Hk.
    - rewrite (lookup_union_Some_l _ _ _ _ Hk). reflexivity.
    - rewrite (lookup_union_r _ _ _ Hk), lookup_insert_eq. reflexivity. }
  assert (Hskip : forall (k k' : string) (v : JsVal) (rest : gmap string JsVal),
            k <> k' -> (fields ∪ <[k' := v]> rest).[k] = (fields ∪ rest).[k]).
  { intros k k' v rest Hne. unfold field.
    destruct (fields !! k) as [w |] eqn:Hk.
    - rewrite !(lookup_union_Some_l _ _ _ _ Hk). reflexivity.
    - rewrite !(lookup_union_r _ _ _ Hk), lookup_insert_ne by congruence.
      reflexivity. }
  split; [| split].
  - rewrite Hfield. unfold field. destruct (fields !! "name") as [v |]; cbn [default];
      [reflexivity |].
    unfold js_or. cbn [truthy from_option]. destruct (truthy id); reflexivity.
  - rewrite Hskip by discriminate. rewrite Hfield. unfold field.
    destruct (fields !! "type"); reflexivity.
  - rewrite !Hskip by discriminate. rewrite Hfield. unfold field.
    destruct (fields !! "tags") as [v |]; reflexivity.
Qed.

(** X29: the node that POST /nodes hands to [Neo4jDB.addNode] for an object
    [metadata] reaches Neo4j, in one query, with the parameters
    [name = metadata.name || id], [type = metadata.type || 'unknown'] and
    [tags = metadata.tags || []], and with the node data as [props]; the type
    and the tags are therefore always truthy, and the name is whenever the id
    is.  The method resolves to the [n.id] of the first record, or to
    [undefined] when the query returns no record, and rejects with the
    query's error. *)
Theorem post_nodes_node_parameters (world : World) (history : list LibCall)
    (this : Neo4jDB.state) (id : JsVal) (fields : gmap string JsVal) :
  Neo4jDB.session this = true ->
  exists nodeData : JsVal,
    node_data id (JObj fields) = Ok nodeData
    /\ (let query :=
          SessionRun MergeNode
            [("id", id); ("name", fields.["name"] ||| id);
             ("type", fields.["type"] ||| JStr "unknown");
             ("tags", fields.["tags"] ||| JArr []); ("props", nodeData)] in
        exec world history (Neo4jDB.addNode id nodeData this)
        = ((history ++ [LibCallOf query])%list,
           (rbind (world history _ query)
                  (fun records => Neo4jDB.first_get records "n.id"),
            this)))
    /\ truthy (fields.["type"] ||| JStr "unknown") = true
    /\ truthy (fields.["tags"] ||| JArr []) = true
    /\ (truthy id = true -> truthy (fields.["name"] ||| id) = true).
Proof.
  intros Hsession. eexists. split; [reflexivity |].
  split; [| split; [| split]].
  - cbv zeta. unfold Neo4jDB.addNode, Neo4jDB.session_run.
    rewrite exec_m_bind. cbn [m_get exec]. rewrite Hsession. cbn [negb].
    destruct (node_data_field id fields) as (Hname & Htype & Htags).
    cbv zeta in Hname, Htype, Htags.
    cbn [spread list_to_map foldr fst snd uncurry member] in *.
    do 3 (rewrite exec_m_bind; cbn [m_lift exec]).
    rewrite Hname, Htype, Htags.
    rewrite exec_m_bind, exec_m_call.
    destruct (world history _ _) as [records | e]; reflexivity.
  - unfold js_or. destruct (truthy fields.["type"]) eqn:Htype; [exact Htype | reflexivity].
  - unfold js_or. destruct (truthy fields.["tags"]) eqn:Htags; [exact Htags | reflexivity].
  - intros Hid. unfold js_or.
    destruct (truthy fields.["name"]) eqn:Hname; [exact Hname | exact Hid].
Qed.

Lemma post_nodes_node_parameters_witness :
  exists nodeData : JsVal,
    node_data (JStr "n1") (JObj ∅) = Ok nodeData
    /\ truthy ((∅ : gmap string JsVal).["type"] ||| JStr "unknown") = true.
Proof.
  destruct (post_nodes_node_parameters accepting_world [] open_session (JStr "n1") ∅
              eq_refl) as (nodeData & Hdata & _ & Htype & _).
  exists nodeData. split; [exact Hdata | exact Htype].
Defined.


(** ** hybrid.js: the weight of an edge *)

(** X30: a falsy [weight] passes [validateEdgeSchema] without being compared
    with the bounds, so POST /edges accepts the weights [0], [null], [false]
    and the empty string like a missing one.  Only a missing weight is
    replaced by 1: the other falsy weights are handed to [graphDB.addEdge]
    and echoed in the answer as they were sent. *)
Theorem post_edges_falsy_weight (S2N : JsVal -> option Q) (env : Env)
    (body : gmap string JsVal) :
  truthy body.["source"] = true ->
  truthy body.["target"] = true ->
  includes edge_validTypes body.["type"] = true ->
  truthy body.["weight"] = false ->
  validateEdgeSchema S2N body = Ok true
  /\ (body.["weight"] <> JUndefined ->
      with_default body.["weight"] (JNum 1) = body.["weight"])
  /\ run env (post_edges S2N body)
     = ([CallOf (GraphAddEdge body.["source"] body.["target"] body.["type"]
                   (with_default body.["weight"] (JNum 1)))],
        match env _ (GraphAddEdge body.["source"] body.["target"] body.["type"]
                       (with_default body.["weight"] (JNum 1))) with
        | Ok _ =>
            Ok (Json {| edge_source := body.["source"];
                        edge_target := body.["target"];
                        edge_type := body.["type"];
                        edge_weight := with_default body.["weight"] (JNum 1) |})
        | Throw e => Ok (Status500 e)
        end).
Proof.
  intros Hsource Htarget Hincluded Hweight.
  assert (Htype : truthy body.["type"] = true).
  { destruct body.["type"] as [| | b | q | s | items | fields];
      try discriminate Hincluded.
    destruct s; [discriminate Hincluded | reflexivity]. }
  assert (Hvalid : validateEdgeSchema S2N body = Ok true).
  { unfold validateEdgeSchema.
    assert (Hnone : (0 <? List.length
                       (List.filter (fun f => js_not body.[f]) edge_required))
                    = false).
    { apply missing_fields_none. repeat constructor; assumption. }
    rewrite Hnone, Hincluded, Hweight. reflexivity. }
  split; [exact Hvalid |]. split.
  - intros Hsent. destruct body.["weight"]; try reflexivity. contradiction.
  - unfold post_edges. rewrite run_handler, run_bind, run_lift, Hvalid.
    cbv zeta. unfold js_not. rewrite Hsource, Htarget, Htype.
    cbn [negb orb]. rewrite run_bind, run_await.
    destruct (env _ (GraphAddEdge body.["source"] body.["target"] body.["type"]
                       (with_default body.["weight"] (JNum 1)))) as [[] | e];
      reflexivity.
Qed.

Lemma post_edges_falsy_weight_witness :
  validateEdgeSchema (fun _ => None) null_weight_edge = Ok true
  /\ calls writes_accepted_env (post_edges (fun _ => None) null_weight_edge)
     = [CallOf (GraphAddEdge (JStr "a") (JStr "b") (JStr "USES") JNull)].
Proof.
  destruct (post_edges_falsy_weight (fun _ => None) writes_accepted_env
              null_weight_edge eq_refl eq_refl eq_refl eq_refl)
    as (Hvalid & _ & Hrun).
  split; [exact Hvalid |].
  unfold calls. rewrite Hrun. reflexivity.
Defined.
